(** * Entitlement and usage metering of the notebook service

    A shallow embedding of the billing, entitlement and usage code of the
    repository:
    - [src/config/stripe.js]            (the static [PLANS] table),
    - [src/services/usageService.js]    ([UsageService]),
    - [src/services/aiService.js]       ([AIService.trackUsage],
                                         [calculateCost], [checkUsageLimit]),
    - [src/controllers/billingController.js] (the webhook handlers and the
                                         guest checkout),
    - [src/routes/billing.js]           (how the webhook is registered),
    and, further on, of the checkout and billing endpoints, of what
    [generateTitle] and [generateTags] make of a completion, of the gates at
    the head of the note, folder and tag handlers, and of [register] and
    [googleCallback] of the [AuthController].

    JavaScript numbers are IEEE 754 binary64 values, modelled by Rocq's
    primitive floats; the database behind the Prisma client is an explicit
    store threaded through a state-and-exception monad. *)

From Stdlib Require Import ZArith Bool Floats.
From stdpp Require Import base option list gmap strings pretty.
From stdpp Require Import sorting.
From Stdlib Require Import Ascii.

Set Warnings "-inexact-float".
Local Open Scope string_scope.
Local Open Scope list_scope.

(* ===================================================================== *)
(** * Cost accounting: [AIService.calculateCost]                          *)
(* ===================================================================== *)

Module Cost.

(** One entry of the object literal [costs]. *)
Record Rates := { input : float; output : float }.

(** What the property read [costs[type]] can evaluate to. The literal has
    the two own properties [text] and [vision]; every other name is looked
    up on [Object.prototype], where it finds a function or an object (which
    has neither an [input] nor an [output] property), or nothing. *)
Inductive JsValue :=
| JsUndefined
| JsRates (r : Rates)
| JsInherited (name : string).

(** The property names every ordinary object inherits from
    [Object.prototype] (ECMA-262, 20.1.3 and B.2.2). *)
Definition Object_prototype_keys : list string :=
  [ "constructor"; "hasOwnProperty"; "isPrototypeOf";
    "propertyIsEnumerable"; "toLocaleString"; "toString"; "valueOf";
    "__proto__"; "__defineGetter__"; "__defineSetter__";
    "__lookupGetter__"; "__lookupSetter__" ].

Definition costs_text : Rates :=
  {| input := 0.15 / 1000000; output := 0.6 / 1000000 |}%float.

Definition costs_vision : Rates :=
  {| input := 2.5 / 1000000; output := 10 / 1000000 |}%float.

(** [costs[type]] *)
Definition costs_get (type : string) : JsValue :=
  if decide (type = "text") then JsRates costs_text
  else if decide (type = "vision") then JsRates costs_vision
  else if decide (type ∈ Object_prototype_keys) then JsInherited type
  else JsUndefined.

(** JavaScript truthiness: only [undefined] is falsy here. *)
Definition truthy (v : JsValue) : bool :=
  match v with JsUndefined => false | _ => true end.

(** [a || b] *)
Definition js_or (a b : JsValue) : JsValue := if truthy a then a else b.

(** [v.input] and [v.output]; [None] is [undefined]. *)
Definition get_input (v : JsValue) : option float :=
  match v with JsRates r => Some (input r) | _ => None end.

Definition get_output (v : JsValue) : option float :=
  match v with JsRates r => Some (output r) | _ => None end.

(** ToNumber on the operand of [*]: [undefined] becomes [NaN]. *)
Definition to_number (v : option float) : float :=
  match v with Some x => x | None => nan end.

(** [static calculateCost(tokens, type = 'text')] *)
Definition calculateCost (tokens : float) (type : string) : float :=
  let inputTokens := (tokens * 0.7)%float in
  let outputTokens := (tokens * 0.3)%float in
  let costType := js_or (costs_get type) (costs_get "text") in
  (inputTokens * to_number (get_input costType)
   + outputTokens * to_number (get_output costType))%float.

(** The call [calculateCost(tokens)], with the parameter default. *)
Definition calculateCost_default (tokens : float) : float :=
  calculateCost tokens "text".

(** The two operation classes of the specification, with the rates it
    quotes per million tokens. *)
Inductive OperationClass := text | vision.

Definition class_name (c : OperationClass) : string :=
  match c with text => "text" | vision => "vision" end.

Definition perMillionInput (c : OperationClass) : float :=
  match c with text => 0.15 | vision => 2.5 end%float.

Definition perMillionOutput (c : OperationClass) : float :=
  match c with text => 0.6 | vision => 10 end%float.

Definition inputRate (c : OperationClass) : float :=
  (perMillionInput c / 1000000)%float.

Definition outputRate (c : OperationClass) : float :=
  (perMillionOutput c / 1000000)%float.

End Cost.

(* ===================================================================== *)
(** * Static configuration: [src/config/stripe.js]                        *)
(* ===================================================================== *)

Module PlanType.
Inductive t := FREE | PRO.
#[global] Instance eq_dec : EqDecision t.
Proof. solve_decision. Defined.
End PlanType.

(** The part of [process.env] and of the host the code reads: the Stripe
    key and price id, and the host's time zone as ECMA-262 has it,
    [LocalTZA(t, isUTC)]: the offset of local time from UTC in milliseconds
    that is in force at the time value [t], [t] being a UTC time value when
    [isUTC] is true and a local one otherwise. With daylight saving the
    offset depends on [t]. *)
Record Env := {
  STRIPE_SECRET_KEY : option string;
  STRIPE_PRO_PRICE_ID : option string;
  LocalTZA : Z -> bool -> Z;
}.

(** Truthiness of an optional string: [undefined], [null] and [''] are
    falsy. *)
Definition str_truthy (a : option string) : bool :=
  match a with
  | Some s => negb (bool_decide (s = ""))
  | None => false
  end.

(** [a || d] with a string default. *)
Definition str_or (a : option string) (d : string) : string :=
  if str_truthy a then default d a else d.

(** [a || b] on optional strings. *)
Definition opt_or (a b : option string) : option string :=
  if str_truthy a then a else b.

Record Features := {
  conversionsPerMonth : Z;
  notesLimit : Z;
  aiFeatures : bool;
  exportFormats : list string;
  folders : bool;
  tags : bool;
}.

Record Plan := {
  name : string;
  price : float;
  priceId : option string;
  features : Features;
}.

(** [export const PLANS = { FREE: {...}, PRO: {...} }] *)
Definition PLANS (env : Env) (planType : PlanType.t) : Plan :=
  match planType with
  | PlanType.FREE =>
      {| name := "Free"; price := 0%float; priceId := None;
         features := {| conversionsPerMonth := 10; notesLimit := 20;
                        aiFeatures := false; exportFormats := [];
                        folders := false; tags := false |} |}
  | PlanType.PRO =>
      {| name := "Pro"; price := 12.99%float;
         priceId := Some (str_or (STRIPE_PRO_PRICE_ID env) "price_pro_monthly");
         features := {| conversionsPerMonth := -1; notesLimit := -1;
                        aiFeatures := true;
                        exportFormats := ["pdf"; "txt"; "markdown"];
                        folders := true; tags := true |} |}
  end.

(** [PLANS[key]] for a key that is a string. *)
Definition PLANS_get (env : Env) (key : string) : option Plan :=
  if decide (key = "FREE") then Some (PLANS env PlanType.FREE)
  else if decide (key = "PRO") then Some (PLANS env PlanType.PRO)
  else None.

(* ===================================================================== *)
(** * JavaScript [Date]: time values and the two setters the code calls   *)
(* ===================================================================== *)

(** A [Date] is its time value, the milliseconds since the epoch (UTC). The
    day and month arithmetic is that of ECMA-262, 21.4.1; local time is UTC
    shifted by the offset [LocalTZA] of the host's zone at that time. *)
Module JsDate.
Local Open Scope Z_scope.

Definition msPerDay : Z := 86400000.
Definition Day (t : Z) : Z := t `div` msPerDay.
Definition TimeWithinDay (t : Z) : Z := t `mod` msPerDay.

Definition InLeapYear_of (y : Z) : bool :=
  if negb (y `mod` 4 =? 0) then false
  else if negb (y `mod` 100 =? 0) then true
  else if negb (y `mod` 400 =? 0) then false
  else true.

Definition DayFromYear (y : Z) : Z :=
  365 * (y - 1970) + (y - 1969) `div` 4 - (y - 1901) `div` 100
  + (y - 1601) `div` 400.

(** The largest year [y] with [DayFromYear y <= Day t]: a lower estimate,
    then a walk upwards. Over the time values a [Date] can hold (a hundred
    million days either side of the epoch) the estimate is less than six
    hundred years low, so the walk ends before its bound. *)
Fixpoint year_walk (fuel : nat) (d y : Z) : Z :=
  match fuel with
  | O => y
  | S fuel' => if DayFromYear (y + 1) <=? d then year_walk fuel' d (y + 1) else y
  end.

Definition YearFromTime (t : Z) : Z :=
  let d := Day t in
  let y0 := if 0 <=? d then 1970 + d `div` 366 else 1970 + d `div` 365 in
  year_walk 1024 d y0.

Definition DayWithinYear (t : Z) : Z := Day t - DayFromYear (YearFromTime t).

(** First day (within the year) of each month, January to December. *)
Definition month_starts (leap : bool) : list Z :=
  let l := if leap then 1 else 0 in
  [0; 31; 59 + l; 90 + l; 120 + l; 151 + l; 181 + l; 212 + l; 243 + l;
   273 + l; 304 + l; 334 + l].

Definition MonthFromTime (t : Z) : Z :=
  let dy := DayWithinYear t in
  Z.of_nat (length (filter (λ s, s <= dy) (month_starts (InLeapYear_of (YearFromTime t))))) - 1.

Definition month_start (leap : bool) (m : Z) : Z :=
  default 0 (month_starts leap !! Z.to_nat m).

Definition DateFromTime (t : Z) : Z :=
  DayWithinYear t
  - month_start (InLeapYear_of (YearFromTime t)) (MonthFromTime t) + 1.

Definition MakeTime (hour min sec ms : Z) : Z :=
  ((hour * 60 + min) * 60 + sec) * 1000 + ms.

(** [MakeDay(year, month, date)] for a month within 0..11. *)
Definition MakeDay (year month date : Z) : Z :=
  DayFromYear year + month_start (InLeapYear_of year) month + date - 1.

Definition MakeDate (day time : Z) : Z := day * msPerDay + time.

(** [LocalTime(t)] and [UTC(t)] of ECMA-262. *)
Definition LocalTime (env : Env) (t : Z) : Z := t + LocalTZA env t true.
Definition UTC (env : Env) (t : Z) : Z := t - LocalTZA env t false.

(** [d.setDate(date)] *)
Definition setDate (env : Env) (date : Z) (d : Z) : Z :=
  let t := LocalTime env d in
  UTC env (MakeDate (MakeDay (YearFromTime t) (MonthFromTime t) date)
                    (TimeWithinDay t)).

(** [d.setHours(hour, min, sec, ms)] *)
Definition setHours (env : Env) (hour min sec ms : Z) (d : Z) : Z :=
  let t := LocalTime env d in
  UTC env (MakeDate (Day t) (MakeTime hour min sec ms)).

(** [new Date(year, month, date, hours, minutes, seconds, ms)] in UTC,
    used to write instants down in examples. *)
Definition utc (year month date hours minutes seconds ms : Z) : Z :=
  MakeDate (MakeDay year (month - 1) date) (MakeTime hours minutes seconds ms).
End JsDate.

(* ===================================================================== *)
(** * The persisted data model                                            *)
(* ===================================================================== *)

Module Role.
Inductive t := USER | PRO | ADMIN.
#[global] Instance eq_dec : EqDecision t.
Proof. solve_decision. Defined.
End Role.

Module Status.
Inductive t := ACTIVE | PAST_DUE | CANCELED | INCOMPLETE.
#[global] Instance eq_dec : EqDecision t.
Proof. solve_decision. Defined.
End Status.

(** Modelled from the spec: the Prisma schema is not among the sources.
    The tables have the columns of the specification's data model (section
    3) under the names the code reads and writes; of a user, the columns the
    billing code uses. *)
Record User := {
  user_id : string;
  email : string;
  user_name : option string;
  role : Role.t;
}.

(** Modelled from the spec: the [Subscription] of section 3. *)
Record Subscription := {
  sub_id : nat;
  userId : string;
  planType : PlanType.t;
  status : Status.t;
  stripeCustomerId : option string;
  stripeSubscriptionId : option string;
  currentPeriodStart : option Z;
  currentPeriodEnd : option Z;
  cancelAtPeriodEnd : bool;
  createdAt : Z;
  deletedAt : option Z;
}.

(** The opaque key/value bag stored with a usage or payment row. *)
Definition Metadata : Type := list (string * string).

(** Modelled from the spec: the [UsageRecord] of section 3. *)
Record AIUsage := {
  usage_id : nat;
  usage_userId : string;
  usage_noteId : option nat;
  operation : string;
  tokensUsed : float;
  cost : float;
  usage_metadata : Metadata;
  usage_createdAt : Z;
}.

(** Modelled from the spec: of a note, the columns the quota check reads. *)
Record Note := {
  note_id : nat;
  note_userId : string;
  note_deletedAt : option Z;
}.

(** Modelled from the spec: the [PaymentRecord] of section 3. *)
Record PaymentHistory := {
  payment_id : nat;
  payment_userId : string;
  stripePaymentId : option string;
  amount : float;
  currency : string;
  payment_planType : PlanType.t;
  payment_status : string;
  payment_metadata : Metadata;
  payment_createdAt : Z;
}.

(** The database: users by primary key, the other tables as their rows in
    insertion order, and the supply of fresh row identifiers. *)
Record DB := {
  users : gmap string User;
  subscriptions : list Subscription;
  aIUsage : list AIUsage;
  notes : list Note;
  paymentHistory : list PaymentHistory;
  nextId : nat;
}.

(** ** The payment provider's objects *)

Record StripeSubscription := {
  ss_id : string;
  ss_status : string;
  current_period_start : Z;
  current_period_end : Z;
  cancel_at_period_end : bool;
}.

Record SessionMetadata := {
  md_userId : option string;
  md_email : option string;
  md_planType : option string;
  md_originalPlanType : option string;
  md_billingCycle : option string;
}.

Record CheckoutSession := {
  cs_id : string;
  cs_customer : option string;
  customer_email : option string;
  cs_payment_status : string;
  cs_subscription : option string;
  cs_metadata : option SessionMetadata;
}.

Record Invoice := {
  inv_id : string;
  inv_subscription : option string;
  payment_intent : option string;
  amount_paid : float;
  inv_currency : string;
}.

Record StripeCustomer := {
  cus_id : string;
  cus_email : string;
  cus_metadata : SessionMetadata;
}.

(** What the provider holds on its side. *)
Record Stripe := {
  stripe_subscriptions : list StripeSubscription;
  stripe_customers : list StripeCustomer;
  stripe_sessions : list CheckoutSession;
}.

(** ** The world a request runs in *)

Inductive Error :=
| PersistenceError        (* the storage layer refused a write *)
| RecordNotFound          (* [update] found no row for its unique [where] *)
| UniqueConstraintFailed  (* a unique column would hold a value twice *)
| ForeignKeyFailed        (* a row would reference a user that is absent *)
| ValidationError         (* a unique [where] was given no value *)
| StripeError             (* a call to the payment provider failed *)
| TypeError.              (* a property of [undefined] was read *)

Record World := {
  env : Env;
  db : DB;
  provider : Stripe;
  clock : Z;                (* what [new Date()] and [now()] read *)
  storage_ok : bool;        (* does the storage layer accept writes *)
  console : list string;    (* lines written by [console.error]/[console.log] *)
}.

Definition set_db (d : DB) (w : World) : World :=
  {| env := env w; db := d; provider := provider w; clock := clock w;
     storage_ok := storage_ok w; console := console w |}.

Definition set_provider (s : Stripe) (w : World) : World :=
  {| env := env w; db := db w; provider := s; clock := clock w;
     storage_ok := storage_ok w; console := console w |}.

Definition add_console (line : string) (w : World) : World :=
  {| env := env w; db := db w; provider := provider w; clock := clock w;
     storage_ok := storage_ok w; console := console w ++ [line] |}.

(* ===================================================================== *)
(** * Asynchronous code as a state-and-exception monad                    *)
(* ===================================================================== *)

Inductive Outcome (A : Type) :=
| Return (a : A)
| Throw (e : Error).
Arguments Return {A} a.
Arguments Throw {A} e.

(** An [async] function: it runs against the world and either returns or
    throws; what it wrote before throwing stays written. *)
Definition Prog (A : Type) : Type := World -> Outcome A * World.

#[global] Instance Prog_ret : MRet Prog := λ A a w, (Return a, w).

#[global] Instance Prog_bind : MBind Prog := λ A B f m w,
  match m w with
  | (Return a, w') => f a w'
  | (Throw e, w') => (Throw e, w')
  end.

Definition throw {A} (e : Error) : Prog A := λ w, (Throw e, w).

(** [try { m } catch (error) { h error }] *)
Definition try_catch {A} (m : Prog A) (h : Error -> Prog A) : Prog A := λ w,
  match m w with
  | (Return a, w') => (Return a, w')
  | (Throw e, w') => h e w'
  end.

Definition get_world : Prog World := λ w, (Return w, w).

(** The value a run returned, if it returned. *)
Definition fst_return {A} (r : Outcome A * World) : option A :=
  match fst r with Return a => Some a | Throw _ => None end.
Definition console_error (line : string) : Prog unit :=
  λ w, (Return (), add_console line w).
Definition console_log (line : string) : Prog unit :=
  λ w, (Return (), add_console line w).

(* ===================================================================== *)
(** * The Prisma client                                                   *)
(* ===================================================================== *)

Module prisma.

Definition read {A} (f : DB -> A) : Prog A := λ w, (Return (f (db w)), w).

Definition write (f : DB -> DB) : Prog unit := λ w,
  if storage_ok w then (Return (), set_db (f (db w)) w)
  else (Throw PersistenceError, w).

Definition now : Prog Z := λ w, (Return (clock w), w).

Definition set_subscriptions (l : list Subscription) (d : DB) : DB :=
  {| users := users d; subscriptions := l; aIUsage := aIUsage d;
     notes := notes d; paymentHistory := paymentHistory d;
     nextId := nextId d |}.

Definition set_users (m : gmap string User) (d : DB) : DB :=
  {| users := m; subscriptions := subscriptions d; aIUsage := aIUsage d;
     notes := notes d; paymentHistory := paymentHistory d;
     nextId := nextId d |}.

Module subscription.

Inductive OrderBy := unordered | createdAt_desc.

(** The first row of the rows sorted by [createdAt], latest first; of
    rows created at the same instant the earlier in the table wins. *)
Fixpoint latest (rows : list Subscription) : option Subscription :=
  match rows with
  | [] => None
  | r :: rest =>
      match latest rest with
      | None => Some r
      | Some b => if (createdAt r <? createdAt b)%Z then Some b else Some r
      end
  end.

(** [findFirst({ where, orderBy })] *)
Definition findFirst (where_ : Subscription -> Prop)
    `{!∀ r, Decision (where_ r)} (orderBy : OrderBy)
  : Prog (option Subscription) :=
  read (λ d, match orderBy with
             | unordered => head (filter where_ (subscriptions d))
             | createdAt_desc => latest (filter where_ (subscriptions d))
             end).

(** [findUnique({ where: { stripeSubscriptionId } })] *)
Definition findUnique_stripeSubscriptionId (id : string)
  : Prog (option Subscription) :=
  read (λ d, head (filter (λ r, stripeSubscriptionId r = Some id)
                          (subscriptions d))).

(** [data] applied to the row whose primary key is [id]. *)
Definition on_id (id : nat) (data : Subscription -> Subscription)
    (r : Subscription) : Subscription :=
  if decide (sub_id r = id) then data r else r.

(** [update({ where: { id }, data })]: the row with that primary key. *)
Definition update (id : nat) (data : Subscription -> Subscription)
  : Prog unit :=
  rows ← read subscriptions;
  if decide (Exists (λ r, sub_id r = id) rows) then
    write (set_subscriptions (on_id id data <$> rows))
  else throw RecordNotFound.

(** [updateMany({ where, data })] *)
Definition updateMany (where_ : Subscription -> Prop)
    `{!∀ r, Decision (where_ r)} (data : Subscription -> Subscription)
  : Prog unit :=
  rows ← read subscriptions;
  write (set_subscriptions ((λ r, if decide (where_ r) then data r else r) <$> rows)).

(** The [data] of a [create]. Modelled from the spec: the remaining
    columns take the defaults of the schema, which is not among the sources
    (a fresh [id], [cancelAtPeriodEnd = false], [createdAt = now()],
    [deletedAt = null]). *)
Record CreateData := {
  c_userId : string;
  c_stripeCustomerId : option string;
  c_stripeSubscriptionId : option string;
  c_planType : PlanType.t;
  c_status : Status.t;
  c_currentPeriodStart : option Z;
  c_currentPeriodEnd : option Z;
}.

Definition new_row (id : nat) (t : Z) (c : CreateData) : Subscription :=
  {| sub_id := id; userId := c_userId c; planType := c_planType c;
     status := c_status c; stripeCustomerId := c_stripeCustomerId c;
     stripeSubscriptionId := c_stripeSubscriptionId c;
     currentPeriodStart := c_currentPeriodStart c;
     currentPeriodEnd := c_currentPeriodEnd c;
     cancelAtPeriodEnd := false; createdAt := t; deletedAt := None |}.

(** [create({ data })]. Modelled from the spec: a row belongs to a user,
    and the external subscription id is unique when present (section 3), so
    the owner must exist and the id, when given, must be new. *)
Definition create (c : CreateData) : Prog Subscription :=
  d ← read id;
  t ← now;
  if decide (users d !! c_userId c = None) then throw ForeignKeyFailed
  else if decide (is_Some (c_stripeSubscriptionId c)
                  ∧ Exists (λ r, stripeSubscriptionId r = c_stripeSubscriptionId c)
                           (subscriptions d))
  then throw UniqueConstraintFailed
  else
    let row := new_row (nextId d) t c in
    _ ← write (λ d, {| users := users d;
                       subscriptions := subscriptions d ++ [row];
                       aIUsage := aIUsage d; notes := notes d;
                       paymentHistory := paymentHistory d;
                       nextId := S (nextId d) |});
    mret row.

End subscription.

Module user.

(** [findUnique({ where: { email } })] *)
Definition findUnique_email (e : string) : Prog (option User) :=
  read (λ d, head (filter (λ u, email u = e) (snd <$> map_to_list (users d)))).

(** [update({ where: { id }, data })] *)
Definition update (id : string) (data : User -> User) : Prog unit :=
  m ← read users;
  if decide (is_Some (m !! id)) then write (set_users (alter data id m))
  else throw RecordNotFound.

End user.

Module aIUsage.

Record CreateData := {
  c_userId : string;
  c_noteId : option nat;
  c_operation : string;
  c_tokensUsed : float;
  c_cost : float;
  c_metadata : Metadata;
}.

Definition new_row (id : nat) (t : Z) (c : CreateData) : AIUsage :=
  {| usage_id := id; usage_userId := c_userId c; usage_noteId := c_noteId c;
     operation := c_operation c; tokensUsed := c_tokensUsed c;
     cost := c_cost c; usage_metadata := c_metadata c;
     usage_createdAt := t |}.

(** [create({ data })]. Modelled from the spec: a usage record is owned by
    a user (section 3), who must exist. *)
Definition create (c : CreateData) : Prog AIUsage :=
  d ← read id;
  t ← now;
  if decide (users d !! c_userId c = None) then throw ForeignKeyFailed
  else
    let row := new_row (nextId d) t c in
    _ ← write (λ d, {| users := users d; subscriptions := subscriptions d;
                       aIUsage := aIUsage d ++ [row]; notes := notes d;
                       paymentHistory := paymentHistory d;
                       nextId := S (nextId d) |});
    mret row.

(** [count({ where })] *)
Definition count (where_ : AIUsage -> Prop) `{!∀ r, Decision (where_ r)}
  : Prog nat :=
  read (λ d, length (filter where_ (aIUsage d))).

End aIUsage.

Module note.
(** [count({ where })] *)
Definition count (where_ : Note -> Prop) `{!∀ r, Decision (where_ r)}
  : Prog nat :=
  read (λ d, length (filter where_ (notes d))).
End note.

Module paymentHistory.

Record CreateData := {
  c_userId : string;
  c_stripePaymentId : option string;
  c_amount : float;
  c_currency : string;
  c_planType : PlanType.t;
  c_status : string;
  c_metadata : Metadata;
}.

Definition new_row (id : nat) (t : Z) (c : CreateData) : PaymentHistory :=
  {| payment_id := id; payment_userId := c_userId c;
     stripePaymentId := c_stripePaymentId c; amount := c_amount c;
     currency := c_currency c; payment_planType := c_planType c;
     payment_status := c_status c; payment_metadata := c_metadata c;
     payment_createdAt := t |}.

Definition create (c : CreateData) : Prog PaymentHistory :=
  d ← read id;
  t ← now;
  if decide (users d !! c_userId c = None) then throw ForeignKeyFailed
  else
    let row := new_row (nextId d) t c in
    _ ← write (λ d, {| users := users d; subscriptions := subscriptions d;
                       aIUsage := aIUsage d; notes := notes d;
                       paymentHistory := paymentHistory d ++ [row];
                       nextId := S (nextId d) |});
    mret row.

End paymentHistory.

End prisma.

(* ===================================================================== *)
(** * [UsageService] and the metering half of [AIService]                *)
(* ===================================================================== *)

(** The object the quota checks return; a field that the returned literal
    does not have is [None]. *)
Record Quota := {
  allowed : bool;
  used : option nat;
  limit : option Z;
}.

Module UsageService.

Record UserPlan := {
  up_planType : PlanType.t;
  up_subscription : option Subscription;
  up_plan : Plan;
}.

(** [static async getUserPlan(userId)] *)
Definition getUserPlan (userId' : string) : Prog UserPlan :=
  subscription ← prisma.subscription.findFirst
                   (λ r, userId r = userId' ∧ deletedAt r = None)
                   prisma.subscription.createdAt_desc;
  w ← get_world;
  let planType' := match subscription with
                   | Some s => planType s
                   | None => PlanType.FREE
                   end in
  mret {| up_planType := planType'; up_subscription := subscription;
          up_plan := PLANS (env w) planType' |}.

(** [static async canCreateNote(userId)] *)
Definition canCreateNote (userId' : string) : Prog Quota :=
  r ← getUserPlan userId';
  let plan := up_plan r in
  if decide (notesLimit (features plan) = (-1)%Z) then
    mret {| allowed := true; used := None; limit := None |}
  else
    noteCount ← prisma.note.count
                  (λ n, note_userId n = userId' ∧ note_deletedAt n = None);
    mret {| allowed := bool_decide (Z.of_nat noteCount < notesLimit (features plan))%Z;
            used := Some noteCount;
            limit := Some (notesLimit (features plan)) |}.

End UsageService.

Module AIService.

(** [static async trackUsage(userId, operation, tokensUsed, cost,
    noteId = null, metadata = {})] *)
Definition trackUsage (userId' operation' : string) (tokensUsed' cost' : float)
    (noteId : option nat) (metadata : Metadata) : Prog unit :=
  try_catch
    (_ ← prisma.aIUsage.create
           {| prisma.aIUsage.c_userId := userId';
              prisma.aIUsage.c_noteId := noteId;
              prisma.aIUsage.c_operation := operation';
              prisma.aIUsage.c_tokensUsed := tokensUsed';
              prisma.aIUsage.c_cost := cost';
              prisma.aIUsage.c_metadata := metadata |};
     mret ())
    (λ error, console_error "Failed to track AI usage:").

(** [const startOfMonth = new Date(); startOfMonth.setDate(1);
    startOfMonth.setHours(0, 0, 0, 0);] *)
Definition startOfMonth (env : Env) (now : Z) : Z :=
  JsDate.setHours env 0 0 0 0 (JsDate.setDate env 1 now).

(** [static async checkUsageLimit(userId, planType)]; the caller's
    [planType] is any JavaScript value, [None] being [undefined]. *)
Definition checkUsageLimit (userId' : string) (planType' : option string)
  : Prog Quota :=
  if decide (planType' = Some "PRO") then
    mret {| allowed := true; used := None; limit := None |}
  else
    w ← get_world;
    let startOfMonth := startOfMonth (env w) (clock w) in
    usageCount ← prisma.aIUsage.count
                   (λ r, usage_userId r = userId' ∧ operation r = "ocr"
                         ∧ (startOfMonth <= usage_createdAt r)%Z);
    let limit' := 10%Z in
    mret {| allowed := bool_decide (Z.of_nat usageCount < limit')%Z;
            used := Some usageCount;
            limit := Some limit' |}.

End AIService.

(** ** The quota gates at the head of [NoteController.createNote] *)

Inductive Gate :=
| note_limit_reached (limit : option Z)
| conversion_limit_reached (used : option nat) (limit : option Z)
| gate_open.

Module NoteController.

(** [plan.planType] where [plan] is an entry of [PLANS]: the entries have
    the properties [name], [price], [priceId] and [features], so this one is
    [undefined]. *)
Definition plan_planType (plan : Plan) : option string := None.

(** [createNote] up to the second gate: [const { plan } = await
    UsageService.getUserPlan(userId)], the note quota, then
    [AIService.checkUsageLimit(userId, plan.planType)]. *)
Definition createNote_gate (userId' : string) : Prog Gate :=
  r ← UsageService.getUserPlan userId';
  let plan := UsageService.up_plan r in
  canCreate ← UsageService.canCreateNote userId';
  if negb (allowed canCreate) then mret (note_limit_reached (limit canCreate))
  else
    usageCheck ← AIService.checkUsageLimit userId' (plan_planType plan);
    if negb (allowed usageCheck)
    then mret (conversion_limit_reached (used usageCheck) (limit usageCheck))
    else mret gate_open.

End NoteController.

(* ===================================================================== *)
(** * The Stripe client                                                   *)
(* ===================================================================== *)

Module stripe.

(** [export const stripe = process.env.STRIPE_SECRET_KEY ? new Stripe(..)
    : null]: is the client there. *)
Definition configured (e : Env) : bool := str_truthy (STRIPE_SECRET_KEY e).

Module subscriptions.
(** [stripe.subscriptions.retrieve(id)]: the provider's subscription
    with that id; the call fails when there is none. *)
Definition retrieve (id : option string) : Prog StripeSubscription := λ w,
  match id with
  | None => (Throw StripeError, w)
  | Some i =>
      match head (filter (λ s, ss_id s = i)
                         (stripe_subscriptions (provider w))) with
      | Some s => (Return s, w)
      | None => (Throw StripeError, w)
      end
  end.
End subscriptions.

Module customers.
(** [stripe.customers.create({ email, metadata })] *)
Definition create (email' : string) (metadata : SessionMetadata)
  : Prog StripeCustomer := λ w,
  let p := provider w in
  let c := {| cus_id := "cus_" +:+ pretty (length (stripe_customers p));
              cus_email := email'; cus_metadata := metadata |} in
  (Return c,
   set_provider {| stripe_subscriptions := stripe_subscriptions p;
                   stripe_customers := stripe_customers p ++ [c];
                   stripe_sessions := stripe_sessions p |} w).
End customers.

Module checkout_sessions.
(** [stripe.checkout.sessions.create({ customer, customer_email,
    metadata, ... })]: a new, unpaid session without a subscription. *)
Definition create (customer : string) (customer_email' : option string)
    (metadata : SessionMetadata) : Prog CheckoutSession := λ w,
  let p := provider w in
  let s := {| cs_id := "cs_" +:+ pretty (length (stripe_sessions p));
              cs_customer := Some customer;
              customer_email := customer_email';
              cs_payment_status := "unpaid";
              cs_subscription := None;
              cs_metadata := Some metadata |} in
  (Return s,
   set_provider {| stripe_subscriptions := stripe_subscriptions p;
                   stripe_customers := stripe_customers p;
                   stripe_sessions := stripe_sessions p ++ [s] |} w).
End checkout_sessions.

End stripe.

(* ===================================================================== *)
(** * [BillingController]                                                 *)
(* ===================================================================== *)

(** ** Row updates written as [data: { ... }] *)

Definition set_deletedAt (t : option Z) (r : Subscription) : Subscription :=
  {| sub_id := sub_id r; userId := userId r; planType := planType r;
     status := status r; stripeCustomerId := stripeCustomerId r;
     stripeSubscriptionId := stripeSubscriptionId r;
     currentPeriodStart := currentPeriodStart r;
     currentPeriodEnd := currentPeriodEnd r;
     cancelAtPeriodEnd := cancelAtPeriodEnd r; createdAt := createdAt r;
     deletedAt := t |}.

Definition set_status (s : Status.t) (r : Subscription) : Subscription :=
  {| sub_id := sub_id r; userId := userId r; planType := planType r;
     status := s; stripeCustomerId := stripeCustomerId r;
     stripeSubscriptionId := stripeSubscriptionId r;
     currentPeriodStart := currentPeriodStart r;
     currentPeriodEnd := currentPeriodEnd r;
     cancelAtPeriodEnd := cancelAtPeriodEnd r; createdAt := createdAt r;
     deletedAt := deletedAt r |}.

Definition set_planType (p : PlanType.t) (r : Subscription) : Subscription :=
  {| sub_id := sub_id r; userId := userId r; planType := p;
     status := status r; stripeCustomerId := stripeCustomerId r;
     stripeSubscriptionId := stripeSubscriptionId r;
     currentPeriodStart := currentPeriodStart r;
     currentPeriodEnd := currentPeriodEnd r;
     cancelAtPeriodEnd := cancelAtPeriodEnd r; createdAt := createdAt r;
     deletedAt := deletedAt r |}.

Definition set_period (start_ end_ : option Z) (cancel : bool)
    (r : Subscription) : Subscription :=
  {| sub_id := sub_id r; userId := userId r; planType := planType r;
     status := status r; stripeCustomerId := stripeCustomerId r;
     stripeSubscriptionId := stripeSubscriptionId r;
     currentPeriodStart := start_; currentPeriodEnd := end_;
     cancelAtPeriodEnd := cancel; createdAt := createdAt r;
     deletedAt := deletedAt r |}.

Definition set_role (x : Role.t) (u : User) : User :=
  {| user_id := user_id u; email := email u; user_name := user_name u;
     role := x |}.

(** A provider event after signature verification, by its [type]. *)
Inductive Event :=
| checkout_session_completed (session : CheckoutSession)
| customer_subscription_created (subscription : StripeSubscription)
| customer_subscription_updated (subscription : StripeSubscription)
| customer_subscription_deleted (subscription : StripeSubscription)
| invoice_payment_succeeded (invoice : Invoice)
| invoice_payment_failed (invoice : Invoice)
| other_event (type : string).

Inductive WebhookResponse :=
| status_503            (* Stripe is not configured *)
| status_400            (* the signature did not verify *)
| received              (* [res.json({ received: true })] *)
| next_error (e : Error).

(** The body of a guest checkout request and the handler's responses. *)
Record GuestCheckoutBody := {
  body_planType : option string;
  body_billingCycle : option string;
  body_email : option string;
}.

Inductive CheckoutResponse :=
| checkout_error (status : nat) (error : string)
| checkout_json (sessionId : string)
| checkout_next (e : Error).

Module BillingController.

(** [new Date(seconds * 1000)] *)
Definition Date_of_seconds (s : Z) : option Z := Some (s * 1000)%Z.

(** [static async handleCheckoutCompleted(session)] *)
Definition handleCheckoutCompleted (session : CheckoutSession) : Prog unit :=
  let userId' := cs_metadata session ≫= md_userId in
  let email' := opt_or (cs_metadata session ≫= md_email) (customer_email session) in
  if negb (str_truthy userId') && negb (str_truthy email') then mret ()
  else
    subscription ← stripe.subscriptions.retrieve (cs_subscription session);
    if bool_decide (userId' = Some "pending") || negb (str_truthy userId')
    then mret ()
    else
      let uid := default "" userId' in
      t ← prisma.now;
      _ ← prisma.subscription.updateMany (λ r, userId r = uid)
            (set_deletedAt (Some t));
      _ ← prisma.subscription.create
            {| prisma.subscription.c_userId := uid;
               prisma.subscription.c_stripeCustomerId := cs_customer session;
               prisma.subscription.c_stripeSubscriptionId := Some (ss_id subscription);
               prisma.subscription.c_planType := PlanType.PRO;
               prisma.subscription.c_status :=
                 if decide (ss_status subscription = "active")
                 then Status.ACTIVE else Status.INCOMPLETE;
               prisma.subscription.c_currentPeriodStart :=
                 Date_of_seconds (current_period_start subscription);
               prisma.subscription.c_currentPeriodEnd :=
                 Date_of_seconds (current_period_end subscription) |};
      prisma.user.update uid (set_role Role.PRO).

(** The nested conditional of [handleSubscriptionUpdate]. *)
Definition map_status (s : string) : Status.t :=
  if decide (s = "active") then Status.ACTIVE
  else if decide (s = "canceled") then Status.CANCELED
  else if decide (s = "past_due") then Status.PAST_DUE
  else Status.INCOMPLETE.

(** The [data] of the update in [handleSubscriptionUpdate]. *)
Definition update_data (subscription : StripeSubscription)
    (r : Subscription) : Subscription :=
  set_period (Date_of_seconds (current_period_start subscription))
             (Date_of_seconds (current_period_end subscription))
             (cancel_at_period_end subscription)
             (set_status (map_status (ss_status subscription)) r).

(** [static async handleSubscriptionUpdate(subscription)] *)
Definition handleSubscriptionUpdate (subscription : StripeSubscription)
  : Prog unit :=
  dbSubscription ← prisma.subscription.findUnique_stripeSubscriptionId
                     (ss_id subscription);
  match dbSubscription with
  | None => mret ()
  | Some row => prisma.subscription.update (sub_id row) (update_data subscription)
  end.

(** The [data] of the update in [handleSubscriptionDeleted]. *)
Definition deleted_data (r : Subscription) : Subscription :=
  set_planType PlanType.FREE (set_status Status.CANCELED r).

(** [static async handleSubscriptionDeleted(subscription)] *)
Definition handleSubscriptionDeleted (subscription : StripeSubscription)
  : Prog unit :=
  dbSubscription ← prisma.subscription.findUnique_stripeSubscriptionId
                     (ss_id subscription);
  match dbSubscription with
  | None => mret ()
  | Some row =>
      _ ← prisma.subscription.update (sub_id row) deleted_data;
      prisma.user.update (userId row) (set_role Role.USER)
  end.

(** [findUnique({ where: { stripeSubscriptionId: invoice.subscription } })]:
    a unique [where] without a value is refused by the client. *)
Definition find_by_invoice (invoice : Invoice) : Prog (option Subscription) :=
  match inv_subscription invoice with
  | None => throw ValidationError
  | Some id => prisma.subscription.findUnique_stripeSubscriptionId id
  end.

(** [static async handlePaymentSucceeded(invoice)] *)
Definition handlePaymentSucceeded (invoice : Invoice) : Prog unit :=
  subscription ← find_by_invoice invoice;
  match subscription with
  | None => mret ()
  | Some row =>
      _ ← prisma.paymentHistory.create
            {| prisma.paymentHistory.c_userId := userId row;
               prisma.paymentHistory.c_stripePaymentId := payment_intent invoice;
               prisma.paymentHistory.c_amount := (amount_paid invoice / 100)%float;
               prisma.paymentHistory.c_currency := inv_currency invoice;
               prisma.paymentHistory.c_planType := planType row;
               prisma.paymentHistory.c_status := "succeeded";
               prisma.paymentHistory.c_metadata :=
                 [("invoiceId", inv_id invoice);
                  ("subscriptionId", default "" (inv_subscription invoice))] |};
      mret ()
  end.

(** [static async handlePaymentFailed(invoice)] *)
Definition handlePaymentFailed (invoice : Invoice) : Prog unit :=
  subscription ← find_by_invoice invoice;
  match subscription with
  | None => mret ()
  | Some row => prisma.subscription.update (sub_id row) (set_status Status.PAST_DUE)
  end.

(** The [switch (event.type)] of [handleWebhook] when [this] is the class:
    each case runs its handler. *)
Definition dispatch (event : Event) : Prog unit :=
  match event with
  | checkout_session_completed session => handleCheckoutCompleted session
  | customer_subscription_created subscription
  | customer_subscription_updated subscription =>
      handleSubscriptionUpdate subscription
  | customer_subscription_deleted subscription =>
      handleSubscriptionDeleted subscription
  | invoice_payment_succeeded invoice => handlePaymentSucceeded invoice
  | invoice_payment_failed invoice => handlePaymentFailed invoice
  | other_event type => console_log ("Unhandled event type: " +:+ type)
  end.

(** The receiver [this] of a call of a static method: the class, when the
    function is called as a method of it; [undefined], when the function
    value is called on its own, the body of a class being strict code. *)
Inductive Receiver := this_class | this_undefined.

(** [await this.handler(argument)]: reading a property of [undefined]
    throws a [TypeError] before any handler runs. *)
Definition this_call {A} (this : Receiver) (handler : Prog A) : Prog A :=
  match this with
  | this_class => handler
  | this_undefined => throw TypeError
  end.

(** The [switch (event.type)] of [handleWebhook] as it is written: the
    handled cases call [this.handle...], the default case only logs. *)
Definition switch_event (this : Receiver) (event : Event) : Prog unit :=
  match event with
  | checkout_session_completed session =>
      this_call this (handleCheckoutCompleted session)
  | customer_subscription_created subscription
  | customer_subscription_updated subscription =>
      this_call this (handleSubscriptionUpdate subscription)
  | customer_subscription_deleted subscription =>
      this_call this (handleSubscriptionDeleted subscription)
  | invoice_payment_succeeded invoice =>
      this_call this (handlePaymentSucceeded invoice)
  | invoice_payment_failed invoice =>
      this_call this (handlePaymentFailed invoice)
  | other_event type => console_log ("Unhandled event type: " +:+ type)
  end.

(** [static async handleWebhook(req, res, next)] called on the receiver
    [this]; [constructEvent] is the outcome of the signature verification,
    [None] when it threw. *)
Definition handleWebhook (this : Receiver) (constructEvent : option Event)
  : Prog WebhookResponse :=
  w ← get_world;
  if negb (stripe.configured (env w)) then mret status_503
  else
    match constructEvent with
    | None =>
        _ ← console_error "Webhook signature verification failed:";
        mret status_400
    | Some event =>
        try_catch (_ ← switch_event this event; mret received)
                  (λ error, _ ← console_error "Webhook handler error:";
                            mret (next_error error))
    end.

(** The route [router.post('/webhook', express.raw(..),
    BillingController.handleWebhook)] of [routes/billing.js]: the router is
    handed the function value and calls it without a receiver. *)
Definition webhook_route (constructEvent : option Event)
  : Prog WebhookResponse :=
  handleWebhook this_undefined constructEvent.

(** [static async createGuestCheckoutSession(req, res, next)] *)
Definition createGuestCheckoutSession (body : GuestCheckoutBody)
  : Prog CheckoutResponse :=
  try_catch
    (w ← get_world;
     if negb (stripe.configured (env w)) then
       mret (checkout_error 503 "Stripe is not configured. Please set STRIPE_SECRET_KEY in environment variables.")
     else
       let planType' := default "PRO" (body_planType body) in
       let billingCycle := default "monthly" (body_billingCycle body) in
       if negb (str_truthy (body_email body)) then
         mret (checkout_error 400 "Email is required")
       else
         let email' := default "" (body_email body) in
         let validPlanTypes := ["BASIC"; "PRO"; "PREMIUM"] in
         if negb (bool_decide (planType' ∈ validPlanTypes)) then
           mret (checkout_error 400 "Invalid plan type")
         else
           let backendPlanType :=
             if bool_decide (planType' = "BASIC") || bool_decide (planType' = "PREMIUM")
             then "PRO" else planType' in
           plan ← match PLANS_get (env w) backendPlanType with
                  | Some plan => mret plan
                  | None => throw TypeError
                  end;
           if negb (str_truthy (priceId plan)) then
             mret (checkout_error 500 "Plan price ID not configured. Please set STRIPE_PRO_PRICE_ID in environment variables.")
           else
             existingUser ← prisma.user.findUnique_email email';
             customerId ←
               match existingUser with
               | Some u =>
                   subscription ← prisma.subscription.findFirst
                                    (λ r, userId r = user_id u ∧ deletedAt r = None)
                                    prisma.subscription.unordered;
                   mret (subscription ≫= stripeCustomerId)
               | None => mret None
               end;
             let userId' := user_id <$> existingUser in
             let metadata :=
               {| md_userId := Some (str_or userId' "pending");
                  md_email := Some email';
                  md_planType := Some backendPlanType;
                  md_originalPlanType := Some planType';
                  md_billingCycle := Some billingCycle |} in
             customerId ←
               (if str_truthy customerId then mret (default "" customerId)
                else
                  customer ← stripe.customers.create email'
                               {| md_userId := Some (str_or userId' "pending");
                                  md_email := None;
                                  md_planType := Some backendPlanType;
                                  md_originalPlanType := Some planType';
                                  md_billingCycle := Some billingCycle |};
                  mret (cus_id customer));
             session ← stripe.checkout_sessions.create customerId
                         (match existingUser with
                          | Some _ => None
                          | None => Some email'
                          end)
                         metadata;
             mret (checkout_json (cs_id session)))
    (λ error, mret (checkout_next error)).

End BillingController.

(* ===================================================================== *)
(** * Vocabulary of the statements                                        *)
(* ===================================================================== *)

Module Vocabulary.
Import UsageService AIService.

(** A subscription row of user [u] that is not tombstoned. *)
Definition live (u : string) (r : Subscription) : Prop :=
  userId r = u ∧ deletedAt r = None.

#[global] Instance live_dec u r : Decision (live u r).
Proof. unfold live. apply _. Defined.

(** The rows [checkUsageLimit] counts: the user's ['ocr'] usage records
    created on or after the first instant of the current local month. *)
Definition ocr_this_month (u : string) (w : World) (r : AIUsage) : Prop :=
  usage_userId r = u ∧ operation r = "ocr"
  ∧ (startOfMonth (env w) (clock w) <= usage_createdAt r)%Z.

#[global] Instance ocr_this_month_dec u w r : Decision (ocr_this_month u w r).
Proof. unfold ocr_this_month. apply _. Defined.

(** The notes [canCreateNote] counts. *)
Definition live_note (u : string) (n : Note) : Prop :=
  note_userId n = u ∧ note_deletedAt n = None.

#[global] Instance live_note_dec u n : Decision (live_note u n).
Proof. unfold live_note. apply _. Defined.

(** The note quota as the specification words it: always an object with
    all three fields, [used] the count of the user's live notes, [limit]
    the resolved plan's note limit, [allowed] exactly when
    [used < limit]. *)
Definition note_quota_as_specified (u : string) (w : World) : Prop :=
  ∃ r q, getUserPlan u w = (Return r, w)
    ∧ canCreateNote u w = (Return q, w)
    ∧ used q = Some (length (filter (live_note u) (notes (db w))))
    ∧ limit q = Some (notesLimit (features (up_plan r)))
    ∧ (allowed q = true <->
       (Z.of_nat (length (filter (live_note u) (notes (db w))))
        < notesLimit (features (up_plan r)))%Z).

(** The session of a guest checkout: its metadata names no user, or the
    placeholder ['pending']. *)
Definition guest (s : CheckoutSession) : Prop :=
  cs_metadata s ≫= md_userId = Some "pending"
  ∨ str_truthy (cs_metadata s ≫= md_userId) = false.

(** What a pending guest checkout would record for a session. *)
Definition pending_of (s : CheckoutSession)
  : option string * option string * option string :=
  (opt_or (cs_metadata s ≫= md_email) (customer_email s),
   cs_metadata s ≫= md_planType,
   cs_metadata s ≫= md_billingCycle).

(** The handler of [checkout.session.completed] persists, for every guest
    session, a mapping from the session id to its email, plan type and
    billing cycle: some way of reading the database afterwards finds it. *)
Definition persists_pending_guest_checkout : Prop :=
  ∃ lookup : DB -> string -> option (option string * option string * option string),
    ∀ (s : CheckoutSession) (w : World), guest s ->
      lookup (db (snd (BillingController.handleCheckoutCompleted s w))) (cs_id s)
      = Some (pending_of s).

(** The world after the two writes of [handleSubscriptionDeleted]. *)
Definition canceled (row : Subscription) (w : World) : World :=
  set_db {| users := users (db w);
            subscriptions := prisma.subscription.on_id (sub_id row) BillingController.deleted_data <$> subscriptions (db w);
            aIUsage := aIUsage (db w); notes := notes (db w);
            paymentHistory := paymentHistory (db w); nextId := nextId (db w) |} w.

Definition downgraded (row : Subscription) (w : World) : World :=
  set_db {| users := alter (set_role Role.USER) (userId row) (users (db w));
            subscriptions := subscriptions (db w);
            aIUsage := aIUsage (db w); notes := notes (db w);
            paymentHistory := paymentHistory (db w); nextId := nextId (db w) |} w.

(** [s] with another payment status. *)
Definition with_payment_status (p : string) (s : CheckoutSession)
  : CheckoutSession :=
  {| cs_id := cs_id s; cs_customer := cs_customer s;
     customer_email := customer_email s; cs_payment_status := p;
     cs_subscription := cs_subscription s; cs_metadata := cs_metadata s |}.

End Vocabulary.

(* ===================================================================== *)
(** * A concrete world                                                    *)
(* ===================================================================== *)

Module Scenario.
Import JsDate.

Definition env0 : Env :=
  {| STRIPE_SECRET_KEY := Some "sk_test_51"; STRIPE_PRO_PRICE_ID := None;
     LocalTZA := λ _ _, 0%Z |}.

Definition alice : User :=
  {| user_id := "u1"; email := "alice@example.com";
     user_name := Some "Alice"; role := Role.PRO |}.

Definition bob : User :=
  {| user_id := "u2"; email := "bob@example.com";
     user_name := None; role := Role.USER |}.

(** Alice: a tombstoned FREE row and, later, a live PRO row. *)
Definition alice_free : Subscription :=
  {| sub_id := 1; userId := "u1"; planType := PlanType.FREE;
     status := Status.ACTIVE; stripeCustomerId := Some "cus_A";
     stripeSubscriptionId := None; currentPeriodStart := None;
     currentPeriodEnd := None; cancelAtPeriodEnd := false;
     createdAt := utc 2024 1 10 9 0 0 0;
     deletedAt := Some (utc 2024 2 1 8 0 0 0) |}.

Definition alice_pro : Subscription :=
  {| sub_id := 2; userId := "u1"; planType := PlanType.PRO;
     status := Status.ACTIVE; stripeCustomerId := Some "cus_A";
     stripeSubscriptionId := Some "sub_A";
     currentPeriodStart := Some (utc 2024 2 1 8 0 0 0);
     currentPeriodEnd := Some (utc 2024 3 1 8 0 0 0);
     cancelAtPeriodEnd := false;
     createdAt := utc 2024 2 1 8 0 0 0; deletedAt := None |}.

(** Bob: the FREE row a checkout attempt left behind. *)
Definition bob_free : Subscription :=
  {| sub_id := 3; userId := "u2"; planType := PlanType.FREE;
     status := Status.ACTIVE; stripeCustomerId := Some "cus_B";
     stripeSubscriptionId := None; currentPeriodStart := None;
     currentPeriodEnd := None; cancelAtPeriodEnd := false;
     createdAt := utc 2024 2 20 10 0 0 0; deletedAt := None |}.

Definition ocr_at (id : nat) (u : string) (t : Z) : AIUsage :=
  {| usage_id := id; usage_userId := u; usage_noteId := None;
     operation := "ocr"; tokensUsed := 1000%float;
     cost := Cost.calculateCost 1000 "vision"; usage_metadata := [];
     usage_createdAt := t |}.

Definition title_at (id : nat) (u : string) (t : Z) : AIUsage :=
  {| usage_id := id; usage_userId := u; usage_noteId := None;
     operation := "title"; tokensUsed := 40%float;
     cost := Cost.calculateCost 40 "text"; usage_metadata := [];
     usage_createdAt := t |}.

(** A user's usage: one conversion in February 2024, then [n] in March (one
    a day from the first, at noon), and a title generation. *)
Definition usage_of (u : string) (n : nat) : list AIUsage :=
  ocr_at 10 u (utc 2024 2 28 12 0 0 0)
  :: title_at 11 u (utc 2024 3 1 12 0 1 0)
  :: ((λ i, ocr_at (20 + i) u (utc 2024 3 (1 + Z.of_nat i) 12 0 0 0)) <$> seq 0 n).

Definition bob_usage (n : nat) : list AIUsage := usage_of "u2" n.

Definition note_of (id : nat) (u : string) (deleted : option Z) : Note :=
  {| note_id := id; note_userId := u; note_deletedAt := deleted |}.

Definition db0 (n : nat) : DB :=
  {| users := <["u1" := alice]> (<["u2" := bob]> ∅);
     subscriptions := [alice_free; alice_pro; bob_free];
     aIUsage := ocr_at 12 "u1" (utc 2024 3 2 9 0 0 0) :: bob_usage n;
     notes := [note_of 50 "u2" None; note_of 51 "u2" (Some (utc 2024 3 3 0 0 0 0));
               note_of 52 "u1" None; note_of 53 "u2" None];
     paymentHistory := [];
     nextId := 100 |}.

Definition provider0 : Stripe :=
  {| stripe_subscriptions :=
       [ {| ss_id := "sub_A"; ss_status := "past_due";
            current_period_start := 1711958400;
            current_period_end := 1714550400;
            cancel_at_period_end := true |};
         {| ss_id := "sub_B"; ss_status := "incomplete";
            current_period_start := 1710504000;
            current_period_end := 1713182400;
            cancel_at_period_end := false |};
         {| ss_id := "sub_G"; ss_status := "active";
            current_period_start := 1710504000;
            current_period_end := 1713182400;
            cancel_at_period_end := false |} ];
     stripe_customers := [];
     stripe_sessions := [] |}.

(** Mid March 2024, with [n] conversions by Bob this month. *)
Definition world_at (now : Z) (n : nat) (ok : bool) : World :=
  {| env := env0; db := db0 n; provider := provider0; clock := now;
     storage_ok := ok; console := [] |}.

Definition world0 : World := world_at (utc 2024 3 15 12 0 0 0) 10 true.

(** The same world when the ten conversions of March are Alice's. *)
Definition world_alice_busy : World :=
  {| env := env0;
     db := {| users := users (db0 0); subscriptions := subscriptions (db0 0);
              aIUsage := usage_of "u1" 10; notes := notes (db0 0);
              paymentHistory := []; nextId := 100 |};
     provider := provider0; clock := utc 2024 3 15 12 0 0 0;
     storage_ok := true; console := [] |}.

(** The provider's view of Alice's subscription when it is deleted or
    updated. *)
Definition sub_A_event : StripeSubscription :=
  {| ss_id := "sub_A"; ss_status := "past_due";
     current_period_start := 1711958400; current_period_end := 1714550400;
     cancel_at_period_end := true |}.

(** A completed checkout of Bob whose payment is still outstanding. *)
Definition unpaid_session : CheckoutSession :=
  {| cs_id := "cs_test_b1"; cs_customer := Some "cus_B";
     customer_email := None; cs_payment_status := "unpaid";
     cs_subscription := Some "sub_B";
     cs_metadata := Some {| md_userId := Some "u2"; md_email := None;
                            md_planType := Some "PRO";
                            md_originalPlanType := Some "PRO";
                            md_billingCycle := Some "monthly" |} |}.

(** A completed guest checkout, and the same session for another email. *)
Definition guest_session_for (e : string) : CheckoutSession :=
  {| cs_id := "cs_test_g1"; cs_customer := Some "cus_G";
     customer_email := Some e; cs_payment_status := "paid";
     cs_subscription := Some "sub_G";
     cs_metadata := Some {| md_userId := Some "pending"; md_email := Some e;
                            md_planType := Some "PRO";
                            md_originalPlanType := Some "PREMIUM";
                            md_billingCycle := Some "yearly" |} |}.

Definition guest_session : CheckoutSession := guest_session_for "a@b.com".

Definition guest_body : GuestCheckoutBody :=
  {| body_planType := Some "PREMIUM"; body_billingCycle := Some "yearly";
     body_email := Some "a@b.com" |}.

End Scenario.

(* ===================================================================== *)
(** * Further queries, reports and endpoints                              *)
(* ===================================================================== *)

Module prismaQueries.

(** The order of [orderBy: { createdAt: 'desc' }]. *)
Definition usage_desc (a b : AIUsage) : Prop :=
  (usage_createdAt b <= usage_createdAt a)%Z.

Definition payment_desc (a b : PaymentHistory) : Prop :=
  (payment_createdAt b <= payment_createdAt a)%Z.

#[global] Instance usage_desc_dec a b : Decision (usage_desc a b).
Proof. unfold usage_desc. apply _. Defined.

#[global] Instance payment_desc_dec a b : Decision (payment_desc a b).
Proof. unfold payment_desc. apply _. Defined.

(** [aIUsage.findMany({ where, orderBy: { createdAt: 'desc' } })] *)
Definition aIUsage_findMany (where_ : AIUsage -> Prop)
    `{!∀ r, Decision (where_ r)} : Prog (list AIUsage) :=
  prisma.read (λ d, merge_sort usage_desc (filter where_ (aIUsage d))).

(** [paymentHistory.findMany({ where, orderBy: { createdAt: 'desc' },
    take })] *)
Definition paymentHistory_findMany (where_ : PaymentHistory -> Prop)
    `{!∀ r, Decision (where_ r)} (take_ : nat) : Prog (list PaymentHistory) :=
  prisma.read (λ d, take take_ (merge_sort payment_desc
                                  (filter where_ (paymentHistory d)))).

(** [user.findUnique({ where: { id } })] *)
Definition user_findUnique_id (id : string) : Prog (option User) :=
  prisma.read (λ d, users d !! id).

End prismaQueries.

(** A value of the object [byOperation]: a count, or the string that
    [(acc[op] || 0) + 1] is when [acc[op]] is not a number. *)
Inductive JsCount :=
| count_number (n : nat)
| count_string.

Record MonthlyUsage := {
  total : nat;
  totalTokens : float;
  totalCost : float;
  byOperation : gmap string JsCount;
  usage : list AIUsage;
}.

Module UsageReports.

(** [acc[u.operation] = (acc[u.operation] || 0) + 1] on the object [acc],
    [acc !! op] being its own property [op]. A name without an own property
    is read from [Object.prototype]: an inherited function plus one is a
    string, and the write to [__proto__] of a string is ignored. *)
Definition count_step (acc : gmap string JsCount) (u : AIUsage)
  : gmap string JsCount :=
  let op := operation u in
  match acc !! op with
  | Some (count_number n) => <[op := count_number (S n)]> acc
  | Some count_string => <[op := count_string]> acc
  | None =>
      if decide (op ∈ Cost.Object_prototype_keys) then
        if decide (op = "__proto__") then acc
        else <[op := count_string]> acc
      else <[op := count_number 1]> acc
  end.

(** [static async getMonthlyUsage(userId)] *)
Definition getMonthlyUsage (userId' : string) : Prog MonthlyUsage :=
  w ← get_world;
  let startOfMonth := AIService.startOfMonth (env w) (clock w) in
  usage' ← prismaQueries.aIUsage_findMany
             (λ r, usage_userId r = userId'
                   ∧ (startOfMonth <= usage_createdAt r)%Z);
  let totalTokens' := foldl (λ sum u, (sum + tokensUsed u)%float) 0%float usage' in
  let totalCost' := foldl (λ sum u, (sum + cost u)%float) 0%float usage' in
  let byOperation' := foldl count_step ∅ usage' in
  mret {| total := length usage'; totalTokens := totalTokens';
          totalCost := totalCost'; byOperation := byOperation';
          usage := usage' |}.

End UsageReports.

Record SubscriptionSummary := {
  summary_planType : PlanType.t;
  summary_status : Status.t;
  summary_currentPeriodStart : option Z;
  summary_currentPeriodEnd : option Z;
  summary_cancelAtPeriodEnd : bool;
}.

Record BillingInfo := {
  info_subscription : option SubscriptionSummary;
  info_plan : Plan;
  recentPayments : list PaymentHistory;
}.

Inductive BillingInfoResponse :=
| billing_json (info : BillingInfo)
| billing_next (e : Error).

(** The body of an authenticated checkout request. *)
Record CheckoutBody := {
  checkout_planType : option string;
  checkout_billingCycle : option string;
}.

Definition set_stripeCustomerId (c : option string) (r : Subscription)
  : Subscription :=
  {| sub_id := sub_id r; userId := userId r; planType := planType r;
     status := status r; stripeCustomerId := c;
     stripeSubscriptionId := stripeSubscriptionId r;
     currentPeriodStart := currentPeriodStart r;
     currentPeriodEnd := currentPeriodEnd r;
     cancelAtPeriodEnd := cancelAtPeriodEnd r; createdAt := createdAt r;
     deletedAt := deletedAt r |}.

Module BillingEndpoints.

(** [static async getBillingInfo(req, res, next)], [userId'] being
    [req.user.id]. *)
Definition getBillingInfo (userId' : string) : Prog BillingInfoResponse :=
  try_catch
    (subscription ← prisma.subscription.findFirst
                      (λ r, userId r = userId' ∧ deletedAt r = None)
                      prisma.subscription.createdAt_desc;
     payments ← prismaQueries.paymentHistory_findMany
                  (λ p, payment_userId p = userId') 10;
     w ← get_world;
     let plan := match subscription with
                 | Some s => PLANS (env w) (planType s)
                 | None => PLANS (env w) PlanType.FREE
                 end in
     mret (billing_json
             {| info_subscription :=
                  (λ s, {| summary_planType := planType s;
                           summary_status := status s;
                           summary_currentPeriodStart := currentPeriodStart s;
                           summary_currentPeriodEnd := currentPeriodEnd s;
                           summary_cancelAtPeriodEnd := cancelAtPeriodEnd s |})
                  <$> subscription;
                info_plan := plan;
                recentPayments := payments |}))
    (λ error, mret (billing_next error)).

(** The part of [createCheckoutSession] under [if (!customerId)]: a
    provider customer is created for the user and the link is persisted, on
    the row found or on a new FREE row. The customer's [name] is not part
    of the provider model. *)
Definition link_customer (userId' : string) (subscription : option Subscription)
  : Prog string :=
  user ← prismaQueries.user_findUnique_id userId';
  match user with
  | None => throw TypeError
  | Some user =>
      customer ← stripe.customers.create (email user)
                   {| md_userId := Some userId'; md_email := None;
                      md_planType := None; md_originalPlanType := None;
                      md_billingCycle := None |};
      _ ← match subscription with
          | Some row =>
              prisma.subscription.update (sub_id row)
                (set_stripeCustomerId (Some (cus_id customer)))
          | None =>
              _ ← prisma.subscription.create
                    {| prisma.subscription.c_userId := userId';
                       prisma.subscription.c_stripeCustomerId := Some (cus_id customer);
                       prisma.subscription.c_stripeSubscriptionId := None;
                       prisma.subscription.c_planType := PlanType.FREE;
                       prisma.subscription.c_status := Status.ACTIVE;
                       prisma.subscription.c_currentPeriodStart := None;
                       prisma.subscription.c_currentPeriodEnd := None |};
              mret ()
          end;
      mret (cus_id customer)
  end.

(** [static async createCheckoutSession(req, res, next)], [userId'] being
    [req.user.id] and [body] being [req.body]. *)
Definition createCheckoutSession (userId' : string) (body : CheckoutBody)
  : Prog CheckoutResponse :=
  try_catch
    (w ← get_world;
     if negb (stripe.configured (env w)) then
       mret (checkout_error 503 "Stripe is not configured. Please set STRIPE_SECRET_KEY in environment variables.")
     else
       let planType' := default "PRO" (checkout_planType body) in
       let billingCycle := default "monthly" (checkout_billingCycle body) in
       let validPlanTypes := ["BASIC"; "PRO"; "PREMIUM"] in
       if negb (bool_decide (planType' ∈ validPlanTypes)) then
         mret (checkout_error 400 "Invalid plan type")
       else
         let backendPlanType :=
           if bool_decide (planType' = "BASIC") || bool_decide (planType' = "PREMIUM")
           then "PRO" else planType' in
         plan ← match PLANS_get (env w) backendPlanType with
                | Some plan => mret plan
                | None => throw TypeError
                end;
         if negb (str_truthy (priceId plan)) then
           mret (checkout_error 500 "Plan price ID not configured. Please set STRIPE_PRO_PRICE_ID in environment variables.")
         else
           subscription ← prisma.subscription.findFirst
                            (λ r, userId r = userId' ∧ deletedAt r = None)
                            prisma.subscription.unordered;
           customerId ←
             (if str_truthy (subscription ≫= stripeCustomerId)
              then mret (default "" (subscription ≫= stripeCustomerId))
              else link_customer userId' subscription);
           session ← stripe.checkout_sessions.create customerId None
                       {| md_userId := Some userId'; md_email := None;
                          md_planType := Some backendPlanType;
                          md_originalPlanType := Some planType';
                          md_billingCycle := Some billingCycle |};
           mret (checkout_json (cs_id session)))
    (λ error, mret (checkout_next error)).

End BillingEndpoints.

(** ** What [generateTitle] and [generateTags] make of the completion *)

Module AIParsing.

(** [s.split(',')] *)
Fixpoint split_comma (s : string) : list string :=
  match s with
  | EmptyString => [EmptyString]
  | String c rest =>
      if decide (c = ","%char) then EmptyString :: split_comma rest
      else match split_comma rest with
           | [] => [String c EmptyString]
           | x :: xs => String c x :: xs
           end
  end.

(** [pieces.join(',')] *)
Fixpoint join_comma (pieces : list string) : string :=
  match pieces with
  | [] => EmptyString
  | [x] => x
  | x :: rest => x +:+ String ","%char (join_comma rest)
  end.

(** The two characters of the class in [replace]: the single quote (39) and
    the double quote (34). *)
Definition is_quote (c : ascii) : Prop := c = "039"%char ∨ c = "034"%char.

#[global] Instance is_quote_dec c : Decision (is_quote c).
Proof. unfold is_quote. apply _. Defined.

(** [s.replace(re, '')], [re] being the global match of either quote. *)
Fixpoint strip_quotes (s : string) : string :=
  match s with
  | EmptyString => EmptyString
  | String c rest =>
      if decide (is_quote c) then strip_quotes rest
      else String c (strip_quotes rest)
  end.

(** Does [c] occur in [s]. *)
Fixpoint occurs (c : ascii) (s : string) : Prop :=
  match s with
  | EmptyString => False
  | String c' rest => c' = c ∨ occurs c rest
  end.

Section parsing.
(** [String.prototype.trim] and [String.prototype.toLowerCase], the host's
    functions. *)
Variable trim toLowerCase : string -> string.

(** The [title] of [generateTitle]: [content?.trim().replace(re, '') ||
    'Untitled Note'], [content] being [response.choices[0]?.message
    ?.content] and [re] the global match of either quote. *)
Definition title_of (content : option string) : string :=
  str_or ((λ c, strip_quotes (trim c)) <$> content) "Untitled Note".

(** The [tags] of [generateTags]: [tagsString.split(',').map((tag) =>
    tag.trim().toLowerCase()).filter((tag) => tag.length > 0).slice(0, 5)]
    with [tagsString = content?.trim() || '']. *)
Definition tags_of (content : option string) : list string :=
  let tagsString := str_or (trim <$> content) EmptyString in
  take 5 (filter (λ tag, tag ≠ EmptyString)
            ((λ tag, toLowerCase (trim tag)) <$> split_comma tagsString)).

End parsing.

End AIParsing.

(** ** Vocabulary of the further statements *)

Module Ledger.

(** What identifies a subscription row and never changes: its primary key,
    its owner and its creation time. *)
Definition row_key (r : Subscription) : nat * string * Z :=
  (sub_id r, userId r, createdAt r).

(** From [w] to [w']: every subscription row is still there, in place, with
    its key; payment records were at most appended; usage records, notes,
    the set of users, the provider, the clock, the environment and the
    state of the store are the same. *)
Definition ledger_kept (w w' : World) : Prop :=
  (row_key <$> subscriptions (db w)) `prefix_of` (row_key <$> subscriptions (db w'))
  ∧ paymentHistory (db w) `prefix_of` paymentHistory (db w')
  ∧ aIUsage (db w') = aIUsage (db w)
  ∧ notes (db w') = notes (db w)
  ∧ dom (users (db w')) = dom (users (db w))
  ∧ provider w' = provider w
  ∧ env w' = env w ∧ clock w' = clock w ∧ storage_ok w' = storage_ok w.

(** The program [m] keeps the ledger, however it ends. *)
Definition keeps {A} (m : Prog A) : Prop := ∀ w, ledger_kept w (snd (m w)).

(** The plan type [getUserPlan] resolves for a user. *)
Definition resolved (u : string) (w : World) : option PlanType.t :=
  UsageService.up_planType <$> fst_return (UsageService.getUserPlan u w).

(** The plan type of the row the resolver picked. *)
Definition plan_of (s : option Subscription) : PlanType.t :=
  match s with Some r => planType r | None => PlanType.FREE end.

(** The tombstone [updateMany] of [handleCheckoutCompleted] on one row. *)
Definition tombstoned (u : string) (t : Z) (r : Subscription) : Subscription :=
  if decide (userId r = u) then set_deletedAt (Some t) r else r.

(** The row [handleCheckoutCompleted] inserts for user [u]. *)
Definition checkout_row (s : CheckoutSession) (u : string)
    (sub : StripeSubscription) (w : World) : Subscription :=
  {| sub_id := nextId (db w); userId := u; planType := PlanType.PRO;
     status := if decide (ss_status sub = "active")
               then Status.ACTIVE else Status.INCOMPLETE;
     stripeCustomerId := cs_customer s;
     stripeSubscriptionId := Some (ss_id sub);
     currentPeriodStart := Some (current_period_start sub * 1000)%Z;
     currentPeriodEnd := Some (current_period_end sub * 1000)%Z;
     cancelAtPeriodEnd := false; createdAt := clock w; deletedAt := None |}.

(** The world after [handleCheckoutCompleted] went through for user [u]. *)
Definition upgraded (s : CheckoutSession) (u : string)
    (sub : StripeSubscription) (w : World) : World :=
  set_db {| users := alter (set_role Role.PRO) u (users (db w));
            subscriptions :=
              (tombstoned u (clock w) <$> subscriptions (db w))
              ++ [checkout_row s u sub w];
            aIUsage := aIUsage (db w); notes := notes (db w);
            paymentHistory := paymentHistory (db w);
            nextId := S (nextId (db w)) |} w.

(** The world after the second delivery of the same event tombstoned the
    rows of [u] again and then failed to insert. *)
Definition retombstoned (u : string) (w : World) : World :=
  set_db (prisma.set_subscriptions
            (tombstoned u (clock w) <$> subscriptions (db w)) (db w)) w.

(** The payment record [handlePaymentSucceeded] writes for [invoice] on the
    subscription row [row], under the primary key [id]. *)
Definition payment_of (invoice : Invoice) (row : Subscription) (id : nat)
    (t : Z) : PaymentHistory :=
  {| payment_id := id; payment_userId := userId row;
     stripePaymentId := payment_intent invoice;
     amount := (amount_paid invoice / 100)%float;
     currency := inv_currency invoice; payment_planType := planType row;
     payment_status := "succeeded";
     payment_metadata :=
       [("invoiceId", inv_id invoice);
        ("subscriptionId", default "" (inv_subscription invoice))];
     payment_createdAt := t |}.

(** The world with [payments] appended and [n] primary keys used up. *)
Definition paid (payments : list PaymentHistory) (n : nat) (w : World) : World :=
  set_db {| users := users (db w); subscriptions := subscriptions (db w);
            aIUsage := aIUsage (db w); notes := notes (db w);
            paymentHistory := paymentHistory (db w) ++ payments;
            nextId := n + nextId (db w) |} w.

(** A usage record of user [u] created since the start of the month. *)
Definition this_month (u : string) (w : World) (r : AIUsage) : Prop :=
  usage_userId r = u
  ∧ (AIService.startOfMonth (env w) (clock w) <= usage_createdAt r)%Z.

#[global] Instance this_month_dec u w r : Decision (this_month u w r).
Proof. unfold this_month. apply _. Defined.

(** An own property of [byOperation] after [c] more records of its
    operation were counted. *)
Definition bump (o : option JsCount) (c : nat) : option JsCount :=
  match o with
  | Some (count_number k) => Some (count_number (k + c))
  | Some count_string => Some count_string
  | None => if decide (c = 0) then None else Some (count_number c)
  end.

(** The count an entry of [byOperation] stands for. *)
Definition count_of (o : option JsCount) : nat :=
  match o with Some (count_number c) => c | _ => 0 end.

(** The summary [getBillingInfo] gives of a subscription row. *)
Definition summary_of (s : Subscription) : SubscriptionSummary :=
  {| summary_planType := planType s; summary_status := status s;
     summary_currentPeriodStart := currentPeriodStart s;
     summary_currentPeriodEnd := currentPeriodEnd s;
     summary_cancelAtPeriodEnd := cancelAtPeriodEnd s |}.

(** The integrity of the subscription table: every row belongs to a user,
    and a user has at most one row that is not tombstoned. *)
Definition sound (d : DB) : Prop :=
  (∀ r, r ∈ subscriptions d -> is_Some (users d !! userId r))
  ∧ ∀ u, length (filter (Vocabulary.live u) (subscriptions d)) <= 1.

(** A row update that leaves alone what the resolver reads. *)
Definition keeps_entitlement (f : Subscription -> Subscription) : Prop :=
  ∀ r, userId (f r) = userId r ∧ deletedAt (f r) = deletedAt r
       ∧ createdAt (f r) = createdAt r ∧ planType (f r) = planType r.

End Ledger.

(** ** Handlers behind a gate on the plan *)

(** The answer of a handler that starts with a gate: the gate's refusal,
    what the rest of the handler answered, or the error passed to [next]. *)
Inductive Gated (A : Type) :=
| refused (status : nat) (error : string)
| passed (a : A)
| gated_next (e : Error).
Arguments refused {A} status error.
Arguments passed {A} a.
Arguments gated_next {A} e.

Module PlanGates.

Section rest.
Context {A : Type}.
(** What the handler does once it is past its gate. *)
Variable rest : Prog A.

(** The head that [NoteController.cleanNote], [summarizeNote] and
    [rewriteNote] share: [const { plan } = await UsageService.getUserPlan
    (userId); if (plan.planType !== 'PRO') return res.status(403).json(..)]. *)
Definition pro_subscription_required (userId' : string) : Prog (Gated A) :=
  try_catch
    (r ← UsageService.getUserPlan userId';
     let plan := UsageService.up_plan r in
     if negb (bool_decide (NoteController.plan_planType plan = Some "PRO"))
     then mret (refused 403 "Pro subscription required")
     else a ← rest; mret (passed a))
    (λ error, mret (gated_next error)).

Definition cleanNote : string -> Prog (Gated A) := pro_subscription_required.
Definition summarizeNote : string -> Prog (Gated A) := pro_subscription_required.
Definition rewriteNote : string -> Prog (Gated A) := pro_subscription_required.

(** The head that [FolderController.getFolders] and [createFolder] share:
    [if (!plan.features.folders) return res.status(403).json(..)]. *)
Definition folders_required (userId' : string) : Prog (Gated A) :=
  try_catch
    (r ← UsageService.getUserPlan userId';
     let plan := UsageService.up_plan r in
     if negb (folders (features plan))
     then mret (refused 403 "Folders feature requires Pro subscription")
     else a ← rest; mret (passed a))
    (λ error, mret (gated_next error)).

Definition getFolders : string -> Prog (Gated A) := folders_required.
Definition createFolder : string -> Prog (Gated A) := folders_required.

(** The head of [TagController.addTagToNote]:
    [if (!plan.features.tags) return res.status(403).json(..)]. *)
Definition addTagToNote (userId' : string) : Prog (Gated A) :=
  try_catch
    (r ← UsageService.getUserPlan userId';
     let plan := UsageService.up_plan r in
     if negb (tags (features plan))
     then mret (refused 403 "Tags feature requires Pro subscription")
     else a ← rest; mret (passed a))
    (λ error, mret (gated_next error)).

End rest.

(** The test [plan.planType === 'PRO'] under which [createNote] generates
    tags. *)
Definition createNote_generates_tags (plan : Plan) : bool :=
  bool_decide (NoteController.plan_planType plan = Some "PRO").

(** What a gated handler answers when its gate is open. *)
Definition through {A} (rest : Prog A) (w : World) : Outcome (Gated A) * World :=
  match rest w with
  | (Return a, w') => (Return (passed a), w')
  | (Throw e, w') => (Return (gated_next e), w')
  end.

End PlanGates.

(** ** [AuthController.register] *)

(** [req.body] of a registration. *)
Record RegisterBody := {
  reg_email : option string;
  reg_password : option string;
  reg_name : option string;
  reg_sessionId : option string;
}.

Inductive RegisterResponse :=
| register_error (status : nat) (error : string)
| register_created (user : User)   (* 201, with the user and the tokens *)
| register_next (e : Error).

(** [req.body] of the Google callback; [image] and [googleId] are not
    columns of the model. *)
Record GoogleBody := {
  g_email : option string;
  g_name : option string;
}.

Inductive GoogleResponse :=
| google_login (user : User)       (* the user and the tokens *)
| google_next (e : Error).

(** The variables [register] declares with [let] and fills from the
    checkout session. *)
Record Linked := {
  l_stripeCustomerId : option string;
  l_stripeSubscriptionId : option string;
  l_planType : string;
  l_subscriptionStatus : Status.t;
  l_currentPeriodStart : option Z;
  l_currentPeriodEnd : option Z;
}.

Module AuthController.

(** [stripe.checkout.sessions.retrieve(id)]: the provider's session with
    that id; the call fails when there is none. *)
Definition sessions_retrieve (id : string) : Prog CheckoutSession := λ w,
  match head (filter (λ s, cs_id s = id) (stripe_sessions (provider w))) with
  | Some s => (Return s, w)
  | None => (Throw StripeError, w)
  end.

(** The initial values of the [let] variables. *)
Definition unlinked : Linked :=
  {| l_stripeCustomerId := None; l_stripeSubscriptionId := None;
     l_planType := "FREE"; l_subscriptionStatus := Status.ACTIVE;
     l_currentPeriodStart := None; l_currentPeriodEnd := None |}.

(** [if (sessionId && stripe) { try { ... } catch (stripeError) { ... } }] *)
Definition link_session (sessionId : option string) : Prog Linked :=
  w ← get_world;
  if str_truthy sessionId && stripe.configured (env w) then
    try_catch
      (session ← sessions_retrieve (default "" sessionId);
       if bool_decide (cs_payment_status session = "paid")
          && str_truthy (cs_subscription session)
       then
         subscription ← stripe.subscriptions.retrieve (cs_subscription session);
         mret {| l_stripeCustomerId := cs_customer session;
                 l_stripeSubscriptionId := Some (ss_id subscription);
                 l_planType := str_or (cs_metadata session ≫= md_planType) "PRO";
                 l_subscriptionStatus :=
                   if decide (ss_status subscription = "active")
                   then Status.ACTIVE else Status.INCOMPLETE;
                 l_currentPeriodStart :=
                   BillingController.Date_of_seconds (current_period_start subscription);
                 l_currentPeriodEnd :=
                   BillingController.Date_of_seconds (current_period_end subscription) |}
       else mret unlinked)
      (λ stripeError,
         _ ← console_error "Error retrieving Stripe session:"; mret unlinked)
  else mret unlinked.

(** A plan type as the column holds it; a string that is no member of the
    enumeration is refused by the client. *)
Definition PlanType_of (s : string) : option PlanType.t :=
  if decide (s = "FREE") then Some PlanType.FREE
  else if decide (s = "PRO") then Some PlanType.PRO
  else None.

Section register.
(** The default of the primary key of a new user. The schema is not among
    the sources: the key is whatever the generator gives for the database. *)
Variable new_id : DB -> string.

(** [prisma.user.create({ data: { email, password, name, role,
    subscriptions: { create: { ... } } } })]. Modelled from the spec: the
    user and the nested subscription row are written together or not at all;
    the primary key and the email of a user are unique, and so is the
    external subscription id when present (section 3). The password hash is
    not part of the model. *)
Definition user_create (email' : string) (name' : option string)
    (role' : Role.t) (l : Linked) : Prog User :=
  d ← prisma.read id;
  t ← prisma.now;
  match PlanType_of (l_planType l) with
  | None => throw ValidationError
  | Some p =>
      if decide (is_Some (users d !! new_id d)
                 ∨ Exists (λ u, email u = email') (snd <$> map_to_list (users d)))
      then throw UniqueConstraintFailed
      else if decide (is_Some (l_stripeSubscriptionId l)
                      ∧ Exists (λ r, stripeSubscriptionId r = l_stripeSubscriptionId l)
                               (subscriptions d))
      then throw UniqueConstraintFailed
      else
        let user := {| user_id := new_id d; email := email'; user_name := name';
                       role := role' |} in
        let row := prisma.subscription.new_row (nextId d) t
                     {| prisma.subscription.c_userId := new_id d;
                        prisma.subscription.c_stripeCustomerId := l_stripeCustomerId l;
                        prisma.subscription.c_stripeSubscriptionId :=
                          l_stripeSubscriptionId l;
                        prisma.subscription.c_planType := p;
                        prisma.subscription.c_status := l_subscriptionStatus l;
                        prisma.subscription.c_currentPeriodStart :=
                          l_currentPeriodStart l;
                        prisma.subscription.c_currentPeriodEnd :=
                          l_currentPeriodEnd l |} in
        _ ← prisma.write (λ d, {| users := <[new_id d := user]> (users d);
                                  subscriptions := subscriptions d ++ [row];
                                  aIUsage := aIUsage d; notes := notes d;
                                  paymentHistory := paymentHistory d;
                                  nextId := S (nextId d) |});
        mret user
  end.

(** [static async register(req, res, next)], [body] being [req.body]. *)
Definition register (body : RegisterBody) : Prog RegisterResponse :=
  try_catch
    (if negb (str_truthy (reg_email body)) || negb (str_truthy (reg_password body))
     then mret (register_error 400 "Email and password are required")
     else
       let email' := default "" (reg_email body) in
       existingUser ← prisma.user.findUnique_email email';
       match existingUser with
       | Some _ => mret (register_error 400 "User already exists")
       | None =>
           linked ← link_session (reg_sessionId body);
           user ← user_create email' (reg_name body)
                    (if bool_decide (l_planType linked = "PRO")
                     then Role.PRO else Role.USER)
                    linked;
           mret (register_created user)
       end)
    (λ error, mret (register_next error)).

(** [static async googleCallback(req, res, next)], [body] being [req.body];
    a lookup by an email that is [undefined] is refused by the client. *)
Definition googleCallback (body : GoogleBody) : Prog GoogleResponse :=
  try_catch
    (user ← match g_email body with
            | Some e => prisma.user.findUnique_email e
            | None => throw ValidationError
            end;
     user ← match user with
            | Some u => mret u
            | None =>
                user_create (default "" (g_email body)) (g_name body)
                  Role.USER unlinked
            end;
     mret (google_login user))
    (λ error, mret (google_next error)).

End register.

End AuthController.

(** ** Vocabulary of the statements on the monthly window *)

Module Calendar.
Import JsDate.
Local Open Scope Z_scope.

(** The local time values of the days a [Date] can hold: a hundred million
    days either side of the epoch. *)
Definition in_range (t : Z) : Prop := -100000000 <= Day t <= 100000000.

(** The local calendar reads the instant [T] as the first day, at
    00:00:00.000, of the month and year it reads [now] in. *)
Definition starts_month_of (env : Env) (now T : Z) : Prop :=
  let l := LocalTime env now in
  let l0 := LocalTime env T in
  YearFromTime l0 = YearFromTime l ∧ MonthFromTime l0 = MonthFromTime l
  ∧ DateFromTime l0 = 1 ∧ TimeWithinDay l0 = 0.

(** The zone is regular at the first of the month of [now]: the local time
    of that day at the time of day of [now] is, up to the day, the local
    time of an instant, and local midnight of that day is the local time of
    an instant (no change of offset skips it). A zone of fixed offset is
    regular everywhere. *)
Definition regular (env : Env) (now : Z) : Prop :=
  let l := LocalTime env now in
  let first := MakeDay (YearFromTime l) (MonthFromTime l) 1 in
  Day (LocalTime env (UTC env (MakeDate first (TimeWithinDay l)))) = first
  ∧ LocalTime env (UTC env (MakeDate first 0)) = MakeDate first 0.

End Calendar.

(** ** Vocabulary of the statements on registration *)

Module Linking.

(** The checkout session and the provider's subscription that a
    registration naming [sessionId] links: the client is there, the session
    exists, is paid and has a subscription, and the provider gives it. *)
Definition linkable (sessionId : option string) (w : World)
  : option (CheckoutSession * StripeSubscription) :=
  if str_truthy sessionId && stripe.configured (env w) then
    match head (filter (λ s, cs_id s = default "" sessionId)
                       (stripe_sessions (provider w))) with
    | Some s =>
        if bool_decide (cs_payment_status s = "paid")
           && str_truthy (cs_subscription s)
        then match fst_return (stripe.subscriptions.retrieve (cs_subscription s) w) with
             | Some sub => Some (s, sub)
             | None => None
             end
        else None
    | None => None
    end
  else None.

(** The subscription row a registration inserts for the user [id]. *)
Definition registered_row (id : string) (p : PlanType.t) (l : Linked)
    (w : World) : Subscription :=
  {| sub_id := nextId (db w); userId := id; planType := p;
     status := l_subscriptionStatus l;
     stripeCustomerId := l_stripeCustomerId l;
     stripeSubscriptionId := l_stripeSubscriptionId l;
     currentPeriodStart := l_currentPeriodStart l;
     currentPeriodEnd := l_currentPeriodEnd l;
     cancelAtPeriodEnd := false; createdAt := clock w; deletedAt := None |}.

(** The database after the user [user] was registered with that row. *)
Definition registered (user : User) (row : Subscription) (d : DB) : DB :=
  {| users := <[user_id user := user]> (users d);
     subscriptions := subscriptions d ++ [row];
     aIUsage := aIUsage d; notes := notes d;
     paymentHistory := paymentHistory d; nextId := S (nextId d) |}.

(** A database in which no user has the email [e], the key [id] is free and
    no subscription row is owned by [id]. *)
Definition admits (e id : string) (d : DB) : Prop :=
  (∀ k u, users d !! k = Some u -> email u ≠ e)
  ∧ users d !! id = None
  ∧ (∀ r, r ∈ subscriptions d -> userId r ≠ id).

End Linking.

(** ** Concrete deliveries and requests *)

Module Deliveries.

(** The provider's view of the subscription Bob's checkout created. *)
Definition sub_B_event : StripeSubscription :=
  {| ss_id := "sub_B"; ss_status := "incomplete";
     current_period_start := 1710504000; current_period_end := 1713182400;
     cancel_at_period_end := false |}.

(** An invoice of 9.99 paid on Alice's subscription. *)
Definition invoice_A : Invoice :=
  {| inv_id := "in_1"; inv_subscription := Some "sub_A";
     payment_intent := Some "pi_1"; amount_paid := 999%float;
     inv_currency := "usd" |}.

(** A checkout request that leaves plan and cycle to their defaults. *)
Definition default_body : CheckoutBody :=
  {| checkout_planType := None; checkout_billingCycle := None |}.

(** Paris in the spring of 2024: an hour ahead of UTC until 31 March,
    01:00 UTC, two hours ahead from then on; a local time that the change
    skips is read with the offset before the change. *)
Definition paris : Env :=
  {| STRIPE_SECRET_KEY := Some "sk_test_51"; STRIPE_PRO_PRICE_ID := None;
     LocalTZA := λ t isUTC,
       if isUTC
       then (if JsDate.utc 2024 3 31 1 0 0 0 <=? t then 7200000 else 3600000)%Z
       else (if JsDate.utc 2024 3 31 3 0 0 0 <=? t then 7200000 else 3600000)%Z |}.

(** Noon in Paris on 31 March 2024. Bob converted at 23:30 (Paris) on 29
    February, at 00:30 (Paris) on 1 March, which is still February in UTC,
    and on 10 March, when he also had a title generated. *)
Definition paris_usage : list AIUsage :=
  [ Scenario.ocr_at 30 "u2" (JsDate.utc 2024 2 29 22 30 0 0);
    Scenario.ocr_at 31 "u2" (JsDate.utc 2024 2 29 23 30 0 0);
    Scenario.ocr_at 32 "u2" (JsDate.utc 2024 3 10 9 0 0 0);
    Scenario.title_at 33 "u2" (JsDate.utc 2024 3 10 9 0 1 0);
    Scenario.ocr_at 34 "u1" (JsDate.utc 2024 3 5 9 0 0 0) ].

Definition world_paris : World :=
  {| env := paris;
     db := {| users := users (Scenario.db0 0);
              subscriptions := subscriptions (Scenario.db0 0);
              aIUsage := paris_usage; notes := []; paymentHistory := [];
              nextId := 100 |};
     provider := Scenario.provider0; clock := JsDate.utc 2024 3 31 10 0 0 0;
     storage_ok := true; console := [] |}.

(** The provider's view of the subscription the guest checkout created. *)
Definition sub_G_event : StripeSubscription :=
  {| ss_id := "sub_G"; ss_status := "active";
     current_period_start := 1710504000; current_period_end := 1713182400;
     cancel_at_period_end := false |}.

(** The world once the provider holds the paid guest session of
    [a@b.com]. *)
Definition world_paid : World :=
  set_provider {| stripe_subscriptions := stripe_subscriptions Scenario.provider0;
                  stripe_customers := [];
                  stripe_sessions := [Scenario.guest_session] |}
               Scenario.world0.

(** A registration of [carol@example.com] that names the guest session. *)
Definition carol_body : RegisterBody :=
  {| reg_email := Some "carol@example.com"; reg_password := Some "secret";
     reg_name := Some "Carol"; reg_sessionId := Some "cs_test_g1" |}.

(** A key generator: [user_] and the next row identifier. *)
Definition user_key (d : DB) : string := "user_" +:+ pretty (nextId d).

(** The world after Carol registered with the guest session. *)
Definition world_linked : World :=
  snd (AuthController.register user_key carol_body world_paid).

(** A later registration of [dave@example.com] that names the same
    session. *)
Definition dave_body : RegisterBody :=
  {| reg_email := Some "dave@example.com"; reg_password := Some "hunter2";
     reg_name := None; reg_sessionId := Some "cs_test_g1" |}.

End Deliveries.

(* ===================================================================== *)
(** * Proof tactics                                                       *)
(* ===================================================================== *)

(** Splits the membership [H] in a list written out into its cases. *)
Ltac in_cases H :=
  repeat (apply elem_of_cons in H as [->|H]);
  [..|by apply not_elem_of_nil in H].

(** Unfolds the monad's plumbing in the goal. *)
Ltac prog_unfold :=
  unfold mbind, mret, Prog_bind, Prog_ret, throw, try_catch, get_world,
    console_error, console_log, prisma.read, prisma.write, prisma.now in *.

(* ===================================================================== *)
(** * Properties of the cost accountant                                   *)
(* ===================================================================== *)

Module CostFacts.
Import Cost.

(** Binary64 multiplication is commutative. *)
Lemma float_mul_comm (x y : float) : (x * y = y * x)%float.
Proof.
  apply Prim2SF_inj. rewrite !mul_spec.
  unfold SF64mul, SFmul.
  destruct (Prim2SF x) as [sx|sx| |sx mx ex], (Prim2SF y) as [sy|sy| |sy my ey];
    try reflexivity; try (by rewrite xorb_comm).
  by rewrite xorb_comm, Pos.mul_comm, Z.add_comm.
Qed.

Lemma costs_get_class (c : OperationClass) :
  costs_get (class_name c) =
  JsRates {| input := inputRate c; output := outputRate c |}.
Proof. by destruct c. Qed.

(** C4: for every token count [t] and either operation class, the cost is
    [0.7*t*inputRate + 0.3*t*outputRate] with that class's rates (0.15 and
    0.6 per million tokens for text, 2.5 and 10 for vision: the class only
    selects the rates, the 70/30 split is the same), and
    [calculateCost(1000, 'text')] is [700*0.15/1e6 + 300*0.6/1e6]. *)
Theorem calculateCost_split :
  (forall (t : float) (c : OperationClass),
      calculateCost t (class_name c)
      = (0.7 * t * inputRate c + 0.3 * t * outputRate c)%float)
  /\ (perMillionInput text, perMillionOutput text) = (0.15, 0.6)%float
  /\ (perMillionInput vision, perMillionOutput vision) = (2.5, 10)%float
  /\ calculateCost 1000 "text" = (700 * 0.15 / 1e6 + 300 * 0.6 / 1e6)%float.
Proof.
  split; [|split; [done|split; [done|]]].
  - intros t c. unfold calculateCost.
    rewrite costs_get_class. cbn [js_or truthy get_input get_output to_number input output].
    by rewrite (float_mul_comm t 0.7), (float_mul_comm t 0.3).
  - vm_compute. reflexivity.
Qed.

(** A class name that is neither an own property of [costs] nor inherited
    from [Object.prototype] is charged at the text rates. *)
Lemma calculateCost_fallback (t : float) (type : string) :
  type <> "text" -> type <> "vision" -> type ∉ Object_prototype_keys ->
  calculateCost t type = calculateCost t "text".
Proof.
  intros Ht Hv Hp.
  assert (costs_get type = JsUndefined) as E.
  { unfold costs_get. by rewrite !decide_False. }
  unfold calculateCost. by rewrite E.
Qed.

(** C10: the class string ['toString'] is neither ['text'] nor ['vision'],
    yet [calculateCost(1000, 'toString')] is [NaN] while
    [calculateCost(1000, 'text')] is the number 0.000285: the lookup
    [costs['toString']] finds the inherited method, which is truthy, so the
    fallback to the text rates is not taken. *)
Theorem calculateCost_inherited_key :
  "toString" <> "text" /\ "toString" <> "vision"
  /\ calculateCost 1000 "toString" = nan
  /\ calculateCost 1000 "text" = 0.000285%float
  /\ calculateCost 1000 "toString" <> calculateCost 1000 "text".
Proof.
  split; [done|]. split; [done|].
  split; [by vm_compute|]. split; [by vm_compute|].
  intros H. vm_compute in H. discriminate H.
Qed.

End CostFacts.

(* ===================================================================== *)
(** * The calendar of [Date] and the start of the month                    *)
(* ===================================================================== *)

Module CalendarFacts.
Import JsDate Calendar AIService.
Local Open Scope Z_scope.

Lemma DayFromYear_step (y : Z) :
  DayFromYear (y + 1)
  = DayFromYear y + 365 + (if InLeapYear_of y then 1 else 0).
Proof.
  unfold DayFromYear, InLeapYear_of.
  destruct (Z.eqb_spec (y `mod` 4) 0), (Z.eqb_spec (y `mod` 100) 0),
    (Z.eqb_spec (y `mod` 400) 0); cbn [negb];
    Z.div_mod_to_equations; lia.
Qed.

Lemma DayFromYear_mono (y y' : Z) : y <= y' -> DayFromYear y <= DayFromYear y'.
Proof. unfold DayFromYear. intros H. Z.div_mod_to_equations. lia. Qed.

Lemma year_unique (d y y' : Z) :
  DayFromYear y <= d < DayFromYear (y + 1) ->
  DayFromYear y' <= d < DayFromYear (y' + 1) -> y = y'.
Proof.
  intros H H'. destruct (Z.lt_trichotomy y y') as [Hlt|[Heq|Hgt]]; [|done|].
  - pose proof (DayFromYear_mono (y + 1) y'). lia.
  - pose proof (DayFromYear_mono (y' + 1) y). lia.
Qed.

Lemma year_walk_spec (fuel : nat) (d y : Z) :
  DayFromYear y <= d -> d < DayFromYear (y + Z.of_nat fuel + 1) ->
  DayFromYear (year_walk fuel d y) <= d < DayFromYear (year_walk fuel d y + 1).
Proof.
  revert y. induction fuel as [|fuel IH]; intros y Hlo Hhi.
  - cbn. rewrite Z.add_0_r in Hhi. lia.
  - cbn [year_walk]. destruct (Z.leb_spec (DayFromYear (y + 1)) d).
    + apply IH; [done|]. by replace (y + 1 + Z.of_nat fuel + 1)
                            with (y + Z.of_nat (S fuel) + 1) by lia.
    + lia.
Qed.

(** Over the days a [Date] can hold, and four hundred more either side,
    [YearFromTime] is the year whose days hold the day of [t]. *)
Lemma YearFromTime_spec (t : Z) :
  -100000400 <= Day t <= 100000400 ->
  DayFromYear (YearFromTime t) <= Day t < DayFromYear (YearFromTime t + 1).
Proof.
  intros Hr. unfold YearFromTime. cbn zeta. apply year_walk_spec.
  - destruct (Z.leb_spec 0 (Day t)); unfold DayFromYear;
      Z.div_mod_to_equations; lia.
  - change (Z.of_nat 1024) with 1024.
    destruct (Z.leb_spec 0 (Day t)); unfold DayFromYear;
      Z.div_mod_to_equations; lia.
Qed.

Lemma YearFromTime_unique (t y : Z) :
  -100000400 <= Day t <= 100000400 ->
  DayFromYear y <= Day t < DayFromYear (y + 1) -> YearFromTime t = y.
Proof.
  intros Hr Hy. apply (year_unique (Day t)); [|done]. by apply YearFromTime_spec.
Qed.

Lemma DayWithinYear_range (t : Z) :
  -100000400 <= Day t <= 100000400 ->
  0 <= DayWithinYear t
  < 365 + (if InLeapYear_of (YearFromTime t) then 1 else 0).
Proof.
  intros Hr. unfold DayWithinYear.
  pose proof (YearFromTime_spec t Hr) as H.
  rewrite DayFromYear_step in H. lia.
Qed.

Lemma MonthFromTime_range (t : Z) :
  -100000400 <= Day t <= 100000400 -> 0 <= MonthFromTime t <= 11.
Proof.
  intros Hr. unfold MonthFromTime. cbn zeta.
  pose proof (DayWithinYear_range t Hr) as [H0 _].
  pose proof (length_filter (λ s, s <= DayWithinYear t)
                (month_starts (InLeapYear_of (YearFromTime t)))) as Hle.
  assert (length (month_starts (InLeapYear_of (YearFromTime t))) = 12%nat) as E
    by by destruct (InLeapYear_of _).
  rewrite E in Hle. unfold month_starts in *. cbn zeta in *.
  rewrite filter_cons, decide_True in * by done. cbn [length] in *. lia.
Qed.

Lemma month_start_range (leap : bool) (m : Z) :
  0 <= m <= 11 -> 0 <= month_start leap m <= 335.
Proof.
  intros Hm.
  assert (m = 0 ∨ m = 1 ∨ m = 2 ∨ m = 3 ∨ m = 4 ∨ m = 5 ∨ m = 6 ∨ m = 7
          ∨ m = 8 ∨ m = 9 ∨ m = 10 ∨ m = 11) as H by lia.
  destruct leap; repeat (destruct H as [->|H]); try subst m; by vm_compute.
Qed.

Lemma month_start_month (leap : bool) (m : Z) :
  0 <= m <= 11 ->
  Z.of_nat (length (filter (λ s, s <= month_start leap m) (month_starts leap))) - 1
  = m.
Proof.
  intros Hm.
  assert (m = 0 ∨ m = 1 ∨ m = 2 ∨ m = 3 ∨ m = 4 ∨ m = 5 ∨ m = 6 ∨ m = 7
          ∨ m = 8 ∨ m = 9 ∨ m = 10 ∨ m = 11) as H by lia.
  destruct leap; repeat (destruct H as [->|H]); try subst m; by vm_compute.
Qed.

(** What the calendar reads at the first day of month [m] of year [y], at
    the time of day [tod]. *)
Lemma first_day_reads (y m tod : Z) :
  0 <= m <= 11 -> 0 <= tod < msPerDay ->
  -100000400 <= MakeDay y m 1 <= 100000400 ->
  let t := MakeDate (MakeDay y m 1) tod in
  Day t = MakeDay y m 1 ∧ TimeWithinDay t = tod
  ∧ YearFromTime t = y ∧ MonthFromTime t = m ∧ DateFromTime t = 1.
Proof.
  intros Hm Htod Hr. cbn zeta.
  assert (Day (MakeDate (MakeDay y m 1) tod) = MakeDay y m 1) as Hday.
  { unfold Day, MakeDate. rewrite Z.div_add_l by done.
    rewrite (Z.div_small tod) by done. lia. }
  assert (TimeWithinDay (MakeDate (MakeDay y m 1) tod) = tod) as Htime.
  { unfold TimeWithinDay, MakeDate. rewrite Z.add_comm, Z.mod_add by done.
    by apply Z.mod_small. }
  pose proof (month_start_range (InLeapYear_of y) m Hm) as Hs.
  assert (YearFromTime (MakeDate (MakeDay y m 1) tod) = y) as Hyear.
  { apply YearFromTime_unique; rewrite Hday; [done|].
    rewrite DayFromYear_step. unfold MakeDay.
    destruct (InLeapYear_of y) eqn:Hleap.
    - lia.
    - assert (month_start false m <= 334); [|lia].
      assert (m = 0 ∨ m = 1 ∨ m = 2 ∨ m = 3 ∨ m = 4 ∨ m = 5 ∨ m = 6 ∨ m = 7
              ∨ m = 8 ∨ m = 9 ∨ m = 10 ∨ m = 11) as H by lia.
      repeat (destruct H as [->|H]); try subst m; by vm_compute. }
  assert (DayWithinYear (MakeDate (MakeDay y m 1) tod)
          = month_start (InLeapYear_of y) m) as Hdy.
  { unfold DayWithinYear. rewrite Hday, Hyear. unfold MakeDay. lia. }
  assert (MonthFromTime (MakeDate (MakeDay y m 1) tod) = m) as Hmonth.
  { unfold MonthFromTime. cbn zeta. rewrite Hdy, Hyear.
    by apply month_start_month. }
  split; [done|]. split; [done|]. split; [done|]. split; [done|].
  unfold DateFromTime. rewrite Hdy, Hyear, Hmonth. lia.
Qed.

(** In a zone that is regular at the first of the month, [startOfMonth] is
    the instant of local midnight of the first day of the month and year
    that the local calendar reads [now] in. *)
Lemma startOfMonth_first_day (e : Env) (now : Z) :
  regular e now ->
  let l := LocalTime e now in
  startOfMonth e now
  = UTC e (MakeDate (MakeDay (YearFromTime l) (MonthFromTime l) 1) 0).
Proof.
  intros [Hday _]. cbn zeta. unfold startOfMonth, setHours, setDate.
  cbn zeta. by rewrite Hday.
Qed.

(** ... and the local calendar reads it as that day, at 00:00:00.000. *)
Lemma startOfMonth_starts_month (e : Env) (now : Z) :
  regular e now -> in_range (LocalTime e now) ->
  starts_month_of e now (startOfMonth e now).
Proof.
  intros Hreg Hr. rewrite startOfMonth_first_day by done. cbn zeta.
  destruct Hreg as [_ Hmid]. unfold starts_month_of. cbn zeta. rewrite Hmid.
  unfold in_range in Hr.
  assert (-100000400 <= Day (LocalTime e now) <= 100000400) as Hr' by lia.
  pose proof (MonthFromTime_range _ Hr') as Hm.
  pose proof (YearFromTime_spec _ Hr') as Hy.
  pose proof (month_start_range
                (InLeapYear_of (YearFromTime (LocalTime e now)))
                (MonthFromTime (LocalTime e now)) Hm) as Hs.
  destruct (first_day_reads (YearFromTime (LocalTime e now))
              (MonthFromTime (LocalTime e now)) 0) as (_ & Ht & Hyr & Hmo & Hd);
    [done|done| |done].
  rewrite DayFromYear_step in Hy. unfold MakeDay.
  destruct (InLeapYear_of _); lia.
Qed.

End CalendarFacts.

(* ===================================================================== *)
(** * Properties of the entitlement resolver and the usage meter          *)
(* ===================================================================== *)

Module UsageFacts.
Import UsageService AIService prisma.subscription Vocabulary.

Lemma latest_None (rows : list Subscription) :
  latest rows = None <-> rows = [].
Proof.
  destruct rows as [|r rest]; [done|]. cbn.
  split; [|done]. destruct (latest rest); [case_match|]; done.
Qed.

Lemma latest_Some (rows : list Subscription) (b : Subscription) :
  latest rows = Some b ->
  b ∈ rows ∧ ∀ x, x ∈ rows -> (createdAt x <= createdAt b)%Z.
Proof.
  revert b. induction rows as [|r rest IH]; intros b; [done|]. cbn.
  destruct (latest rest) as [c|] eqn:E.
  - destruct (IH c eq_refl) as [Hin Hmax].
    destruct (Z.ltb_spec (createdAt r) (createdAt c)); intros [= <-].
    + split; [by right|]. intros x [->|Hx]%elem_of_cons; [lia|by apply Hmax].
    + split; [by left|]. intros x [->|Hx]%elem_of_cons; [lia|].
      specialize (Hmax x Hx). lia.
  - intros [= <-]. apply latest_None in E as ->.
    split; [by left|]. by intros x ->%list_elem_of_singleton.
Qed.

Lemma getUserPlan_run (u : string) (w : World) :
  getUserPlan u w =
  (Return (let s := latest (filter (live u) (subscriptions (db w))) in
           let p := match s with Some r => planType r | None => PlanType.FREE end in
           {| up_planType := p; up_subscription := s;
              up_plan := PLANS (env w) p |}), w).
Proof. reflexivity. Qed.

(** C1: [getUserPlan] returns and leaves the world as it was. For a user
    with no live (non-tombstoned) subscription row the result has plan type
    FREE, no subscription and exactly the FREE feature set; when the
    user's most recently created live rows have plan type PRO, the result
    has plan type PRO and exactly the PRO feature set. *)
Theorem getUserPlan_resolves (u : string) (w : World) :
  ∃ r, getUserPlan u w = (Return r, w)
    ∧ ((∀ s, s ∈ subscriptions (db w) -> ¬ live u s) ->
         up_planType r = PlanType.FREE ∧ up_subscription r = None
         ∧ up_plan r = PLANS (env w) PlanType.FREE
         ∧ features (up_plan r) =
             {| conversionsPerMonth := 10; notesLimit := 20;
                aiFeatures := false; exportFormats := [];
                folders := false; tags := false |})
    ∧ (∀ s, s ∈ subscriptions (db w) -> live u s ->
         (∀ s', s' ∈ subscriptions (db w) -> live u s' ->
                (createdAt s' <= createdAt s)%Z
                ∧ (createdAt s' = createdAt s -> planType s' = PlanType.PRO)) ->
         up_planType r = PlanType.PRO
         ∧ up_plan r = PLANS (env w) PlanType.PRO
         ∧ features (up_plan r) =
             {| conversionsPerMonth := -1; notesLimit := -1;
                aiFeatures := true;
                exportFormats := ["pdf"; "txt"; "markdown"];
                folders := true; tags := true |}).
Proof.
  eexists. split; [apply getUserPlan_run|]. cbn zeta.
  destruct (latest (filter (live u) (subscriptions (db w)))) as [b|] eqn:E.
  - apply latest_Some in E as [[Hb Hin]%list_elem_of_filter Hmax]. split.
    + intros Hnone. by destruct (Hnone b Hin).
    + intros s Hs Hlive Hlatest. cbn.
      assert (planType b = PlanType.PRO) as ->; [|done].
      destruct (Hlatest b Hin Hb) as [Hle Heq]. apply Heq.
      assert (createdAt s <= createdAt b)%Z; [|lia].
      apply Hmax. by apply list_elem_of_filter.
  - apply latest_None in E. split; [done|].
    intros s Hs Hlive _. exfalso.
    assert (s ∈ filter (live u) (subscriptions (db w))) as Hin
      by by apply list_elem_of_filter.
    rewrite E in Hin. by apply not_elem_of_nil in Hin.
Qed.

Lemma monthly_threshold (n : nat) :
  (bool_decide (Z.of_nat n < 10)%Z = true <-> n < 10)
  ∧ (10 <= n -> bool_decide (Z.of_nat n < 10)%Z = false)
  ∧ (n = 9 -> bool_decide (Z.of_nat n < 10)%Z = true).
Proof.
  split; [rewrite bool_decide_eq_true; lia|].
  split; intros Hn; [apply bool_decide_eq_false|apply bool_decide_eq_true]; lia.
Qed.

(** C3 (amended): [canCreateNote] returns without writing. When the
    resolved plan's [notesLimit] is [-1] the result is [{allowed: true}]
    alone, with neither [used] nor [limit], whatever the note count;
    otherwise it is [{allowed, used, limit}] with [used] the count of the
    user's non-deleted notes, [limit] the plan's [notesLimit] and
    [allowed] true exactly when [used < limit]. *)
Theorem canCreateNote_quota (u : string) (w : World) :
  ∃ r q, getUserPlan u w = (Return r, w)
    ∧ canCreateNote u w = (Return q, w)
    ∧ let n := length (filter (live_note u) (notes (db w))) in
      let lim := notesLimit (features (up_plan r)) in
      (lim = (-1)%Z -> q = {| allowed := true; used := None; limit := None |})
      ∧ (lim ≠ (-1)%Z ->
           used q = Some n ∧ limit q = Some lim
           ∧ (allowed q = true <-> (Z.of_nat n < lim)%Z)).
Proof.
  eexists. unfold canCreateNote. prog_unfold. rewrite getUserPlan_run. cbn zeta.
  cbn [up_plan].
  destruct (decide (notesLimit (features
              (PLANS (env w) match latest (filter (live u) (subscriptions (db w))) with
                             | Some r => planType r
                             | None => PlanType.FREE
                             end)) = (-1)%Z)) as [E|E].
  - eexists. split; [reflexivity|]. split; [reflexivity|]. split; [done|done].
  - eexists. split; [reflexivity|]. split; [reflexivity|]. split; [done|].
    intros _. cbn. fold (live_note u).
    split; [done|]. split; [done|]. apply bool_decide_eq_true.
Qed.

Lemma aIUsage_create_run (c : prisma.aIUsage.CreateData) (w : World) :
  prisma.aIUsage.create c w =
  if decide (users (db w) !! prisma.aIUsage.c_userId c = None)
  then (Throw ForeignKeyFailed, w)
  else if storage_ok w
  then let row := prisma.aIUsage.new_row (nextId (db w)) (clock w) c in
       (Return row,
        set_db {| users := users (db w); subscriptions := subscriptions (db w);
                  aIUsage := aIUsage (db w) ++ [row]; notes := notes (db w);
                  paymentHistory := paymentHistory (db w);
                  nextId := S (nextId (db w)) |} w)
  else (Throw PersistenceError, w).
Proof.
  unfold prisma.aIUsage.create. prog_unfold. cbn.
  destruct (decide _); [done|]. by destruct (storage_ok w).
Qed.

(** C9: [trackUsage] returns normally on every input and in every world.
    When the insert of the usage record throws, the world is as before but
    for one line on the console; when it succeeds, exactly one row, with
    the given fields, is appended to the usage table and no other table
    changes. *)
Theorem trackUsage_swallows (u op : string) (tok c : float)
    (noteId : option nat) (md : Metadata) (w : World) :
  let data := {| prisma.aIUsage.c_userId := u; prisma.aIUsage.c_noteId := noteId;
                 prisma.aIUsage.c_operation := op; prisma.aIUsage.c_tokensUsed := tok;
                 prisma.aIUsage.c_cost := c; prisma.aIUsage.c_metadata := md |} in
  ∃ w', trackUsage u op tok c noteId md w = (Return (), w')
    ∧ (∀ e, fst (prisma.aIUsage.create data w) = Throw e ->
         db w' = db w
         ∧ console w' = console w ++ ["Failed to track AI usage:"])
    ∧ (∀ row, fst (prisma.aIUsage.create data w) = Return row ->
         aIUsage (db w') = aIUsage (db w) ++ [row]
         ∧ row = prisma.aIUsage.new_row (nextId (db w)) (clock w) data
         ∧ users (db w') = users (db w)
         ∧ subscriptions (db w') = subscriptions (db w)
         ∧ notes (db w') = notes (db w)
         ∧ paymentHistory (db w') = paymentHistory (db w)
         ∧ console w' = console w).
Proof.
  intros data. unfold trackUsage. fold data. prog_unfold.
  rewrite aIUsage_create_run.
  destruct (decide _) as [E|E]; [|destruct (storage_ok w)]; cbn.
  - eexists. split; [reflexivity|]. split; [done|]. by intros row [=].
  - eexists. split; [reflexivity|]. split; [by intros e [=]|].
    by intros row [= <-].
  - eexists. split; [reflexivity|]. split; [done|]. by intros row [=].
Qed.

End UsageFacts.

(* ===================================================================== *)
(** * Properties of the webhook handlers                                  *)
(* ===================================================================== *)

Module BillingFacts.
Import BillingController prisma.subscription Vocabulary.

Section head_filter.
Context {A : Type} (P : A -> Prop) `{!∀ x, Decision (P x)}.

Lemma head_filter_unique (l : list A) (a : A) :
  a ∈ l -> P a -> (∀ x, x ∈ l -> P x -> x = a) -> head (filter P l) = Some a.
Proof.
  induction l as [|x l IH]; intros Hin Pa Hu; [by apply not_elem_of_nil in Hin|].
  rewrite filter_cons. destruct (decide (P x)) as [Px|Px].
  - cbn. f_equal. apply Hu; [by left|done].
  - apply IH; [|done|].
    + apply elem_of_cons in Hin as [->|Hin]; done.
    + intros y Hy. apply Hu. by right.
Qed.

Lemma head_filter_None (l : list A) :
  (∀ x, x ∈ l -> ¬ P x) -> head (filter P l) = None.
Proof.
  induction l as [|x l IH]; intros Hn; [done|].
  rewrite filter_cons, decide_False by (apply Hn; by left).
  apply IH. intros y Hy. apply Hn. by right.
Qed.

Lemma head_filter_Some (l : list A) (a : A) :
  head (filter P l) = Some a -> a ∈ l ∧ P a.
Proof.
  induction l as [|x l IH]; [done|].
  rewrite filter_cons. destruct (decide (P x)) as [Px|Px].
  - intros [= <-]. split; [by left|done].
  - intros [Hin Pa]%IH. split; [by right|done].
Qed.

Lemma head_filter_fmap (g : A -> A) (l : list A) :
  (∀ x, P (g x) <-> P x) ->
  head (filter P (g <$> l)) = g <$> head (filter P l).
Proof.
  intros Hg. induction l as [|x l IH]; [done|].
  rewrite fmap_cons, !filter_cons.
  destruct (decide (P x)) as [Px|Px].
  - by rewrite decide_True by by apply Hg.
  - by rewrite decide_False by by rewrite Hg.
Qed.

End head_filter.

Lemma on_id_fields (id : nat) (f : Subscription -> Subscription)
    (r : Subscription) :
  (∀ x, sub_id (f x) = sub_id x) -> sub_id (on_id id f r) = sub_id r.
Proof. intros Hf. unfold on_id. by case_decide. Qed.

Lemma on_id_idem (id : nat) (f : Subscription -> Subscription) :
  (∀ x, sub_id (f x) = sub_id x) -> (∀ x, f (f x) = f x) ->
  ∀ r, on_id id f (on_id id f r) = on_id id f r.
Proof.
  intros Hid Hf r. unfold on_id. destruct (decide (sub_id r = id)) as [E|E].
  - by rewrite decide_True, Hf by by rewrite Hid.
  - by rewrite decide_False.
Qed.

Lemma Exists_sub_id (rows : list Subscription) (row : Subscription) :
  row ∈ rows -> Exists (λ r, sub_id r = sub_id row) rows.
Proof. intros Hin. apply Exists_exists. by exists row. Qed.

Lemma handleSubscriptionDeleted_run (ev : StripeSubscription) (w : World) :
  handleSubscriptionDeleted ev w =
  match head (filter (λ r, stripeSubscriptionId r = Some (ss_id ev))
                     (subscriptions (db w))) with
  | None => (Return (), w)
  | Some row =>
      if storage_ok w then
        if decide (is_Some (users (db w) !! userId row))
        then (Return (), downgraded row (canceled row w))
        else (Throw RecordNotFound, canceled row w)
      else (Throw PersistenceError, w)
  end.
Proof.
  unfold handleSubscriptionDeleted, findUnique_stripeSubscriptionId, update,
    prisma.user.update.
  prog_unfold. cbn.
  destruct (head _) as [row|] eqn:E; [|done].
  apply head_filter_Some in E as [Hin _].
  rewrite decide_True by by apply Exists_sub_id.
  destruct (storage_ok w) eqn:Hok; [|done]. cbn.
  destruct (decide (is_Some _)); [|done]. cbn. by rewrite Hok.
Qed.

Lemma deleted_data_idem (r : Subscription) :
  deleted_data (deleted_data r) = deleted_data r.
Proof. done. Qed.

(** A second delivery of [customer.subscription.deleted] ends as the first
    did and leaves the world the first one produced, in every world. *)
Lemma handleSubscriptionDeleted_idem (ev : StripeSubscription) (w : World) :
  handleSubscriptionDeleted ev (snd (handleSubscriptionDeleted ev w))
  = handleSubscriptionDeleted ev w.
Proof.
  rewrite (handleSubscriptionDeleted_run ev w).
  destruct (head _) as [row|] eqn:E; cbn [snd].
  - assert (head (filter (λ r, stripeSubscriptionId r = Some (ss_id ev))
                     (on_id (sub_id row) deleted_data <$> subscriptions (db w)))
            = Some (deleted_data row)) as E'.
    { rewrite head_filter_fmap, E; cbn.
      - unfold on_id. by rewrite decide_True.
      - intros x. unfold on_id. by case_decide. }
    assert (on_id (sub_id row) deleted_data <$>
              (on_id (sub_id row) deleted_data <$> subscriptions (db w))
            = on_id (sub_id row) deleted_data <$> subscriptions (db w)) as Hsubs.
    { rewrite <-list_fmap_compose. apply list_fmap_ext. intros i x _. cbn.
      by apply on_id_idem. }
    destruct (storage_ok w) eqn:Hok; [destruct (decide (is_Some _)) as [Hu|Hu]|];
      cbn [snd]; rewrite handleSubscriptionDeleted_run; cbn.
    + rewrite E'. cbn. rewrite Hok.
      rewrite decide_True by (by rewrite lookup_alter_is_Some).
      unfold downgraded, canceled, set_db. cbn. rewrite Hsubs.
      rewrite alter_alter_eq.
      by rewrite (alter_ext (set_role Role.USER ∘ set_role Role.USER)
                            (set_role Role.USER)).
    + rewrite E'. cbn. rewrite Hok, decide_False by done.
      unfold canceled, set_db. cbn. by rewrite Hsubs.
    + by rewrite E, Hok.
  - rewrite handleSubscriptionDeleted_run. by rewrite E.
Qed.

(** C5: processing [customer.subscription.deleted] is idempotent in every
    world: a second delivery ends as the first did and leaves the world the
    first produced. When the event's id is the external subscription id of
    an existing row (the only one with it), the owner exists and the store
    accepts writes, the handler returns, the row has status CANCELED and
    plan type FREE with its other columns as before, and the owner's role
    is USER. *)
Theorem subscription_deleted_cancels (ev : StripeSubscription) (w : World) :
  let h := dispatch (customer_subscription_deleted ev) in
  h (snd (h w)) = h w
  ∧ ∀ (row : Subscription) (owner : User),
      row ∈ subscriptions (db w) ->
      stripeSubscriptionId row = Some (ss_id ev) ->
      (∀ r, r ∈ subscriptions (db w) ->
            stripeSubscriptionId r = Some (ss_id ev) -> r = row) ->
      users (db w) !! userId row = Some owner ->
      storage_ok w = true ->
      ∃ w', h w = (Return (), w')
        ∧ h w' = (Return (), w')
        ∧ {| sub_id := sub_id row; userId := userId row;
             planType := PlanType.FREE; status := Status.CANCELED;
             stripeCustomerId := stripeCustomerId row;
             stripeSubscriptionId := stripeSubscriptionId row;
             currentPeriodStart := currentPeriodStart row;
             currentPeriodEnd := currentPeriodEnd row;
             cancelAtPeriodEnd := cancelAtPeriodEnd row;
             createdAt := createdAt row; deletedAt := deletedAt row |}
          ∈ subscriptions (db w')
        ∧ users (db w') !! userId row
          = Some {| user_id := user_id owner; email := email owner;
                    user_name := user_name owner; role := Role.USER |}.
Proof.
  cbn [dispatch]. split; [apply handleSubscriptionDeleted_idem|].
  intros row owner Hin Hid Huniq Hown Hok.
  pose proof (handleSubscriptionDeleted_idem ev w) as Hidem.
  assert (handleSubscriptionDeleted ev w
          = (Return (), downgraded row (canceled row w))) as E.
  { rewrite handleSubscriptionDeleted_run, (head_filter_unique _ _ row) by done.
    by rewrite Hok, decide_True by by rewrite Hown. }
  rewrite E in Hidem |- *. cbn [snd] in Hidem.
  eexists. split; [reflexivity|]. split; [exact Hidem|]. split.
  - cbn. apply list_elem_of_fmap. exists row. split; [|done].
    unfold on_id. by rewrite decide_True.
  - cbn. by rewrite lookup_alter_eq, Hown.
Qed.

Lemma handleSubscriptionUpdate_run (ev : StripeSubscription) (w : World) :
  handleSubscriptionUpdate ev w =
  match head (filter (λ r, stripeSubscriptionId r = Some (ss_id ev))
                     (subscriptions (db w))) with
  | None => (Return (), w)
  | Some row =>
      if storage_ok w then
        (Return (),
         set_db (prisma.set_subscriptions
                   (on_id (sub_id row) (update_data ev) <$> subscriptions (db w))
                   (db w)) w)
      else (Throw PersistenceError, w)
  end.
Proof.
  unfold handleSubscriptionUpdate, findUnique_stripeSubscriptionId, update.
  prog_unfold. cbn.
  destruct (head _) as [row|] eqn:E; [|done].
  apply head_filter_Some in E as [Hin _].
  by rewrite decide_True by by apply Exists_sub_id.
Qed.

(** C6: [customer.subscription.created] and [customer.subscription.updated]
    run the same handler. When no row has the event's external subscription
    id, it returns and the world is unchanged. When a row has it (and is the
    only one) and the store accepts writes, the world changes in the
    subscription table alone, and there only in the row with that primary
    key: its status is the mapped provider status, its period bounds and
    [cancelAtPeriodEnd] are the event's, and its other columns are kept.
    The mapping sends ['active'] to ACTIVE, ['canceled'] to CANCELED,
    ['past_due'] to PAST_DUE and every other string to INCOMPLETE. *)
Theorem subscription_update_effect (ev : StripeSubscription) (w : World) :
  dispatch (customer_subscription_created ev) = handleSubscriptionUpdate ev
  ∧ dispatch (customer_subscription_updated ev) = handleSubscriptionUpdate ev
  ∧ ((∀ r, r ∈ subscriptions (db w) ->
           stripeSubscriptionId r ≠ Some (ss_id ev)) ->
       handleSubscriptionUpdate ev w = (Return (), w))
  ∧ (∀ row : Subscription,
       row ∈ subscriptions (db w) ->
       stripeSubscriptionId row = Some (ss_id ev) ->
       (∀ r, r ∈ subscriptions (db w) ->
             stripeSubscriptionId r = Some (ss_id ev) -> r = row) ->
       storage_ok w = true ->
       ∃ w', handleSubscriptionUpdate ev w = (Return (), w')
         ∧ env w' = env w ∧ provider w' = provider w ∧ clock w' = clock w
         ∧ storage_ok w' = storage_ok w ∧ console w' = console w
         ∧ users (db w') = users (db w) ∧ aIUsage (db w') = aIUsage (db w)
         ∧ notes (db w') = notes (db w)
         ∧ paymentHistory (db w') = paymentHistory (db w)
         ∧ nextId (db w') = nextId (db w)
         ∧ subscriptions (db w') =
             (λ r, if decide (sub_id r = sub_id row)
                   then {| sub_id := sub_id r; userId := userId r;
                           planType := planType r;
                           status := map_status (ss_status ev);
                           stripeCustomerId := stripeCustomerId r;
                           stripeSubscriptionId := stripeSubscriptionId r;
                           currentPeriodStart := Some (current_period_start ev * 1000)%Z;
                           currentPeriodEnd := Some (current_period_end ev * 1000)%Z;
                           cancelAtPeriodEnd := cancel_at_period_end ev;
                           createdAt := createdAt r; deletedAt := deletedAt r |}
                   else r) <$> subscriptions (db w))
  ∧ map_status "active" = Status.ACTIVE
  ∧ map_status "canceled" = Status.CANCELED
  ∧ map_status "past_due" = Status.PAST_DUE
  ∧ (∀ s, s ≠ "active" -> s ≠ "canceled" -> s ≠ "past_due" ->
          map_status s = Status.INCOMPLETE).
Proof.
  split; [done|]. split; [done|]. split; [|split]; [| |repeat split].
  - intros Hnone. rewrite handleSubscriptionUpdate_run.
    by rewrite head_filter_None.
  - intros row Hin Hid Huniq Hok. rewrite handleSubscriptionUpdate_run.
    rewrite (head_filter_unique _ _ row), Hok by done.
    eexists. split; [reflexivity|]. by repeat split.
  - intros s H1 H2 H3. unfold map_status. by rewrite !decide_False.
Qed.

(** For a session with a resolved user, once the provider's subscription is
    retrieved: every row of the user is tombstoned, a PRO row with the new
    external subscription id is appended, and the user's role becomes PRO. *)
Lemma handleCheckoutCompleted_resolved (s : CheckoutSession) (u : string)
    (sub : StripeSubscription) (owner : User) (w : World) :
  cs_metadata s ≫= md_userId = Some u -> u ≠ "" -> u ≠ "pending" ->
  stripe.subscriptions.retrieve (cs_subscription s) w = (Return sub, w) ->
  users (db w) !! u = Some owner ->
  (∀ r, r ∈ subscriptions (db w) -> stripeSubscriptionId r ≠ Some (ss_id sub)) ->
  storage_ok w = true ->
  ∃ w', handleCheckoutCompleted s w = (Return (), w')
    ∧ subscriptions (db w') =
        ((λ r, if decide (userId r = u) then set_deletedAt (Some (clock w)) r else r)
           <$> subscriptions (db w))
        ++ [ {| sub_id := nextId (db w); userId := u;
                planType := PlanType.PRO;
                status := if decide (ss_status sub = "active")
                          then Status.ACTIVE else Status.INCOMPLETE;
                stripeCustomerId := cs_customer s;
                stripeSubscriptionId := Some (ss_id sub);
                currentPeriodStart := Some (current_period_start sub * 1000)%Z;
                currentPeriodEnd := Some (current_period_end sub * 1000)%Z;
                cancelAtPeriodEnd := false; createdAt := clock w;
                deletedAt := None |} ]
    ∧ users (db w') = alter (set_role Role.PRO) u (users (db w)).
Proof.
  intros Hu Hne Hnp Hsub Hown Hnew Hok.
  unfold handleCheckoutCompleted. rewrite Hu. cbn [str_truthy default].
  rewrite (bool_decide_eq_false_2 (u = "")) by done. cbn [negb andb].
  unfold mbind at 1, Prog_bind at 1. rewrite Hsub.
  rewrite (bool_decide_eq_false_2 (Some u = Some "pending")) by congruence.
  cbn [orb negb].
  unfold updateMany, create, prisma.user.update. prog_unfold.
  destruct w as [e d pr c ok con]. cbn in *. subst ok. cbn.
  rewrite decide_False by by rewrite Hown.
  rewrite decide_False; cycle 1.
  { intros [_ (r & Hr & Hid)%Exists_exists].
    apply list_elem_of_fmap in Hr as (r0 & -> & Hr0).
    apply (Hnew r0 Hr0). by destruct (decide (userId r0 = u)). }
  cbn. rewrite decide_True by by rewrite Hown.
  eexists. split; [reflexivity|]. done.
Qed.

(** C7: the handler of [checkout.session.completed] never reads the
    session's payment status: it does the same for any value of it. So the
    completed but unpaid checkout of Bob is acted on: his row is tombstoned,
    a PRO row (INCOMPLETE) keyed by the new external subscription id is
    inserted, and his role becomes PRO. *)
Theorem checkout_completed_ignores_payment_status :
  (∀ (p : string) (s : CheckoutSession),
     handleCheckoutCompleted (with_payment_status p s)
     = handleCheckoutCompleted s)
  ∧ cs_payment_status Scenario.unpaid_session = "unpaid"
  ∧ ∃ w', dispatch (checkout_session_completed Scenario.unpaid_session)
                   Scenario.world0 = (Return (), w')
      ∧ subscriptions (db w') =
          [ Scenario.alice_free; Scenario.alice_pro;
            set_deletedAt (Some (clock Scenario.world0)) Scenario.bob_free;
            {| sub_id := 100; userId := "u2"; planType := PlanType.PRO;
               status := Status.INCOMPLETE; stripeCustomerId := Some "cus_B";
               stripeSubscriptionId := Some "sub_B";
               currentPeriodStart := Some 1710504000000%Z;
               currentPeriodEnd := Some 1713182400000%Z;
               cancelAtPeriodEnd := false;
               createdAt := clock Scenario.world0; deletedAt := None |} ]
      ∧ users (db w') !! "u2" = Some (set_role Role.PRO Scenario.bob).
Proof.
  split; [done|]. split; [done|].
  eexists. split; [vm_compute; reflexivity|]. split; by vm_compute.
Qed.

Lemma retrieve_cases (id : option string) (w : World) :
  (∃ sub, stripe.subscriptions.retrieve id w = (Return sub, w))
  ∨ stripe.subscriptions.retrieve id w = (Throw StripeError, w).
Proof.
  unfold stripe.subscriptions.retrieve. destruct id as [i|]; [|by right].
  destruct (head _) as [sub|]; [left; by exists sub|by right].
Qed.

Lemma guest_not_resolved (s : CheckoutSession) :
  guest s ->
  bool_decide (cs_metadata s ≫= md_userId = Some "pending")
  || negb (str_truthy (cs_metadata s ≫= md_userId)) = true.
Proof.
  intros [H|H].
  - by rewrite bool_decide_eq_true_2.
  - rewrite H. by rewrite orb_true_r.
Qed.

(** The handler writes nothing for a guest session, whether it returns or
    the retrieval of the provider's subscription throws. *)
Lemma handleCheckoutCompleted_guest (s : CheckoutSession) (w : World) :
  guest s ->
  snd (handleCheckoutCompleted s w) = w
  ∧ (fst (handleCheckoutCompleted s w) = Return ()
     ∨ fst (handleCheckoutCompleted s w) = Throw StripeError).
Proof.
  intros Hg%guest_not_resolved.
  remember (handleCheckoutCompleted s w) as r eqn:E.
  unfold handleCheckoutCompleted in E.
  destruct (negb _ && negb _); [subst r; split; [reflexivity|left; reflexivity]|].
  unfold mbind at 1, Prog_bind at 1 in E.
  destruct (retrieve_cases (cs_subscription s) w) as [[sub Hr]|Hr];
    rewrite Hr in E.
  - rewrite Hg in E. subst r. split; [reflexivity|left; reflexivity].
  - subst r. split; [reflexivity|right; reflexivity].
Qed.

Lemma str_or_truthy (a : option string) (d : string) :
  d ≠ "" -> str_truthy (Some (str_or a d)) = true.
Proof.
  intros Hd. unfold str_or. destruct a as [s|]; cbn.
  - destruct (bool_decide (s = "")) eqn:E; cbn.
    + by rewrite bool_decide_eq_false_2.
    + by rewrite E.
  - by rewrite bool_decide_eq_false_2.
Qed.

Lemma findUnique_email_None (e : string) (w : World) :
  (∀ k u, users (db w) !! k = Some u -> email u ≠ e) ->
  prisma.user.findUnique_email e w = (Return None, w).
Proof.
  intros Hnone. unfold prisma.user.findUnique_email, prisma.read.
  rewrite head_filter_None; [done|].
  intros u ([k u'] & -> & Hk%elem_of_map_to_list)%list_elem_of_fmap.
  by apply (Hnone k).
Qed.

(** What [createGuestCheckoutSession] leaves behind for an email that no
    user has: nothing in the database, and on the provider's side a customer
    and a checkout session whose metadata holds the placeholder user
    ['pending'], the email, the plan type and the billing cycle. *)
Lemma createGuestCheckoutSession_metadata (body : GuestCheckoutBody)
    (e : string) (w : World) :
  stripe.configured (env w) = true ->
  body_email body = Some e -> e ≠ "" ->
  default "PRO" (body_planType body) ∈ ["BASIC"; "PRO"; "PREMIUM"] ->
  (∀ k u, users (db w) !! k = Some u -> email u ≠ e) ->
  ∃ w', createGuestCheckoutSession body w
        = (Return (checkout_json
                     ("cs_" +:+ pretty (length (stripe_sessions (provider w))))), w')
    ∧ db w' = db w
    ∧ stripe_sessions (provider w') =
        stripe_sessions (provider w)
        ++ [ {| cs_id := "cs_" +:+ pretty (length (stripe_sessions (provider w)));
                cs_customer :=
                  Some ("cus_" +:+ pretty (length (stripe_customers (provider w))));
                customer_email := Some e;
                cs_payment_status := "unpaid";
                cs_subscription := None;
                cs_metadata :=
                  Some {| md_userId := Some "pending"; md_email := Some e;
                          md_planType := Some "PRO";
                          md_originalPlanType :=
                            Some (default "PRO" (body_planType body));
                          md_billingCycle :=
                            Some (default "monthly" (body_billingCycle body)) |} |} ].
Proof.
  intros Hcfg He Hne Hplan Hnone.
  assert (PLANS_get (env w)
            (if bool_decide (default "PRO" (body_planType body) = "BASIC")
                || bool_decide (default "PRO" (body_planType body) = "PREMIUM")
             then "PRO" else default "PRO" (body_planType body))
          = Some (PLANS (env w) PlanType.PRO)
          ∧ (if bool_decide (default "PRO" (body_planType body) = "BASIC")
                || bool_decide (default "PRO" (body_planType body) = "PREMIUM")
             then "PRO" else default "PRO" (body_planType body)) = "PRO")
    as [Hget Hback].
  { repeat (apply elem_of_cons in Hplan as [->|Hplan]); [done..|].
    by apply not_elem_of_nil in Hplan. }
  unfold createGuestCheckoutSession, try_catch.
  unfold mbind at 1, Prog_bind at 1, get_world. rewrite Hcfg. cbn [negb].
  rewrite He. cbn [str_truthy default].
  rewrite (bool_decide_eq_false_2 (e = "")) by done. cbn [negb].
  rewrite (bool_decide_eq_true_2 (_ ∈ _)) by done. cbn [negb].
  rewrite Hget, Hback.
  unfold mbind at 1, Prog_bind at 1. unfold mret at 1, Prog_ret at 1.
  cbn [PLANS priceId]. rewrite str_or_truthy by done. cbn [negb].
  unfold mbind at 1, Prog_bind at 1. rewrite findUnique_email_None by done.
  eexists. split; [reflexivity|]. split; reflexivity.
Qed.

(** C8 (amended): for a guest session the handler of
    [checkout.session.completed] writes nothing at all, whether it returns
    or the retrieval of the provider's subscription throws: no subscription
    row changes and no mapping is persisted. The email, plan type and
    billing cycle of a guest checkout are held by the provider alone, as the
    metadata [createGuestCheckoutSession] gives the checkout session it
    issues, under the placeholder user ['pending']. *)
Theorem guest_checkout_completed_writes_nothing :
  (∀ (s : CheckoutSession) (w : World), guest s ->
     snd (dispatch (checkout_session_completed s) w) = w
     ∧ (fst (dispatch (checkout_session_completed s) w) = Return ()
        ∨ fst (dispatch (checkout_session_completed s) w) = Throw StripeError))
  ∧ (∀ (body : GuestCheckoutBody) (e : string) (w : World),
       stripe.configured (env w) = true ->
       body_email body = Some e -> e ≠ "" ->
       default "PRO" (body_planType body) ∈ ["BASIC"; "PRO"; "PREMIUM"] ->
       (∀ k u, users (db w) !! k = Some u -> email u ≠ e) ->
       ∃ w' sid session,
         createGuestCheckoutSession body w = (Return (checkout_json sid), w')
         ∧ db w' = db w
         ∧ session ∈ stripe_sessions (provider w')
         ∧ cs_id session = sid
         ∧ guest session
         ∧ pending_of session
           = (Some e, Some "PRO", Some (default "monthly" (body_billingCycle body)))).
Proof.
  split; [intros s w; apply handleCheckoutCompleted_guest|].
  intros body e w Hcfg He Hne Hplan Hnone.
  destruct (createGuestCheckoutSession_metadata body e w) as (w' & E & Hdb & Hs);
    [done..|].
  eexists w', _, _. split; [exact E|]. split; [exact Hdb|].
  split; [rewrite Hs; apply elem_of_app; right; by left|].
  split; [done|]. split; [by left|].
  unfold pending_of, opt_or. cbn.
  by rewrite (bool_decide_eq_false_2 (e = "")).
Qed.

(** C8, the claim as stated fails: the completed guest checkout of
    [a@b.com] leaves the world exactly as it was, and no reading of the
    database can recover a guest session's email, plan type and billing
    cycle from its id after the handler ran. *)
Lemma guest_checkout_mapping_not_persisted :
  dispatch (checkout_session_completed Scenario.guest_session) Scenario.world0
  = (Return (), Scenario.world0)
  ∧ guest Scenario.guest_session
  ∧ ¬ persists_pending_guest_checkout.
Proof.
  split; [by vm_compute|]. split; [by left|].
  intros [lookup H].
  pose proof (H (Scenario.guest_session_for "a@b.com") Scenario.world0) as H1.
  pose proof (H (Scenario.guest_session_for "c@d.com") Scenario.world0) as H2.
  assert (∀ e, snd (handleCheckoutCompleted (Scenario.guest_session_for e)
                      Scenario.world0) = Scenario.world0) as Hw.
  { intros e. apply handleCheckoutCompleted_guest. by left. }
  rewrite Hw in H1, H2. cbn [cs_id Scenario.guest_session_for] in H1, H2.
  rewrite H1 in H2 by by left. specialize (H2 ltac:(by left)).
  vm_compute in H2. discriminate H2.
Qed.

(** With the class as receiver the switch of [handleWebhook] runs the
    handlers: it is [dispatch]. *)
Lemma switch_event_class (event : Event) :
  switch_event this_class event = dispatch event.
Proof. by destruct event. Qed.

End BillingFacts.

(* ===================================================================== *)
(** * The theorems at work in the concrete world                          *)
(* ===================================================================== *)

Module Instances.
Import UsageService AIService BillingController Vocabulary Scenario.
Import UsageFacts BillingFacts.

(** C3, the claim as stated fails: Alice is on the PRO plan, whose note
    limit is [-1]; the check returns [{allowed: true}] with neither [used]
    nor [limit], so [used] is not her note count and [allowed] is true
    although [1 < -1] is false. *)
Lemma canCreateNote_unlimited_omits_usage :
  canCreateNote "u1" world0
  = (Return {| allowed := true; used := None; limit := None |}, world0)
  ∧ ¬ note_quota_as_specified "u1" world0.
Proof.
  assert (canCreateNote "u1" world0
          = (Return {| allowed := true; used := None; limit := None |}, world0))
    as E by by vm_compute.
  split; [exact E|].
  intros (r & q & _ & Eq & Hused & _). rewrite E in Eq.
  injection Eq as <-. discriminate Hused.
Qed.

(** Alice's latest live row is PRO, and a user without rows is FREE. *)
Lemma getUserPlan_resolves_witness :
  (∃ r, getUserPlan "u1" world0 = (Return r, world0)
     ∧ up_planType r = PlanType.PRO
     ∧ notesLimit (features (up_plan r)) = (-1)%Z)
  ∧ (∃ r, getUserPlan "u7" world0 = (Return r, world0)
       ∧ up_planType r = PlanType.FREE ∧ up_subscription r = None
       ∧ notesLimit (features (up_plan r)) = 20%Z).
Proof.
  split.
  - destruct (getUserPlan_resolves "u1" world0) as (r & E & _ & Hpro).
    exists r. split; [exact E|].
    destruct (Hpro alice_pro) as (Hp & _ & Hf).
    + right. left.
    + split; reflexivity.
    + intros s' Hs' [Hu Hd]. cbn in Hs'. in_cases Hs'.
      * discriminate Hd.
      * split; [reflexivity|]. intros _. reflexivity.
      * discriminate Hu.
    + split; [exact Hp|]. rewrite Hf. reflexivity.
  - destruct (getUserPlan_resolves "u7" world0) as (r & E & Hfree & _).
    exists r. split; [exact E|].
    destruct Hfree as (Hp & Hs & _ & Hf).
    + intros s Hs [Hu _]. cbn in Hs. in_cases Hs; discriminate Hu.
    + split; [exact Hp|]. split; [exact Hs|]. rewrite Hf. reflexivity.
Defined.

(** The end-to-end scenario of the specification: ten conversions this
    month refuse the eleventh; nine allow the tenth; after the month rolls
    over nothing counts any more; the same records never refuse PRO. *)
Example monthly_quota_scenario :
  fst (checkUsageLimit "u2" (Some "FREE") world0)
  = Return {| allowed := false; used := Some 10; limit := Some 10%Z |}
  ∧ fst (checkUsageLimit "u2" (Some "FREE")
           (world_at (JsDate.utc 2024 3 15 12 0 0 0) 9 true))
    = Return {| allowed := true; used := Some 9; limit := Some 10%Z |}
  ∧ fst (checkUsageLimit "u2" (Some "FREE")
           (world_at (JsDate.utc 2024 4 1 0 0 0 0) 10 true))
    = Return {| allowed := true; used := Some 0; limit := Some 10%Z |}
  ∧ fst (checkUsageLimit "u2" (Some "PRO") world0)
    = Return {| allowed := true; used := None; limit := None |}
  ∧ startOfMonth env0 (JsDate.utc 2024 3 15 12 0 0 0)
    = JsDate.utc 2024 3 1 0 0 0 0.
Proof. repeat split; by vm_compute. Qed.

(** At its only call site the check is not told the tier: Alice resolves
    to the PRO plan, yet with ten conversions this month the gate of
    [createNote] refuses her, because [plan.planType] is [undefined]. *)
Example createNote_gate_refuses_pro :
  UsageService.up_planType <$> fst_return (getUserPlan "u1" world_alice_busy)
  = Some PlanType.PRO
  ∧ fst (NoteController.createNote_gate "u1" world_alice_busy)
    = Return (conversion_limit_reached (Some 10) (Some 10%Z))
  ∧ fst (checkUsageLimit "u1" (Some "PRO") world_alice_busy)
    = Return {| allowed := true; used := None; limit := None |}.
Proof. repeat split; by vm_compute. Qed.

(** The calendar at work: the fields of two instants, and the start of the
    month in UTC and in a zone one hour ahead, where the last half hour of
    February (UTC) already belongs to March. *)
Example startOfMonth_examples :
  (JsDate.YearFromTime (JsDate.utc 2024 2 29 23 30 0 0),
   JsDate.MonthFromTime (JsDate.utc 2024 2 29 23 30 0 0),
   JsDate.DateFromTime (JsDate.utc 2024 2 29 23 30 0 0)) = (2024, 1, 29)%Z
  ∧ (JsDate.YearFromTime (-1), JsDate.MonthFromTime (-1),
     JsDate.DateFromTime (-1)) = (1969, 11, 31)%Z
  ∧ JsDate.utc 2024 3 15 0 0 0 0 = 1710460800000%Z
  ∧ startOfMonth env0 (JsDate.utc 2024 2 29 23 30 0 0)
    = JsDate.utc 2024 2 1 0 0 0 0
  ∧ startOfMonth {| STRIPE_SECRET_KEY := None; STRIPE_PRO_PRICE_ID := None;
                    LocalTZA := λ _ _, 3600000%Z |}
                 (JsDate.utc 2024 2 29 23 30 0 0)
    = JsDate.utc 2024 2 29 23 0 0 0.
Proof. repeat split; by vm_compute. Qed.

(** Bob has two live notes of the twenty his plan allows. *)
Lemma canCreateNote_quota_witness :
  ∃ q, canCreateNote "u2" world0 = (Return q, world0)
    ∧ used q = Some 2 ∧ limit q = Some 20%Z ∧ allowed q = true.
Proof.
  destruct (canCreateNote_quota "u2" world0) as (r & q & Er & Eq & _ & Hlim).
  exists q. split; [exact Eq|].
  assert (r = {| up_planType := PlanType.FREE; up_subscription := Some bob_free;
                 up_plan := PLANS env0 PlanType.FREE |}) as ->.
  { assert (Return r = Return (A:=UserPlan)
                         {| up_planType := PlanType.FREE;
                            up_subscription := Some bob_free;
                            up_plan := PLANS env0 PlanType.FREE |}) as [= ->];
      [|reflexivity].
    change (Return r) with (fst (Return r, world0)). rewrite <-Er.
    by vm_compute. }
  destruct Hlim as (Hu & Hl & Ha); [discriminate|].
  split; [exact Hu|]. split; [exact Hl|]. apply Ha. vm_compute. reflexivity.
Defined.

(** A usage record for Bob is appended when the store takes the write, and
    the failure is swallowed when it does not. *)
Lemma trackUsage_swallows_witness :
  (∃ w', trackUsage "u2" "ocr" 1000 (Cost.calculateCost 1000 "vision") None []
           world0 = (Return (), w')
     ∧ length (aIUsage (db w')) = S (length (aIUsage (db world0))))
  ∧ (∃ w', trackUsage "u2" "ocr" 1000 (Cost.calculateCost 1000 "vision") None []
             (world_at 0 0 false) = (Return (), w')
       ∧ db w' = db (world_at 0 0 false)
       ∧ console w' = ["Failed to track AI usage:"]).
Proof.
  split.
  - destruct (trackUsage_swallows "u2" "ocr" 1000
                (Cost.calculateCost 1000 "vision") None [] world0)
      as (w' & E & _ & Hok).
    exists w'. split; [exact E|].
    destruct (Hok _ eq_refl) as (Hrows & _). rewrite Hrows, length_app.
    cbn [length]. lia.
  - destruct (trackUsage_swallows "u2" "ocr" 1000
                (Cost.calculateCost 1000 "vision") None [] (world_at 0 0 false))
      as (w' & E & Hfail & _).
    exists w'. split; [exact E|]. exact (Hfail PersistenceError eq_refl).
Defined.

Lemma sub_A_unique (r : Subscription) :
  r ∈ subscriptions (db world0) ->
  stripeSubscriptionId r = Some "sub_A" -> r = alice_pro.
Proof. intros Hr Hid. cbn in Hr. in_cases Hr; done. Defined.

(** Deleting Alice's subscription cancels her row and makes her a USER. *)
Lemma subscription_deleted_cancels_witness :
  ∃ w', dispatch (customer_subscription_deleted sub_A_event) world0
        = (Return (), w')
    ∧ dispatch (customer_subscription_deleted sub_A_event) w' = (Return (), w')
    ∧ set_planType PlanType.FREE (set_status Status.CANCELED alice_pro)
      ∈ subscriptions (db w')
    ∧ users (db w') !! "u1" = Some (set_role Role.USER alice).
Proof.
  destruct (subscription_deleted_cancels sub_A_event world0) as [_ H].
  destruct (H alice_pro alice) as (w' & E & Hidem & Hrow & Hrole).
  - right. left.
  - reflexivity.
  - exact sub_A_unique.
  - reflexivity.
  - reflexivity.
  - exists w'. split; [exact E|]. split; [exact Hidem|].
    split; [exact Hrow|exact Hrole].
Defined.

(** Updating Alice's subscription to [past_due] rewrites her row alone. *)
Lemma subscription_update_effect_witness :
  ∃ w', dispatch (customer_subscription_updated sub_A_event) world0
        = (Return (), w')
    ∧ subscriptions (db w') =
        [ alice_free;
          {| sub_id := 2; userId := "u1"; planType := PlanType.PRO;
             status := Status.PAST_DUE; stripeCustomerId := Some "cus_A";
             stripeSubscriptionId := Some "sub_A";
             currentPeriodStart := Some 1711958400000%Z;
             currentPeriodEnd := Some 1714550400000%Z;
             cancelAtPeriodEnd := true;
             createdAt := createdAt alice_pro; deletedAt := None |};
          bob_free ].
Proof.
  destruct (subscription_update_effect sub_A_event world0)
    as (_ & Hupd & _ & H & _).
  destruct (H alice_pro) as (w' & E & Hrest).
  - right. left.
  - reflexivity.
  - exact sub_A_unique.
  - reflexivity.
  - exists w'. rewrite Hupd. split; [exact E|].
    destruct Hrest as (_ & _ & _ & _ & _ & _ & _ & _ & _ & _ & ->).
    reflexivity.
Defined.

(** The completed guest checkout of [a@b.com] writes nothing, and the
    session issued for that email carries the mapping as metadata. *)
Lemma guest_checkout_completed_witness :
  snd (dispatch (checkout_session_completed guest_session) world0) = world0
  ∧ ∃ w' sid session,
      createGuestCheckoutSession guest_body world0
      = (Return (checkout_json sid), w')
      ∧ db w' = db world0
      ∧ session ∈ stripe_sessions (provider w')
      ∧ cs_id session = sid
      ∧ pending_of session = (Some "a@b.com", Some "PRO", Some "yearly").
Proof.
  destruct guest_checkout_completed_writes_nothing as [Hhandler Hcreate].
  split.
  - apply Hhandler. left. reflexivity.
  - destruct (Hcreate guest_body "a@b.com" world0)
      as (w' & sid & session & E & Hdb & Hin & Hid & _ & Hp).
    + reflexivity.
    + reflexivity.
    + discriminate.
    + right. right. left.
    + intros k u Hk He.
      change (users (db world0)) with (<["u1":=alice]> (<["u2":=bob]> ∅) : gmap string User) in Hk.
      apply lookup_insert_Some in Hk as [[_ <-]|[_ Hk]]; [discriminate He|].
      apply lookup_insert_Some in Hk as [[_ <-]|[_ Hk]]; [discriminate He|].
      rewrite lookup_empty in Hk. discriminate Hk.
    + exists w', sid, session. repeat split; assumption.
Defined.

End Instances.

(* ===================================================================== *)
(** * What no webhook event does                                          *)
(* ===================================================================== *)

Module LedgerFacts.
Import BillingController prisma.subscription Vocabulary Ledger.

#[global] Instance ledger_kept_refl : Reflexive ledger_kept.
Proof. intros w. by repeat split. Qed.

#[global] Instance ledger_kept_trans : Transitive ledger_kept.
Proof.
  intros w1 w2 w3 (S1 & P1 & U1 & N1 & D1 & R1 & E1 & C1 & O1)
                  (S2 & P2 & U2 & N2 & D2 & R2 & E2 & C2 & O2).
  repeat split; try congruence; by etrans.
Qed.

Lemma keeps_ret {A} (a : A) : keeps (mret a).
Proof. intros w. reflexivity. Qed.

Lemma keeps_throw {A} (e : Error) : keeps (throw (A:=A) e).
Proof. intros w. reflexivity. Qed.

Lemma keeps_bind {A B} (m : Prog A) (f : A -> Prog B) :
  keeps m -> (∀ a, keeps (f a)) -> keeps (m ≫= f).
Proof.
  intros Hm Hf w. specialize (Hm w). unfold mbind, Prog_bind.
  destruct (m w) as [[a|e] w1]; [|done]. cbn in Hm.
  etrans; [exact Hm|apply Hf].
Qed.

Lemma keeps_try_catch {A} (m : Prog A) (h : Error -> Prog A) :
  keeps m -> (∀ e, keeps (h e)) -> keeps (try_catch m h).
Proof.
  intros Hm Hh w. specialize (Hm w). unfold try_catch.
  destruct (m w) as [[a|e] w1]; [done|]. cbn in Hm.
  etrans; [exact Hm|apply Hh].
Qed.

Lemma keeps_read {A} (f : DB -> A) : keeps (prisma.read f).
Proof. intros w. reflexivity. Qed.

Lemma keeps_now : keeps prisma.now.
Proof. intros w. reflexivity. Qed.

Lemma keeps_get_world : keeps get_world.
Proof. intros w. reflexivity. Qed.

Lemma keeps_console (line : string) : keeps (console_error line).
Proof. intros w. by repeat split. Qed.

Lemma keeps_retrieve (id : option string) :
  keeps (stripe.subscriptions.retrieve id).
Proof.
  intros w. unfold stripe.subscriptions.retrieve.
  destruct id as [i|]; [|reflexivity]. by destruct (head _).
Qed.

Lemma row_key_fmap (g : Subscription -> Subscription) (l : list Subscription) :
  (∀ r, row_key (g r) = row_key r) -> row_key <$> (g <$> l) = row_key <$> l.
Proof.
  intros Hg. rewrite <-list_fmap_compose. apply list_fmap_ext.
  intros i r _. apply Hg.
Qed.

Lemma on_id_row_key (id : nat) (f : Subscription -> Subscription)
    (r : Subscription) :
  (∀ x, row_key (f x) = row_key x) -> row_key (on_id id f r) = row_key r.
Proof. intros Hf. unfold on_id. by case_decide. Qed.

Lemma keeps_update (id : nat) (f : Subscription -> Subscription) :
  (∀ r, row_key (f r) = row_key r) -> keeps (update id f).
Proof.
  intros Hf w. unfold update. prog_unfold. cbn.
  destruct (decide _); [|reflexivity].
  destruct (storage_ok w) eqn:Hok; [|reflexivity].
  repeat split; try done. cbn.
  rewrite row_key_fmap; [done|]. intros r. by apply on_id_row_key.
Qed.

Lemma keeps_updateMany (P : Subscription -> Prop) `{!∀ r, Decision (P r)}
    (f : Subscription -> Subscription) :
  (∀ r, row_key (f r) = row_key r) -> keeps (updateMany P f).
Proof.
  intros Hf w. unfold updateMany. prog_unfold. cbn.
  destruct (storage_ok w) eqn:Hok; [|reflexivity].
  repeat split; try done. cbn.
  rewrite row_key_fmap; [done|]. intros r. by case_decide.
Qed.

Lemma keeps_create (c : CreateData) : keeps (create c).
Proof.
  intros w. unfold create. prog_unfold. cbn.
  destruct (decide _); [reflexivity|]. destruct (decide _); [reflexivity|].
  destruct (storage_ok w) eqn:Hok; [|reflexivity].
  repeat split; try done. cbn. rewrite fmap_app. by apply prefix_app_r.
Qed.

Lemma keeps_user_update (id : string) (f : User -> User) :
  keeps (prisma.user.update id f).
Proof.
  intros w. unfold prisma.user.update. prog_unfold. cbn.
  destruct (decide _); [|reflexivity].
  destruct (storage_ok w) eqn:Hok; [|reflexivity].
  repeat split; try done. cbn. apply dom_alter_L.
Qed.

Lemma keeps_payment_create (c : prisma.paymentHistory.CreateData) :
  keeps (prisma.paymentHistory.create c).
Proof.
  intros w. unfold prisma.paymentHistory.create. prog_unfold. cbn.
  destruct (decide _); [reflexivity|].
  destruct (storage_ok w) eqn:Hok; [|reflexivity].
  repeat split; try done. cbn. by apply prefix_app_r.
Qed.

Lemma keeps_handleCheckoutCompleted (s : CheckoutSession) :
  keeps (handleCheckoutCompleted s).
Proof.
  unfold handleCheckoutCompleted. destruct (_ && _); [apply keeps_ret|].
  apply keeps_bind; [apply keeps_retrieve|]. intros sub.
  destruct (_ || _); [apply keeps_ret|].
  apply keeps_bind; [apply keeps_now|]. intros t.
  apply keeps_bind; [by apply keeps_updateMany|]. intros _.
  apply keeps_bind; [apply keeps_create|]. intros _.
  apply keeps_user_update.
Qed.

Lemma keeps_handleSubscriptionUpdate (ev : StripeSubscription) :
  keeps (handleSubscriptionUpdate ev).
Proof.
  unfold handleSubscriptionUpdate. apply keeps_bind; [apply keeps_read|].
  intros [row|]; [by apply keeps_update|apply keeps_ret].
Qed.

Lemma keeps_handleSubscriptionDeleted (ev : StripeSubscription) :
  keeps (handleSubscriptionDeleted ev).
Proof.
  unfold handleSubscriptionDeleted. apply keeps_bind; [apply keeps_read|].
  intros [row|]; [|apply keeps_ret].
  apply keeps_bind; [by apply keeps_update|]. intros _. apply keeps_user_update.
Qed.

Lemma keeps_find_by_invoice (invoice : Invoice) :
  keeps (find_by_invoice invoice).
Proof.
  unfold find_by_invoice.
  destruct (inv_subscription invoice); [apply keeps_read|apply keeps_throw].
Qed.

Lemma keeps_handlePaymentSucceeded (invoice : Invoice) :
  keeps (handlePaymentSucceeded invoice).
Proof.
  unfold handlePaymentSucceeded. apply keeps_bind; [apply keeps_find_by_invoice|].
  intros [row|]; [|apply keeps_ret].
  apply keeps_bind; [apply keeps_payment_create|]. intros _. apply keeps_ret.
Qed.

Lemma keeps_handlePaymentFailed (invoice : Invoice) :
  keeps (handlePaymentFailed invoice).
Proof.
  unfold handlePaymentFailed. apply keeps_bind; [apply keeps_find_by_invoice|].
  intros [row|]; [by apply keeps_update|apply keeps_ret].
Qed.

Lemma keeps_dispatch (event : Event) : keeps (dispatch event).
Proof.
  destruct event; cbn [dispatch].
  - apply keeps_handleCheckoutCompleted.
  - apply keeps_handleSubscriptionUpdate.
  - apply keeps_handleSubscriptionUpdate.
  - apply keeps_handleSubscriptionDeleted.
  - apply keeps_handlePaymentSucceeded.
  - apply keeps_handlePaymentFailed.
  - apply keeps_console.
Qed.

Lemma keeps_switch_event (this : Receiver) (event : Event) :
  keeps (switch_event this event).
Proof.
  destruct this.
  - rewrite BillingFacts.switch_event_class. apply keeps_dispatch.
  - destruct event; cbn [switch_event this_call];
      first [apply keeps_throw|apply keeps_console].
Qed.

(** Whatever the provider delivers, verified or not, on whatever receiver
    [handleWebhook] is called (as a method, or without one as the router
    calls it) and however the handler ends, [handleWebhook] deletes no
    subscription row and changes no row's primary key, owner or creation
    time; it removes no payment record, touches no usage record or note, and
    adds or removes no user. The same holds of each handler run directly. *)
Theorem handleWebhook_keeps_ledger (this : Receiver)
    (constructEvent : option Event) (w : World) :
  ledger_kept w (snd (handleWebhook this constructEvent w))
  ∧ ledger_kept w (snd (webhook_route constructEvent w))
  ∧ ∀ event, ledger_kept w (snd (dispatch event w)).
Proof.
  assert (∀ this, keeps (handleWebhook this constructEvent)) as H.
  { intros this'. unfold handleWebhook. apply keeps_bind; [apply keeps_get_world|].
    intros w0. destruct (negb _); [apply keeps_ret|].
    destruct constructEvent as [event|].
    - apply keeps_try_catch.
      + apply keeps_bind; [apply keeps_switch_event|]. intros _. apply keeps_ret.
      + intros e. apply keeps_bind; [apply keeps_console|]. intros _.
        apply keeps_ret.
    - apply keeps_bind; [apply keeps_console|]. intros _. apply keeps_ret. }
  split; [apply H|]. split; [apply H|]. intros event. apply keeps_dispatch.
Qed.

End LedgerFacts.

(* ===================================================================== *)
(** * Redelivery, composition and what the events do to the entitlement   *)
(* ===================================================================== *)

Module EventFacts.
Import UsageService BillingController prisma.subscription Vocabulary Ledger.
Import UsageFacts BillingFacts.

Lemma resolved_eq (u : string) (w : World) :
  resolved u w = Some (plan_of (latest (filter (live u) (subscriptions (db w))))).
Proof. reflexivity. Qed.

Lemma latest_fmap (g : Subscription -> Subscription) (l : list Subscription) :
  (∀ r, createdAt (g r) = createdAt r) -> latest (g <$> l) = g <$> latest l.
Proof.
  intros Hg. induction l as [|r rest IH]; [done|]. cbn. rewrite IH.
  destruct (latest rest) as [b|]; cbn; [|done].
  rewrite !Hg. by destruct (createdAt r <? createdAt b)%Z.
Qed.

Lemma filter_live_fmap (u : string) (g : Subscription -> Subscription)
    (l : list Subscription) :
  (∀ r, userId (g r) = userId r ∧ deletedAt (g r) = deletedAt r) ->
  filter (live u) (g <$> l) = g <$> filter (live u) l.
Proof.
  intros Hg. induction l as [|r rest IH]; [done|].
  rewrite fmap_cons, !filter_cons, IH.
  destruct (Hg r) as [Hu Hd].
  destruct (decide (live u r)) as [Hl|Hl].
  - rewrite decide_True; [done|]. unfold live in *. by rewrite Hu, Hd.
  - rewrite decide_False; [done|]. unfold live in *. by rewrite Hu, Hd.
Qed.

Lemma plan_of_fmap (g : Subscription -> Subscription) (o : option Subscription) :
  (∀ r, planType (g r) = planType r) -> plan_of (g <$> o) = plan_of o.
Proof. intros Hg. destruct o; cbn; [apply Hg|done]. Qed.

(** Rewriting rows by an update that keeps owner, tombstone, creation time
    and plan type changes no user's resolved plan. *)
Lemma resolved_fmap (g : Subscription -> Subscription) (w : World) (u : string) :
  keeps_entitlement g ->
  resolved u (set_db (prisma.set_subscriptions (g <$> subscriptions (db w)) (db w)) w)
  = resolved u w.
Proof.
  intros Hg. rewrite !resolved_eq. cbn.
  rewrite filter_live_fmap by (intros r; destruct (Hg r) as (?&?&?&?); done).
  rewrite latest_fmap by (intros r; destruct (Hg r) as (?&?&?&?); done).
  rewrite plan_of_fmap by (intros r; destruct (Hg r) as (?&?&?&?); done).
  done.
Qed.

Lemma keeps_entitlement_on_id (id : nat) (f : Subscription -> Subscription) :
  keeps_entitlement f -> keeps_entitlement (on_id id f).
Proof. intros Hf r. unfold on_id. by case_decide. Qed.

Lemma handlePaymentFailed_run (invoice : Invoice) (id : string) (w : World) :
  inv_subscription invoice = Some id ->
  handlePaymentFailed invoice w =
  match head (filter (λ r, stripeSubscriptionId r = Some id)
                     (subscriptions (db w))) with
  | None => (Return (), w)
  | Some row =>
      if storage_ok w then
        (Return (),
         set_db (prisma.set_subscriptions
                   (on_id (sub_id row) (set_status Status.PAST_DUE)
                      <$> subscriptions (db w))
                   (db w)) w)
      else (Throw PersistenceError, w)
  end.
Proof.
  intros Hid.
  unfold handlePaymentFailed, find_by_invoice, findUnique_stripeSubscriptionId,
    update.
  rewrite Hid. prog_unfold. cbn.
  destruct (head _) as [row|] eqn:E; [|done].
  apply head_filter_Some in E as [Hin _].
  by rewrite decide_True by by apply Exists_sub_id.
Qed.

(** The events that report a status ([customer.subscription.created],
    [customer.subscription.updated], [invoice.payment_failed]) change no
    user's resolved plan: the resolver reads the plan type of the latest
    live row, never its status, and these handlers write neither. *)
Theorem status_events_keep_entitlement (ev : StripeSubscription)
    (invoice : Invoice) (u : string) (w : World) :
  resolved u (snd (dispatch (customer_subscription_created ev) w)) = resolved u w
  ∧ resolved u (snd (dispatch (customer_subscription_updated ev) w)) = resolved u w
  ∧ resolved u (snd (dispatch (invoice_payment_failed invoice) w)) = resolved u w.
Proof.
  assert (resolved u (snd (handleSubscriptionUpdate ev w)) = resolved u w) as H.
  { rewrite handleSubscriptionUpdate_run.
    destruct (head _) as [row|]; [|done].
    destruct (storage_ok w); [|done]. cbn [snd].
    apply resolved_fmap. by apply keeps_entitlement_on_id. }
  split; [exact H|]. split; [exact H|]. cbn [dispatch].
  destruct (inv_subscription invoice) as [id|] eqn:Hid.
  - rewrite (handlePaymentFailed_run invoice id) by done.
    destruct (head _) as [row|]; [|done].
    destruct (storage_ok w); [|done]. cbn [snd].
    apply resolved_fmap. by apply keeps_entitlement_on_id.
  - unfold handlePaymentFailed, find_by_invoice. by rewrite Hid.
Qed.

Section find_update.
Context (f : Subscription -> Subscription).
Context (Hkey : ∀ r, sub_id (f r) = sub_id r
                     ∧ stripeSubscriptionId (f r) = stripeSubscriptionId r).
Context (Hidem : ∀ r, f (f r) = f r).

(** Finding the row by its external id and updating it by an idempotent
    [data] that keeps both ids: doing it again changes nothing more. *)
Lemma find_update_idem (id : string) (w : World) :
  let rows := subscriptions (db w) in
  let row' := head (filter (λ r, stripeSubscriptionId r = Some id) rows) in
  ∀ row, row' = Some row ->
    let rows1 := on_id (sub_id row) f <$> rows in
    head (filter (λ r, stripeSubscriptionId r = Some id) rows1) = Some (f row)
    ∧ on_id (sub_id (f row)) f <$> rows1 = rows1.
Proof.
  intros rows row' row E. cbn zeta. split.
  - rewrite head_filter_fmap.
    + unfold row' in E. rewrite E. cbn. unfold on_id. by rewrite decide_True.
    + intros x. unfold on_id. case_decide; [|done]. by destruct (Hkey x) as [_ ->].
  - destruct (Hkey row) as [-> _].
    rewrite <-list_fmap_compose. apply list_fmap_ext. intros i x _. cbn.
    apply on_id_idem; [|done]. intros y. by destruct (Hkey y).
Qed.

End find_update.

(** Redelivering [customer.subscription.created], [customer.subscription
    .updated] or [invoice.payment_failed] is harmless: the second delivery
    ends as the first did and leaves the world the first produced. *)
Theorem status_events_idempotent (ev : StripeSubscription) (invoice : Invoice)
    (w : World) :
  (let h := dispatch (customer_subscription_created ev) in h (snd (h w)) = h w)
  ∧ (let h := dispatch (customer_subscription_updated ev) in h (snd (h w)) = h w)
  ∧ (let h := dispatch (invoice_payment_failed invoice) in h (snd (h w)) = h w).
Proof.
  assert (handleSubscriptionUpdate ev (snd (handleSubscriptionUpdate ev w))
          = handleSubscriptionUpdate ev w) as H.
  { rewrite (handleSubscriptionUpdate_run ev w).
    destruct (head _) as [row|] eqn:E; cbn [snd].
    - destruct (find_update_idem (update_data ev) ltac:(done) ltac:(done)
                  (ss_id ev) w row E) as [E1 E2].
      destruct (storage_ok w) eqn:Hok; cbn [snd];
        rewrite handleSubscriptionUpdate_run; cbn.
      + rewrite E1, Hok. cbn. cbn in E2. by rewrite E2.
      + by rewrite E, Hok.
    - rewrite handleSubscriptionUpdate_run. by rewrite E. }
  split; [exact H|]. split; [exact H|]. cbn [dispatch].
  destruct (inv_subscription invoice) as [id|] eqn:Hid.
  - rewrite (handlePaymentFailed_run invoice id w) by done.
    destruct (head _) as [row|] eqn:E; cbn [snd].
    + destruct (find_update_idem (set_status Status.PAST_DUE) ltac:(done)
                  ltac:(done) id w row E) as [E1 E2].
      destruct (storage_ok w) eqn:Hok; cbn [snd];
        rewrite (handlePaymentFailed_run invoice id) by done; cbn.
      * rewrite E1, Hok. cbn. cbn in E2. by rewrite E2.
      * by rewrite E, Hok.
    + rewrite (handlePaymentFailed_run invoice id) by done. by rewrite E.
  - unfold handlePaymentFailed, find_by_invoice. by rewrite Hid.
Qed.

(** [invoice.payment_failed]: an invoice without a subscription id makes
    the lookup throw before anything is written; an id no row has changes
    nothing; otherwise the located row, tombstoned or not, gets status
    PAST_DUE and nothing else in the world changes. *)
Theorem payment_failed_effect (invoice : Invoice) (w : World) :
  (inv_subscription invoice = None ->
     dispatch (invoice_payment_failed invoice) w = (Throw ValidationError, w))
  ∧ (∀ id, inv_subscription invoice = Some id ->
       (∀ r, r ∈ subscriptions (db w) -> stripeSubscriptionId r ≠ Some id) ->
       dispatch (invoice_payment_failed invoice) w = (Return (), w))
  ∧ (∀ id row, inv_subscription invoice = Some id ->
       row ∈ subscriptions (db w) -> stripeSubscriptionId row = Some id ->
       (∀ r, r ∈ subscriptions (db w) ->
             stripeSubscriptionId r = Some id -> r = row) ->
       storage_ok w = true ->
       ∃ w', dispatch (invoice_payment_failed invoice) w = (Return (), w')
         ∧ set_status Status.PAST_DUE row ∈ subscriptions (db w')
         ∧ subscriptions (db w') =
             (λ r, if decide (sub_id r = sub_id row)
                   then set_status Status.PAST_DUE r else r)
               <$> subscriptions (db w)
         ∧ users (db w') = users (db w)
         ∧ paymentHistory (db w') = paymentHistory (db w)
         ∧ aIUsage (db w') = aIUsage (db w) ∧ notes (db w') = notes (db w)).
Proof.
  cbn [dispatch]. split; [|split].
  - intros Hid. unfold handlePaymentFailed, find_by_invoice. by rewrite Hid.
  - intros id Hid Hnone. rewrite (handlePaymentFailed_run invoice id) by done.
    by rewrite head_filter_None.
  - intros id row Hid Hin Hrow Huniq Hok.
    rewrite (handlePaymentFailed_run invoice id) by done.
    rewrite (head_filter_unique _ _ row), Hok by done.
    eexists. split; [reflexivity|]. split; [|by repeat split].
    cbn. apply list_elem_of_fmap. exists row. split; [|done].
    unfold on_id. by rewrite decide_True.
Qed.

Lemma handlePaymentSucceeded_run (invoice : Invoice) (id : string)
    (row : Subscription) (w : World) :
  inv_subscription invoice = Some id ->
  head (filter (λ r, stripeSubscriptionId r = Some id) (subscriptions (db w)))
  = Some row ->
  is_Some (users (db w) !! userId row) ->
  storage_ok w = true ->
  handlePaymentSucceeded invoice w
  = (Return (),
     paid [payment_of invoice row (nextId (db w)) (clock w)] 1 w).
Proof.
  intros Hid Hrow Hown Hok.
  unfold handlePaymentSucceeded, find_by_invoice, findUnique_stripeSubscriptionId,
    prisma.paymentHistory.create.
  unfold payment_of. rewrite Hid. prog_unfold. cbn. rewrite Hrow. cbn.
  rewrite decide_False by (by apply not_eq_None_Some).
  by rewrite Hok.
Qed.

(** [invoice.payment_succeeded] for the subscription id of an existing row
    whose owner exists appends one payment record (the owner's, with the
    invoice's payment id, a hundredth of the amount paid, the row's plan
    type and status ['succeeded']) and changes nothing else. It is not
    idempotent: a second delivery of the same invoice appends a second
    record with the same external payment id. *)
Theorem payment_succeeded_appends (invoice : Invoice) (id : string)
    (row : Subscription) (w : World) :
  inv_subscription invoice = Some id ->
  row ∈ subscriptions (db w) -> stripeSubscriptionId row = Some id ->
  (∀ r, r ∈ subscriptions (db w) -> stripeSubscriptionId r = Some id -> r = row) ->
  is_Some (users (db w) !! userId row) ->
  storage_ok w = true ->
  let h := dispatch (invoice_payment_succeeded invoice) in
  let p1 := payment_of invoice row (nextId (db w)) (clock w) in
  let p2 := payment_of invoice row (S (nextId (db w))) (clock w) in
  h w = (Return (), paid [p1] 1 w)
  ∧ h (paid [p1] 1 w) = (Return (), paid [p1; p2] 2 w)
  ∧ stripePaymentId p1 = payment_intent invoice
  ∧ stripePaymentId p2 = payment_intent invoice
  ∧ amount p1 = (amount_paid invoice / 100)%float
  ∧ payment_userId p1 = userId row.
Proof.
  intros Hid Hin Hrow Huniq Hown Hok. cbn zeta. cbn [dispatch].
  pose proof (head_filter_unique _ _ row Hin Hrow Huniq) as Hhead.
  split; [by apply (handlePaymentSucceeded_run invoice id)|].
  split; [|done].
  rewrite (handlePaymentSucceeded_run invoice id row) by done.
  unfold paid, set_db. cbn. by rewrite <-app_assoc.
Qed.

Lemma retrieve_provider (id : option string) (sub : StripeSubscription)
    (w w2 : World) :
  stripe.subscriptions.retrieve id w = (Return sub, w) ->
  provider w2 = provider w ->
  stripe.subscriptions.retrieve id w2 = (Return sub, w2).
Proof.
  unfold stripe.subscriptions.retrieve. intros H ->.
  destruct id as [i|]; [|done]. destruct (head _); [|done].
  by injection H as ->.
Qed.

Lemma handleCheckoutCompleted_upgraded (s : CheckoutSession) (u : string)
    (sub : StripeSubscription) (w : World) :
  cs_metadata s ≫= md_userId = Some u -> u ≠ "" -> u ≠ "pending" ->
  stripe.subscriptions.retrieve (cs_subscription s) w = (Return sub, w) ->
  is_Some (users (db w) !! u) ->
  (∀ r, r ∈ subscriptions (db w) -> stripeSubscriptionId r ≠ Some (ss_id sub)) ->
  storage_ok w = true ->
  handleCheckoutCompleted s w = (Return (), upgraded s u sub w).
Proof.
  intros Hu Hne Hnp Hsub Hown Hnew Hok.
  unfold handleCheckoutCompleted. rewrite Hu. cbn [str_truthy default].
  rewrite (bool_decide_eq_false_2 (u = "")) by done. cbn [negb andb].
  unfold mbind at 1, Prog_bind at 1. rewrite Hsub.
  rewrite (bool_decide_eq_false_2 (Some u = Some "pending")) by congruence.
  cbn [orb negb].
  unfold updateMany, create, prisma.user.update. prog_unfold.
  destruct w as [e d pr c ok con]. cbn in *. subst ok. cbn.
  rewrite decide_False by (by apply not_eq_None_Some).
  rewrite decide_False; cycle 1.
  { intros [_ (r & Hr & Hid)%Exists_exists].
    apply list_elem_of_fmap in Hr as (r0 & -> & Hr0).
    apply (Hnew r0 Hr0). by destruct (decide (userId r0 = u)). }
  cbn. by rewrite decide_True.
Qed.

Lemma filter_live_tombstoned (u : string) (t : Z) (l : list Subscription) :
  filter (live u) (tombstoned u t <$> l) = [].
Proof.
  induction l as [|r rest IH]; [done|].
  rewrite fmap_cons, filter_cons, IH, decide_False; [done|].
  unfold tombstoned, live. destruct (decide (userId r = u)); cbn.
  - by intros [_ ?].
  - by intros [? _].
Qed.

Lemma filter_live_tombstoned_other (u u' : string) (t : Z)
    (l : list Subscription) :
  u' ≠ u -> filter (live u') (tombstoned u t <$> l) = filter (live u') l.
Proof.
  intros Hne. induction l as [|r rest IH]; [done|]. rewrite fmap_cons.
  destruct (decide (userId r = u)) as [E|E].
  - assert (tombstoned u t r = set_deletedAt (Some t) r) as ->
      by (unfold tombstoned; by rewrite decide_True).
    rewrite !filter_cons, IH.
    rewrite !decide_False; [done| |]; unfold live; cbn; intros [? _]; congruence.
  - assert (tombstoned u t r = r) as ->
      by (unfold tombstoned; by rewrite decide_False).
    by rewrite !filter_cons, IH.
Qed.

(** A completed checkout of a resolved user [u] that goes through makes
    [u] resolve to PRO, on the row just inserted, whatever rows [u] had; and
    it changes nobody else's resolved plan. *)
Theorem checkout_completed_entitles (s : CheckoutSession) (u : string)
    (sub : StripeSubscription) (w : World) :
  cs_metadata s ≫= md_userId = Some u -> u ≠ "" -> u ≠ "pending" ->
  stripe.subscriptions.retrieve (cs_subscription s) w = (Return sub, w) ->
  is_Some (users (db w) !! u) ->
  (∀ r, r ∈ subscriptions (db w) -> stripeSubscriptionId r ≠ Some (ss_id sub)) ->
  storage_ok w = true ->
  ∃ w', dispatch (checkout_session_completed s) w = (Return (), w')
    ∧ resolved u w' = Some PlanType.PRO
    ∧ up_subscription <$> fst_return (getUserPlan u w')
      = Some (Some (checkout_row s u sub w))
    ∧ ∀ u', u' ≠ u -> resolved u' w' = resolved u' w.
Proof.
  intros Hu Hne Hnp Hsub Hown Hnew Hok. cbn [dispatch].
  rewrite (handleCheckoutCompleted_upgraded s u sub) by done.
  eexists. split; [reflexivity|].
  assert (filter (live u) (subscriptions (db (upgraded s u sub w)))
          = [checkout_row s u sub w]) as Hlive.
  { unfold upgraded, set_db. cbn [db subscriptions].
    rewrite filter_app, filter_live_tombstoned.
    by rewrite filter_cons, decide_True. }
  split; [|split].
  - rewrite resolved_eq, Hlive. done.
  - rewrite getUserPlan_run. cbn [fst fst_return fmap option_fmap option_map up_subscription].
    by rewrite Hlive.
  - intros u' Hne'. rewrite !resolved_eq.
    unfold upgraded, set_db. cbn [db subscriptions].
    rewrite filter_app, filter_live_tombstoned_other by done.
    rewrite filter_cons, decide_False; [|by intros [? _]].
    by rewrite filter_nil, app_nil_r.
Qed.

(** Redelivery of [checkout.session.completed] is not harmless. After a
    delivery that went through, the same event tombstones every row of the
    user again, the one just inserted included, and then fails on the unique
    external subscription id: the handler throws, and the user is left with
    the role PRO but no live row, so the resolver puts them on FREE. *)
Theorem checkout_redelivery_downgrades (s : CheckoutSession) (u : string)
    (sub : StripeSubscription) (w : World) :
  cs_metadata s ≫= md_userId = Some u -> u ≠ "" -> u ≠ "pending" ->
  stripe.subscriptions.retrieve (cs_subscription s) w = (Return sub, w) ->
  is_Some (users (db w) !! u) ->
  (∀ r, r ∈ subscriptions (db w) -> stripeSubscriptionId r ≠ Some (ss_id sub)) ->
  storage_ok w = true ->
  let h := dispatch (checkout_session_completed s) in
  ∃ w1 w2, h w = (Return (), w1)
    ∧ h w1 = (Throw UniqueConstraintFailed, w2)
    ∧ resolved u w2 = Some PlanType.FREE
    ∧ up_subscription <$> fst_return (getUserPlan u w2) = Some None
    ∧ (∀ r, r ∈ subscriptions (db w2) -> userId r = u -> deletedAt r ≠ None)
    ∧ role <$> users (db w2) !! u = Some Role.PRO.
Proof.
  intros Hu Hne Hnp Hsub Hown Hnew Hok. cbn zeta. cbn [dispatch].
  rewrite (handleCheckoutCompleted_upgraded s u sub w) by done.
  exists (upgraded s u sub w), (retombstoned u (upgraded s u sub w)).
  split; [done|].
  assert (filter (live u)
            (subscriptions (db (retombstoned u (upgraded s u sub w)))) = [])
    as Hlive by apply filter_live_tombstoned.
  split; [|split; [|split; [|split]]].
  - unfold handleCheckoutCompleted. rewrite Hu. cbn [str_truthy default].
    rewrite (bool_decide_eq_false_2 (u = "")) by done. cbn [negb andb].
    unfold mbind at 1, Prog_bind at 1.
    rewrite (retrieve_provider _ sub w) by done.
    rewrite (bool_decide_eq_false_2 (Some u = Some "pending")) by congruence.
    cbn [orb negb].
    unfold updateMany, create. prog_unfold.
    destruct w as [e d pr c ok con]. cbn in *. subst ok. cbn.
    rewrite decide_False by (by rewrite lookup_alter_None; apply not_eq_None_Some).
    rewrite decide_True; [done|]. split; [done|].
    apply Exists_exists. eexists. split.
    + apply list_elem_of_fmap. eexists. split; [reflexivity|].
      apply elem_of_app. right. by left.
    + unfold checkout_row. by case_decide.
  - by rewrite resolved_eq, Hlive.
  - rewrite getUserPlan_run. cbn [fst fst_return fmap option_fmap option_map up_subscription].
    by rewrite Hlive.
  - intros r Hr Hur Hd.
    assert (r ∈ filter (live u)
                  (subscriptions (db (retombstoned u (upgraded s u sub w)))))
      as Hin by by apply list_elem_of_filter.
    rewrite Hlive in Hin. by apply not_elem_of_nil in Hin.
  - cbn. rewrite lookup_alter_eq. destruct Hown as [o ->]. done.
Qed.

(** After [customer.subscription.deleted] located a row and the store took
    the write, a user whose resolving row (the latest live one) has that
    row's primary key resolves to FREE, and every other user resolves as
    before, whether or not the owner's role could be updated. *)
Theorem subscription_deleted_unentitles (ev : StripeSubscription)
    (row : Subscription) (w : World) :
  head (filter (λ r, stripeSubscriptionId r = Some (ss_id ev))
               (subscriptions (db w))) = Some row ->
  storage_ok w = true ->
  ∀ u,
    resolved u (snd (dispatch (customer_subscription_deleted ev) w))
    = match latest (filter (live u) (subscriptions (db w))) with
      | Some r => if decide (sub_id r = sub_id row) then Some PlanType.FREE
                  else Some (planType r)
      | None => Some PlanType.FREE
      end.
Proof.
  intros Hrow Hok u. cbn [dispatch].
  rewrite handleSubscriptionDeleted_run, Hrow, Hok.
  assert (resolved u (canceled row w)
          = match latest (filter (live u) (subscriptions (db w))) with
            | Some r => if decide (sub_id r = sub_id row) then Some PlanType.FREE
                        else Some (planType r)
            | None => Some PlanType.FREE
            end) as H.
  { rewrite resolved_eq. cbn.
    rewrite filter_live_fmap by (intros r; unfold on_id; by case_decide).
    rewrite latest_fmap by (intros r; unfold on_id; by case_decide).
    destruct (latest _) as [r|]; cbn; [|done].
    unfold on_id. by case_decide. }
  by destruct (decide (is_Some _)).
Qed.

(** [handleWebhook] always answers and never throws. Without the Stripe
    client it answers 503 and changes nothing; with an event that failed
    verification, 400, the database untouched; an event of a type without a
    handler is acknowledged and leaves the database alone. Called without
    a receiver, which is how the router calls it, it runs no handler: for
    every event that has one, [this.handle...] throws, the [TypeError] is
    passed to [next] and the world is as it was but for the line on the
    console. Called as a method of the class, the database is what the
    event's handler left, also when the handler threw half way; the answer
    is [received] exactly when the handler returned, and the handler's error
    is passed to [next] exactly when it threw. *)
Theorem handleWebhook_responds (this : Receiver) (constructEvent : option Event)
    (w : World) :
  ∃ r w', handleWebhook this constructEvent w = (Return r, w')
    ∧ (stripe.configured (env w) = false -> r = status_503 ∧ w' = w)
    ∧ (stripe.configured (env w) = true -> constructEvent = None ->
         r = status_400 ∧ db w' = db w)
    ∧ (∀ type, stripe.configured (env w) = true ->
         constructEvent = Some (other_event type) ->
         r = received ∧ db w' = db w)
    ∧ (this = this_undefined ->
       ∀ event, stripe.configured (env w) = true ->
         constructEvent = Some event ->
         (∀ type, event ≠ other_event type) ->
         webhook_route constructEvent w = (Return r, w')
         ∧ r = next_error TypeError
         ∧ w' = add_console "Webhook handler error:" w)
    ∧ (this = this_class ->
       ∀ event, stripe.configured (env w) = true ->
         constructEvent = Some event ->
         db w' = db (snd (dispatch event w))
         ∧ (r = received <-> fst (dispatch event w) = Return ())
         ∧ (∀ e, r = next_error e <-> fst (dispatch event w) = Throw e)).
Proof.
  unfold handleWebhook at 1.
  unfold mbind at 1, Prog_bind at 1, get_world.
  destruct (stripe.configured (env w)) eqn:Hcfg; cbn [negb].
  2: { eexists _, _. split; [reflexivity|]. split; [done|]. split; [done|].
       split; [intros t [=]|]. split; intros _ ev [=]. }
  destruct constructEvent as [event|].
  2: { eexists _, _. split; [reflexivity|]. split; [done|]. split; [done|].
       split; [intros t _ [=]|]. split; intros _ ev _ [=]. }
  unfold try_catch. unfold mbind at 1, Prog_bind at 1.
  destruct this.
  - rewrite switch_event_class.
    destruct (dispatch event w) as [[[]|e] w1] eqn:Hd.
    + eexists _, _. split; [reflexivity|]. split; [done|]. split; [done|].
      split; [|split; [done|]].
      * intros t _ [= ->]. cbn in Hd. by injection Hd as <-.
      * intros _ ev _ [= <-]. rewrite Hd. cbn. split; [done|]. split; [done|].
        intros e. split; discriminate.
    + eexists _, _. split; [reflexivity|]. split; [done|]. split; [done|].
      split; [|split; [done|]].
      * intros t _ [= ->]. discriminate Hd.
      * intros _ ev _ [= <-]. rewrite Hd. cbn. split; [done|].
        split; [split; discriminate|]. intros e'. split; congruence.
  - destruct event as [s|ev|ev|ev|i|i|t];
      (eexists _, _; split; [reflexivity|]; split; [done|]; split; [done|];
       split; [|split; [|done]]);
      try (intros ? _ [=]);
      try (intros _ ? _ [= <-] Hno; split; [|done];
           unfold webhook_route, handleWebhook; prog_unfold; cbn;
           by rewrite Hcfg).
    + done.
    + intros _ ? _ [= <-] Hno. by destruct (Hno t).
Qed.

End EventFacts.

(* ===================================================================== *)
(** * The quota gate of [createNote], reports and checkout                *)
(* ===================================================================== *)

Module ReportFacts.
Import UsageService AIService Vocabulary Ledger prismaQueries UsageReports.
Import BillingEndpoints UsageFacts BillingFacts EventFacts.

Lemma canCreateNote_run (u : string) (w : World) :
  canCreateNote u w =
  (Return
     (let lim := notesLimit (features (PLANS (env w)
                   (plan_of (prisma.subscription.latest
                               (filter (live u) (subscriptions (db w))))))) in
      if decide (lim = (-1)%Z)
      then {| allowed := true; used := None; limit := None |}
      else {| allowed := bool_decide
                           (Z.of_nat (length (filter (live_note u) (notes (db w))))
                            < lim)%Z;
              used := Some (length (filter (live_note u) (notes (db w))));
              limit := Some lim |}), w).
Proof.
  unfold canCreateNote. prog_unfold. rewrite getUserPlan_run. cbn zeta.
  cbn [up_plan]. fold (plan_of (prisma.subscription.latest
                                  (filter (live u) (subscriptions (db w))))).
  by destruct (decide _).
Qed.

Lemma checkUsageLimit_undefined (u : string) (w : World) :
  checkUsageLimit u None w =
  (Return (let n := length (filter (ocr_this_month u w) (aIUsage (db w))) in
           {| allowed := bool_decide (Z.of_nat n < 10)%Z;
              used := Some n; limit := Some 10%Z |}), w).
Proof. unfold checkUsageLimit. by rewrite decide_False. Qed.

(** The quota gate at the head of [createNote] reads the tier off
    [plan.planType], which no plan has, so the monthly limit of ten
    conversions is applied to every user: once ten ['ocr'] records of this
    month exist the gate is never open, and a user who resolves to PRO is
    refused with [conversion_limit_reached] although [checkUsageLimit]
    would allow the plan type ['PRO']. Below ten, PRO users pass. *)
Theorem createNote_gate_meters_every_plan (u : string) (w : World) :
  let n := length (filter (ocr_this_month u w) (aIUsage (db w))) in
  snd (NoteController.createNote_gate u w) = w
  ∧ (10 <= n -> ∃ g, fst (NoteController.createNote_gate u w) = Return g
                   ∧ g ≠ gate_open)
  ∧ (resolved u w = Some PlanType.PRO ->
       fst (NoteController.createNote_gate u w)
       = Return (if decide (10 <= n)
                 then conversion_limit_reached (Some n) (Some 10%Z)
                 else gate_open)).
Proof.
  intros n.
  assert (NoteController.createNote_gate u w
          = (let q := fst_return (canCreateNote u w) in
             let c := fst_return (checkUsageLimit u None w) in
             match q, c with
             | Some q, Some c =>
                 (Return (if negb (allowed q) then note_limit_reached (limit q)
                          else if negb (allowed c)
                               then conversion_limit_reached (used c) (limit c)
                               else gate_open), w)
             | _, _ => (Throw TypeError, w)
             end)) as E.
  { unfold NoteController.createNote_gate, NoteController.plan_planType.
    unfold mbind at 1, Prog_bind at 1. rewrite getUserPlan_run.
    unfold mbind at 1, Prog_bind at 1. rewrite canCreateNote_run.
    rewrite checkUsageLimit_undefined. cbn zeta. cbn [fst fst_return].
    destruct (negb (allowed _)); [done|].
    unfold mbind, Prog_bind. rewrite checkUsageLimit_undefined. cbn zeta.
    by destruct (negb (allowed _)). }
  rewrite E, canCreateNote_run, checkUsageLimit_undefined. cbn zeta.
  cbn [fst snd fst_return]. fold n. split; [done|]. split.
  - intros Hn. eexists. split; [reflexivity|]. cbn [allowed used limit].
    rewrite (bool_decide_eq_false_2 (Z.of_nat n < 10)%Z) by lia. cbn [negb].
    by destruct (negb (allowed _)).
  - rewrite resolved_eq. intros [= Hpro]. rewrite Hpro.
    cbn [PLANS features notesLimit]. rewrite decide_True by done.
    cbn [allowed used limit negb].
    destruct (decide (10 <= n)).
    + by rewrite bool_decide_eq_false_2 by lia.
    + by rewrite bool_decide_eq_true_2 by lia.
Qed.

#[global] Instance usage_desc_total : Total usage_desc.
Proof. intros a b. unfold usage_desc. lia. Qed.

#[global] Instance usage_desc_trans : Transitive usage_desc.
Proof. intros a b c. unfold usage_desc. lia. Qed.

#[global] Instance payment_desc_total : Total payment_desc.
Proof. intros a b. unfold payment_desc. lia. Qed.

#[global] Instance payment_desc_trans : Transitive payment_desc.
Proof. intros a b c. unfold payment_desc. lia. Qed.

Lemma count_step_lookup (acc : gmap string JsCount) (u : AIUsage) (op : string) :
  op ∉ Cost.Object_prototype_keys ->
  count_step acc u !! op
  = bump (acc !! op) (if decide (operation u = op) then 1 else 0).
Proof.
  intros Hop. unfold count_step.
  destruct (decide (operation u = op)) as [->|Hne].
  - destruct (acc !! op) as [[k|]|] eqn:E; cbn.
    + rewrite lookup_insert_eq. do 2 f_equal. lia.
    + by rewrite lookup_insert_eq.
    + rewrite decide_False by done. by rewrite lookup_insert_eq.
  - assert (bump (acc !! op) 0 = acc !! op) as ->.
    { destruct (acc !! op) as [[k|]|]; cbn; [|done..]. do 2 f_equal. lia. }
    destruct (acc !! operation u) as [[k|]|]; rewrite ?lookup_insert_ne by done;
      [done..|].
    repeat case_decide; by rewrite ?lookup_insert_ne by done.
Qed.

Lemma bump_bump (o : option JsCount) (a b : nat) :
  bump (bump o a) b = bump o (a + b).
Proof.
  destruct o as [[k|]|]; cbn; [do 2 f_equal; lia|done|].
  destruct (decide (a = 0)) as [->|Ha]; cbn; [done|].
  rewrite decide_False by lia. done.
Qed.

Lemma foldl_count_step (acc : gmap string JsCount) (l : list AIUsage)
    (op : string) :
  op ∉ Cost.Object_prototype_keys ->
  foldl count_step acc l !! op
  = bump (acc !! op) (length (filter (λ r, operation r = op) l)).
Proof.
  intros Hop. revert acc. induction l as [|u rest IH]; intros acc.
  - cbn. destruct (acc !! op) as [[k|]|]; cbn; [|done..]. do 2 f_equal. lia.
  - cbn [foldl]. rewrite IH, count_step_lookup, bump_bump by done. f_equal.
    rewrite filter_cons. by destruct (decide (operation u = op)).
Qed.

Lemma getMonthlyUsage_run (u : string) (w : World) :
  getMonthlyUsage u w =
  (Return (let rows := merge_sort usage_desc
                         (filter (this_month u w) (aIUsage (db w))) in
           {| total := length rows;
              totalTokens := foldl (λ sum r, (sum + tokensUsed r)%float) 0%float rows;
              totalCost := foldl (λ sum r, (sum + cost r)%float) 0%float rows;
              byOperation := foldl count_step ∅ rows;
              usage := rows |}), w).
Proof. reflexivity. Qed.

Lemma getBillingInfo_run (u : string) (w : World) :
  getBillingInfo u w =
  (Return (billing_json
             (let s := prisma.subscription.latest
                         (filter (live u) (subscriptions (db w))) in
              {| info_subscription := summary_of <$> s;
                 info_plan := PLANS (env w) (plan_of s);
                 recentPayments :=
                   take 10 (merge_sort payment_desc
                              (filter (λ p, payment_userId p = u)
                                      (paymentHistory (db w)))) |})), w).
Proof.
  unfold getBillingInfo, try_catch. prog_unfold. cbn.
  by destruct (prisma.subscription.latest _).
Qed.

Lemma getMonthlyUsage_rows (u : string) (w : World) :
  ∃ m, getMonthlyUsage u w = (Return m, w)
    ∧ usage m ≡ₚ filter (this_month u w) (aIUsage (db w))
    ∧ StronglySorted usage_desc (usage m)
    ∧ total m = length (filter (this_month u w) (aIUsage (db w)))
    ∧ (∀ op, op ∉ Cost.Object_prototype_keys ->
         byOperation m !! op
         = bump None (length (filter (λ r, this_month u w r ∧ operation r = op)
                                     (aIUsage (db w)))))
    ∧ fst (checkUsageLimit u None w)
      = Return {| allowed := bool_decide
                               (Z.of_nat (count_of (byOperation m !! "ocr")) < 10)%Z;
                  used := Some (count_of (byOperation m !! "ocr"));
                  limit := Some 10%Z |}.
Proof.
  eexists. split; [apply getMonthlyUsage_run|]. cbn zeta.
  cbn [usage total byOperation].
  set (rows := filter (this_month u w) (aIUsage (db w))).
  assert (∀ op, op ∉ Cost.Object_prototype_keys ->
            foldl count_step ∅ (merge_sort usage_desc rows) !! op
            = bump None (length (filter (λ r, this_month u w r ∧ operation r = op)
                                        (aIUsage (db w))))) as Hop.
  { intros op Hop. rewrite foldl_count_step, lookup_empty by done. f_equal.
    rewrite merge_sort_Permutation. unfold rows.
    rewrite list_filter_filter. f_equal. apply list_filter_iff. naive_solver. }
  split; [apply merge_sort_Permutation|].
  split; [apply StronglySorted_merge_sort; apply _|].
  split; [by rewrite merge_sort_Permutation|].
  split; [exact Hop|].
  rewrite checkUsageLimit_undefined. cbn zeta. cbn [fst].
  rewrite Hop by (apply (bool_decide_unpack _); by vm_compute).
  assert (count_of (bump None (length (filter (λ r, this_month u w r ∧ operation r = "ocr")
                                              (aIUsage (db w)))))
          = length (filter (ocr_this_month u w) (aIUsage (db w)))) as ->; [|done].
  assert (filter (λ r, this_month u w r ∧ operation r = "ocr") (aIUsage (db w))
          = filter (ocr_this_month u w) (aIUsage (db w))) as ->.
  { apply list_filter_iff. unfold this_month, ocr_this_month. naive_solver. }
  unfold bump. by destruct (decide _) as [->|].
Qed.

(** [getMonthlyUsage] writes nothing. In a zone that is regular at the
    first of the month there is an instant [T] that the local calendar reads
    as the first day of the current month and year at 00:00:00.000, and:
    [usage] is the user's records created at or after [T], latest first;
    [total] is their number; for an operation name that [Object.prototype]
    does not have, [byOperation] holds the number of those records with that
    operation, and no entry when there is none. The entry for ['ocr'] is the
    very count the monthly quota check reports as [used]. *)
Theorem getMonthlyUsage_breakdown (u : string) (w : World) :
  Calendar.regular (env w) (clock w) ->
  Calendar.in_range (JsDate.LocalTime (env w) (clock w)) ->
  ∃ T m, Calendar.starts_month_of (env w) (clock w) T
    ∧ getMonthlyUsage u w = (Return m, w)
    ∧ usage m ≡ₚ filter (λ r, usage_userId r = u ∧ (T <= usage_createdAt r)%Z)
                        (aIUsage (db w))
    ∧ StronglySorted usage_desc (usage m)
    ∧ total m = length (filter (λ r, usage_userId r = u
                                     ∧ (T <= usage_createdAt r)%Z)
                               (aIUsage (db w)))
    ∧ (∀ op, op ∉ Cost.Object_prototype_keys ->
         byOperation m !! op
         = bump None (length (filter (λ r, (usage_userId r = u
                                            ∧ (T <= usage_createdAt r)%Z)
                                           ∧ operation r = op)
                                     (aIUsage (db w)))))
    ∧ fst (checkUsageLimit u None w)
      = Return {| allowed := bool_decide
                               (Z.of_nat (count_of (byOperation m !! "ocr")) < 10)%Z;
                  used := Some (count_of (byOperation m !! "ocr"));
                  limit := Some 10%Z |}.
Proof.
  intros Hreg Hr. exists (startOfMonth (env w) (clock w)).
  destruct (getMonthlyUsage_rows u w) as (m & H).
  exists m. split; [by apply CalendarFacts.startOfMonth_starts_month|].
  exact H.
Qed.

(** The monthly check, told the tier and as [createNote] runs it, with the
    window of the code's own [startOfMonth]. *)
Lemma paid_tier_metered (u : string) (w : World) :
  let n := length (filter (ocr_this_month u w) (aIUsage (db w))) in
  let metered := {| allowed := bool_decide (Z.of_nat n < 10)%Z;
                    used := Some n; limit := Some 10%Z |} in
  checkUsageLimit u (Some "PRO") w
  = (Return {| allowed := true; used := None; limit := None |}, w)
  ∧ (∀ planType', planType' ≠ Some "PRO" ->
       checkUsageLimit u planType' w = (Return metered, w))
  ∧ (allowed metered = true <-> n < 10)
  ∧ (10 <= n -> allowed metered = false)
  ∧ (n = 9 -> allowed metered = true)
  ∧ (∀ e p, NoteController.plan_planType (PLANS e p) = None)
  ∧ (resolved u w = Some PlanType.PRO ->
       ∃ r, getUserPlan u w = (Return r, w)
         ∧ up_planType r = PlanType.PRO
         ∧ checkUsageLimit u (NoteController.plan_planType (up_plan r)) w
           = (Return metered, w)
         ∧ fst (NoteController.createNote_gate u w)
           = Return (if decide (10 <= n)
                     then conversion_limit_reached (Some n) (Some 10%Z)
                     else gate_open)).
Proof.
  intros n metered.
  split; [done|]. split.
  { intros p Hp. unfold checkUsageLimit. by rewrite decide_False. }
  split; [apply monthly_threshold|]. split; [apply monthly_threshold|].
  split; [apply monthly_threshold|]. split; [done|].
  rewrite resolved_eq. intros [= Hpro]. eexists. split; [apply getUserPlan_run|].
  cbn zeta. cbn [up_planType up_plan].
  fold (plan_of (prisma.subscription.latest
                   (filter (live u) (subscriptions (db w))))).
  split; [exact Hpro|]. split; [apply checkUsageLimit_undefined|].
  unfold NoteController.createNote_gate, NoteController.plan_planType.
  unfold mbind at 1, Prog_bind at 1. rewrite getUserPlan_run.
  unfold mbind at 1, Prog_bind at 1. rewrite canCreateNote_run. cbn zeta.
  rewrite Hpro. cbn [PLANS features notesLimit].
  rewrite decide_True by done. cbn [allowed negb].
  unfold mbind, Prog_bind. rewrite checkUsageLimit_undefined. cbn zeta.
  fold n. cbn [allowed used limit].
  destruct (decide (10 <= n)).
  - by rewrite bool_decide_eq_false_2 by lia.
  - by rewrite bool_decide_eq_true_2 by lia.
Qed.

(** C2: told the plan type ['PRO'], [checkUsageLimit] returns
    [allowed = true] whatever was recorded; told anything else it returns,
    without writing, [{allowed, used, limit}] with [limit = 10], [used] the
    number [n] of the user's ['ocr'] usage records created at or after the
    instant [T] that the local calendar reads as the first day of the
    current month and year at 00:00:00.000 (in a zone that is regular
    there), and [allowed] true exactly when [n < 10]: false from 10 on,
    true at 9. But the check is never told the tier. Its only caller,
    [createNote], passes [plan.planType], which no entry of [PLANS] has, so
    a user who resolves to PRO is checked as the base tier is, and is
    refused from ten conversions on: for the paid tier the check as the
    program runs it does not always return [allowed = true]. *)
Theorem checkUsageLimit_meters_paid_tier (u : string) (w : World) :
  Calendar.regular (env w) (clock w) ->
  Calendar.in_range (JsDate.LocalTime (env w) (clock w)) ->
  ∃ T, Calendar.starts_month_of (env w) (clock w) T
    ∧ let n := length (filter (λ r, usage_userId r = u ∧ operation r = "ocr"
                                    ∧ (T <= usage_createdAt r)%Z)
                              (aIUsage (db w))) in
      let metered := {| allowed := bool_decide (Z.of_nat n < 10)%Z;
                        used := Some n; limit := Some 10%Z |} in
      checkUsageLimit u (Some "PRO") w
      = (Return {| allowed := true; used := None; limit := None |}, w)
      ∧ (∀ planType', planType' ≠ Some "PRO" ->
           checkUsageLimit u planType' w = (Return metered, w))
      ∧ (allowed metered = true <-> n < 10)
      ∧ (10 <= n -> allowed metered = false)
      ∧ (n = 9 -> allowed metered = true)
      ∧ (∀ e p, NoteController.plan_planType (PLANS e p) = None)
      ∧ (resolved u w = Some PlanType.PRO ->
           ∃ r, getUserPlan u w = (Return r, w)
             ∧ up_planType r = PlanType.PRO
             ∧ checkUsageLimit u (NoteController.plan_planType (up_plan r)) w
               = (Return metered, w)
             ∧ fst (NoteController.createNote_gate u w)
               = Return (if decide (10 <= n)
                         then conversion_limit_reached (Some n) (Some 10%Z)
                         else gate_open)).
Proof.
  intros Hreg Hr. exists (startOfMonth (env w) (clock w)).
  split; [by apply CalendarFacts.startOfMonth_starts_month|].
  exact (paid_tier_metered u w).
Qed.

(** [getBillingInfo] writes nothing and always answers with the plan and
    the subscription the resolver [getUserPlan] picks for the user. Its
    recent payments are at most ten, all the user's, latest first; the
    user's payments it leaves out are none of them more recent than any it
    shows, and nothing is left out when the user has at most ten. *)
Theorem getBillingInfo_consistent (u : string) (w : World) :
  ∃ info, getBillingInfo u w = (Return (billing_json info), w)
    ∧ UsageService.up_plan <$> fst_return (getUserPlan u w) = Some (info_plan info)
    ∧ UsageService.up_subscription <$> fst_return (getUserPlan u w)
      = Some (match info_subscription info with
              | Some s => prisma.subscription.latest
                            (filter (live u) (subscriptions (db w)))
              | None => None
              end)
    ∧ info_subscription info
      = summary_of <$> prisma.subscription.latest
                         (filter (live u) (subscriptions (db w)))
    ∧ length (recentPayments info) <= 10
    ∧ (∀ p, p ∈ recentPayments info ->
            p ∈ paymentHistory (db w) ∧ payment_userId p = u)
    ∧ StronglySorted payment_desc (recentPayments info)
    ∧ (∀ p q, p ∈ recentPayments info ->
              q ∈ paymentHistory (db w) -> payment_userId q = u ->
              q ∉ recentPayments info ->
              (payment_createdAt q <= payment_createdAt p)%Z)
    ∧ (length (filter (λ p, payment_userId p = u) (paymentHistory (db w))) <= 10 ->
         recentPayments info
         ≡ₚ filter (λ p, payment_userId p = u) (paymentHistory (db w))).
Proof.
  eexists. split; [apply getBillingInfo_run|]. cbn zeta.
  cbn [info_plan info_subscription recentPayments].
  rewrite getUserPlan_run. cbn [fst fst_return fmap option_fmap option_map].
  cbn zeta. cbn [UsageService.up_plan UsageService.up_subscription].
  set (sorted := merge_sort payment_desc
                   (filter (λ p, payment_userId p = u) (paymentHistory (db w)))).
  assert (StronglySorted payment_desc sorted) as Hs
    by (apply StronglySorted_merge_sort; apply _).
  assert (sorted ≡ₚ filter (λ p, payment_userId p = u) (paymentHistory (db w)))
    as Hp by apply merge_sort_Permutation.
  split; [by destruct (prisma.subscription.latest _)|].
  split; [by destruct (prisma.subscription.latest _)|].
  split; [done|].
  split; [rewrite length_take; lia|].
  split.
  { intros p Hin%subseteq_take. rewrite Hp in Hin.
    by apply list_elem_of_filter in Hin as [? ?]. }
  split.
  { rewrite <-(take_drop 10 sorted) in Hs. by apply StronglySorted_app_1_l in Hs. }
  split.
  { intros p q Hpin Hq Hqu Hqout.
    assert (q ∈ sorted) as Hqs by (rewrite Hp; by apply list_elem_of_filter).
    rewrite <-(take_drop 10 sorted) in Hqs, Hs.
    apply elem_of_app in Hqs as [Hqs|Hqs]; [done|].
    exact (StronglySorted_app_1_elem_of _ _ _ p q Hs Hpin Hqs). }
  intros Hlen. rewrite take_ge; [done|]. by rewrite Hp.
Qed.

Lemma backend_plan (e : Env) (planType' : string) :
  planType' ∈ ["BASIC"; "PRO"; "PREMIUM"] ->
  PLANS_get e (if bool_decide (planType' = "BASIC")
                  || bool_decide (planType' = "PREMIUM")
               then "PRO" else planType')
  = Some (PLANS e PlanType.PRO)
  ∧ (if bool_decide (planType' = "BASIC") || bool_decide (planType' = "PREMIUM")
     then "PRO" else planType') = "PRO".
Proof.
  intros Hplan. repeat (apply elem_of_cons in Hplan as [->|Hplan]); [done..|].
  by apply not_elem_of_nil in Hplan.
Qed.

Lemma head_filter_nil {A} (P : A -> Prop) `{!∀ x, Decision (P x)} (l : list A) :
  head (filter P l) = None -> filter P l = [].
Proof. by destruct (filter P l). Qed.

Lemma resolved_rewritten (g : Subscription -> Subscription) (u : string)
    (w1 w2 : World) :
  keeps_entitlement g ->
  subscriptions (db w1) = g <$> subscriptions (db w2) ->
  resolved u w1 = resolved u w2.
Proof.
  intros Hg E. rewrite !resolved_eq, E.
  rewrite filter_live_fmap by (intros r; destruct (Hg r) as (?&?&?&?); done).
  rewrite latest_fmap by (intros r; destruct (Hg r) as (?&?&?&?); done).
  by rewrite plan_of_fmap by (intros r; destruct (Hg r) as (?&?&?&?); done).
Qed.

Lemma resolved_appended_free (new : Subscription) (u : string) (w1 w2 : World) :
  planType new = PlanType.FREE ->
  filter (live (userId new)) (subscriptions (db w2)) = [] ->
  subscriptions (db w1) = subscriptions (db w2) ++ [new] ->
  resolved u w1 = resolved u w2.
Proof.
  intros Hfree Hnone E. rewrite !resolved_eq, E, filter_app, filter_cons.
  destruct (decide (live u new)) as [[<- Hd]|Hn].
  - rewrite Hnone. cbn. by rewrite Hfree.
  - by rewrite filter_nil, app_nil_r.
Qed.

(** Closes a path of [createCheckoutSession] on which nothing is written
    to the database and no session is returned. *)
Ltac no_link E :=
  subst; split; [intros; reflexivity|split; [reflexivity|intros ? [=]]].

Lemma createCheckoutSession_paths (u : string) (body : CheckoutBody) (w : World) :
  let r := createCheckoutSession u body w in
  (∀ u', resolved u' (snd r) = resolved u' w)
  ∧ env (snd r) = env w
  ∧ (∀ sid, fst r = Return (checkout_json sid) ->
       ∃ row, head (filter (live u) (subscriptions (db (snd r)))) = Some row
         ∧ str_truthy (stripeCustomerId row) = true).
Proof.
  cbn zeta. remember (createCheckoutSession u body w) as r eqn:E.
  unfold createCheckoutSession, try_catch in E.
  unfold mbind at 1, Prog_bind at 1, get_world in E.
  destruct (stripe.configured (env w)) eqn:Hcfg; cbn [negb] in E; [|no_link E].
  destruct (decide (default "PRO" (checkout_planType body)
                    ∈ ["BASIC"; "PRO"; "PREMIUM"])) as [Hv|Hv].
  2: { rewrite bool_decide_eq_false_2 in E by done. no_link E. }
  rewrite bool_decide_eq_true_2 in E by done. cbn [negb] in E.
  destruct (backend_plan (env w) _ Hv) as [Hget Hback]. rewrite Hget, Hback in E.
  unfold mbind at 1, Prog_bind at 1 in E. unfold mret at 1, Prog_ret at 1 in E.
  cbn [PLANS priceId] in E. rewrite str_or_truthy in E by done. cbn [negb] in E.
  unfold mbind at 1, Prog_bind at 1 in E.
  cbn [prisma.subscription.findFirst prisma.read] in E.
  fold (live u) in E.
  destruct (head (filter (live u) (subscriptions (db w)))) as [row|] eqn:Hrow.
  - cbn [mbind option_bind] in E.
    destruct (str_truthy (stripeCustomerId row)) eqn:Hc.
    + subst r. split; [intros; reflexivity|]. split; [reflexivity|].
      intros sid _. exists row. split; [exact Hrow|exact Hc].
    + unfold link_customer, user_findUnique_id, prisma.subscription.update in E.
      prog_unfold. cbn in E.
      destruct (users (db w) !! u) as [user|] eqn:Hu; [|no_link E].
      apply head_filter_Some in Hrow as Hin. destruct Hin as [Hin Hlive].
      rewrite decide_True in E by by apply Exists_sub_id.
      cbn in E. destruct (storage_ok w) eqn:Hok; cbn in E; [|no_link E].
      subst r. cbn [fst snd]. split; [|split; [reflexivity|]].
      * intros u'. eapply resolved_rewritten; [|reflexivity].
        by apply keeps_entitlement_on_id.
      * intros sid _. eexists. split.
        -- cbn [db subscriptions set_db set_provider prisma.set_subscriptions].
           rewrite head_filter_fmap, Hrow; [reflexivity|].
           intros x. unfold live, prisma.subscription.on_id.
           by destruct (decide (sub_id x = sub_id row)).
        -- unfold prisma.subscription.on_id. by rewrite decide_True.
  - cbn [mbind option_bind str_truthy] in E.
    unfold link_customer, user_findUnique_id, prisma.subscription.create in E.
    prog_unfold. cbn in E.
    destruct (users (db w) !! u) as [user|] eqn:Hu; [|no_link E].
    rewrite decide_False in E by (by rewrite Hu).
    rewrite decide_False in E by (by intros [[? [=]] _]).
    cbn in E. destruct (storage_ok w) eqn:Hok; cbn in E; [|no_link E].
    subst r. cbn [fst snd]. split; [|split; [reflexivity|]].
    + intros u'. eapply resolved_appended_free; [| |reflexivity]; [done|].
      by apply head_filter_nil.
    + intros sid _. eexists. split.
      * cbn [db subscriptions set_db set_provider].
        rewrite filter_app, (head_filter_nil _ _ Hrow).
        rewrite app_nil_l, filter_cons, decide_True by done. reflexivity.
      * done.
Qed.

Lemma createCheckoutSession_reuse (u : string) (body : CheckoutBody) (w : World)
    (row : Subscription) :
  head (filter (live u) (subscriptions (db w))) = Some row ->
  str_truthy (stripeCustomerId row) = true ->
  let r := createCheckoutSession u body w in
  db (snd r) = db w
  ∧ stripe_customers (provider (snd r)) = stripe_customers (provider w)
  ∧ (∀ sid, fst r = Return (checkout_json sid) ->
       ∃ s, last (stripe_sessions (provider (snd r))) = Some s
         ∧ cs_id s = sid ∧ cs_customer s = stripeCustomerId row).
Proof.
  intros Hrow Hc. cbn zeta.
  remember (createCheckoutSession u body w) as r eqn:E.
  unfold createCheckoutSession, try_catch in E.
  unfold mbind at 1, Prog_bind at 1, get_world in E.
  destruct (stripe.configured (env w)) eqn:Hcfg; cbn [negb] in E;
    [|subst; split; [reflexivity|split; [reflexivity|intros ? [=]]]].
  destruct (decide (default "PRO" (checkout_planType body)
                    ∈ ["BASIC"; "PRO"; "PREMIUM"])) as [Hv|Hv].
  2: { rewrite bool_decide_eq_false_2 in E by done.
       subst; split; [reflexivity|split; [reflexivity|intros ? [=]]]. }
  rewrite bool_decide_eq_true_2 in E by done. cbn [negb] in E.
  destruct (backend_plan (env w) _ Hv) as [Hget Hback]. rewrite Hget, Hback in E.
  unfold mbind at 1, Prog_bind at 1 in E. unfold mret at 1, Prog_ret at 1 in E.
  cbn [PLANS priceId] in E. rewrite str_or_truthy in E by done. cbn [negb] in E.
  unfold mbind at 1, Prog_bind at 1 in E.
  cbn [prisma.subscription.findFirst prisma.read] in E.
  fold (live u) in E. rewrite Hrow in E. cbn [mbind option_bind] in E.
  rewrite Hc in E. subst r. cbn. split; [reflexivity|]. split; [reflexivity|].
  intros sid [= <-]. eexists. split; [apply last_snoc|]. split; [reflexivity|].
  cbn. by destruct (stripeCustomerId row).
Qed.

(** [createCheckoutSession] entitles nobody: however it ends, every user
    resolves to the plan they had, and the environment is the same. When it
    answers with a session, the first live row of the user carries a
    customer id: the one that was there, or the new customer's, written to
    the row that was found or to a FREE row created for it. *)
Theorem createCheckoutSession_never_entitles (u : string) (body : CheckoutBody)
    (w : World) :
  let r := createCheckoutSession u body w in
  (∀ u', resolved u' (snd r) = resolved u' w)
  ∧ env (snd r) = env w
  ∧ (∀ sid, fst r = Return (checkout_json sid) ->
       ∃ row, head (filter (live u) (subscriptions (db (snd r)))) = Some row
         ∧ str_truthy (stripeCustomerId row) = true).
Proof. exact (createCheckoutSession_paths u body w). Qed.

(** Once [createCheckoutSession] answered with a session, a further call
    for the same user, whatever its body, writes nothing to the database and
    creates no further customer at the provider; the session it answers
    with, if any, is for the customer id stored on the user's first live
    row. *)
Theorem createCheckoutSession_reuses_customer (u : string)
    (body body' : CheckoutBody) (w : World) (sid : string) :
  fst (createCheckoutSession u body w) = Return (checkout_json sid) ->
  let w1 := snd (createCheckoutSession u body w) in
  let r2 := createCheckoutSession u body' w1 in
  db (snd r2) = db w1
  ∧ stripe_customers (provider (snd r2)) = stripe_customers (provider w1)
  ∧ (∀ sid2, fst r2 = Return (checkout_json sid2) ->
       ∃ row s, head (filter (live u) (subscriptions (db w1))) = Some row
         ∧ last (stripe_sessions (provider (snd r2))) = Some s
         ∧ cs_id s = sid2 ∧ cs_customer s = stripeCustomerId row).
Proof.
  intros Hsid. cbn zeta.
  destruct (createCheckoutSession_paths u body w) as (_ & _ & Hlink).
  destruct (Hlink sid Hsid) as (row & Hrow & Hc).
  destruct (createCheckoutSession_reuse u body' _ row Hrow Hc) as (Hdb & Hcus & Hs).
  split; [exact Hdb|]. split; [exact Hcus|].
  intros sid2 H2. destruct (Hs sid2 H2) as (s & Hlast & Hid & Hcust).
  by exists row, s.
Qed.

End ReportFacts.

(* ===================================================================== *)
(** * What [generateTitle] and [generateTags] keep of the completion      *)
(* ===================================================================== *)

Module ParsingFacts.
Import AIParsing.

Lemma split_comma_nonempty (s : string) : split_comma s ≠ [].
Proof.
  destruct s as [|c rest]; cbn; [done|].
  destruct (decide _); [done|]. by destruct (split_comma rest).
Qed.

Lemma join_split_comma (s : string) : join_comma (split_comma s) = s.
Proof.
  induction s as [|c rest IH]; [done|]. cbn [split_comma].
  pose proof (split_comma_nonempty rest) as Hne.
  destruct (decide (c = ","%char)) as [->|Hc].
  - destruct (split_comma rest) as [|x xs] eqn:E; [done|].
    cbn [join_comma]. cbn. by rewrite <-IH.
  - destruct (split_comma rest) as [|x xs] eqn:E; [done|].
    rewrite <-IH. cbn [join_comma]. by destruct xs.
Qed.

Lemma split_comma_no_comma (s p : string) :
  p ∈ split_comma s -> ¬ occurs ","%char p.
Proof.
  revert p. induction s as [|c rest IH]; intros p Hp.
  - cbn in Hp. apply list_elem_of_singleton in Hp as ->. intros [].
  - cbn [split_comma] in Hp. destruct (decide (c = ","%char)) as [->|Hc].
    + apply elem_of_cons in Hp as [->|Hp]; [intros []|by apply IH].
    + destruct (split_comma rest) as [|x xs] eqn:E.
      * apply list_elem_of_singleton in Hp as ->. cbn. naive_solver.
      * apply elem_of_cons in Hp as [->|Hp].
        -- cbn. intros [?|Hx]; [done|]. revert Hx. apply IH. by left.
        -- apply IH. by right.
Qed.

Lemma strip_quotes_occurs (c : ascii) (s : string) :
  occurs c (strip_quotes s) -> occurs c s ∧ ¬ is_quote c.
Proof.
  induction s as [|c' rest IH]; [done|]. cbn [strip_quotes].
  destruct (decide (is_quote c')) as [Hq|Hq]; cbn.
  - intros H. destruct (IH H). naive_solver.
  - intros [->|H]; [naive_solver|]. destruct (IH H). naive_solver.
Qed.

Lemma strip_quotes_empty (s : string) :
  strip_quotes s = "" <-> ∀ c, occurs c s -> is_quote c.
Proof.
  induction s as [|c' rest IH]; [done|]. cbn [strip_quotes occurs].
  destruct (decide (is_quote c')) as [Hq|Hq].
  - rewrite IH. naive_solver.
  - split; [done|]. intros H. destruct Hq. apply H. by left.
Qed.

Lemma filter_fmap_length {A B} (f : A -> B) (P : B -> Prop)
    `{!∀ y, Decision (P y)} (l : list A) :
  length (filter P (f <$> l)) = length (filter (λ x, P (f x)) l).
Proof.
  induction l as [|x rest IH]; [done|].
  rewrite fmap_cons, !filter_cons. destruct (decide (P (f x))); cbn; by rewrite IH.
Qed.

(** The title [generateTitle] returns is never empty and holds neither
    quote character. It is ['Untitled Note'] when there is no completion or
    when the trimmed completion is empty or made of quotes only; otherwise
    it is the trimmed completion without its quote characters. *)
Theorem generateTitle_title (trim : string -> string) (content : option string) :
  let title := title_of trim content in
  (content = None -> title = "Untitled Note")
  ∧ title ≠ ""
  ∧ (∀ ch, occurs ch title -> ¬ is_quote ch)
  ∧ (∀ c, content = Some c ->
       ((∀ ch, occurs ch (trim c) -> is_quote ch) -> title = "Untitled Note")
       ∧ (∀ ch, occurs ch (trim c) -> ¬ is_quote ch ->
            title = strip_quotes (trim c))).
Proof.
  cbn zeta. unfold title_of, str_or.
  split; [by intros ->|].
  destruct content as [c|]; cbn [fmap option_fmap option_map str_truthy default].
  2: { split; [done|]. split; [|done]. intros ch Hch [Hq|Hq]; subst ch;
       vm_compute in Hch; naive_solver. }
  destruct (decide (strip_quotes (trim c) = "")) as [E|E].
  - rewrite bool_decide_eq_true_2 by done. cbn [negb].
    split; [done|]. split.
    { intros ch Hch [Hq|Hq]; subst ch; vm_compute in Hch; naive_solver. }
    intros ? [= <-]. split; [done|]. intros ch Hch Hq.
    by destruct (Hq (proj1 (strip_quotes_empty _) E ch Hch)).
  - rewrite bool_decide_eq_false_2 by done. cbn [negb].
    split; [done|]. split.
    { intros ch Hch. by apply strip_quotes_occurs in Hch as [_ ?]. }
    intros ? [= <-]. split; [|done]. intros Hall.
    by destruct (E (proj2 (strip_quotes_empty _) Hall)).
Qed.

(** The tags [generateTags] returns are at most five, none empty, and are,
    in order, lower-cased trimmed pieces of the trimmed completion cut at its
    commas (the pieces joined by commas give the trimmed completion back, and
    none holds a comma). When at most five pieces are non-empty after
    trimming none of them is dropped. Without a completion there is no tag,
    given that trimming and lower-casing the empty string give the empty
    string. *)
Theorem generateTags_tags (trim toLowerCase : string -> string)
    (content : option string) :
  let tagsString := str_or (trim <$> content) "" in
  let tags := tags_of trim toLowerCase content in
  length tags <= 5
  ∧ tags `sublist_of` ((λ p, toLowerCase (trim p)) <$> split_comma tagsString)
  ∧ join_comma (split_comma tagsString) = tagsString
  ∧ (∀ t, t ∈ tags ->
       t ≠ "" ∧ ∃ p, p ∈ split_comma tagsString ∧ ¬ occurs ","%char p
                   ∧ t = toLowerCase (trim p))
  ∧ (length (filter (λ p, toLowerCase (trim p) ≠ "") (split_comma tagsString)) <= 5 ->
       ∀ p, p ∈ split_comma tagsString -> toLowerCase (trim p) ≠ "" ->
            toLowerCase (trim p) ∈ tags)
  ∧ (toLowerCase (trim "") = "" -> content = None -> tags = []).
Proof.
  cbn zeta. unfold tags_of.
  set (tagsString := str_or (trim <$> content) "").
  set (pieces := split_comma tagsString).
  set (norm := λ p : string, toLowerCase (trim p)).
  assert (take 5 (filter (λ tag, tag ≠ "") (norm <$> pieces))
          `sublist_of` norm <$> pieces) as Hsub.
  { etrans; [apply sublist_take|apply sublist_filter]. }
  split; [rewrite length_take; lia|]. split; [exact Hsub|].
  split; [apply join_split_comma|]. split; [|split].
  - intros t Ht. apply subseteq_take, list_elem_of_filter in Ht as [Hne Ht].
    split; [exact Hne|]. apply list_elem_of_fmap in Ht as (p & -> & Hp).
    exists p. split; [exact Hp|]. split; [|done].
    by apply (split_comma_no_comma tagsString).
  - intros Hlen p Hp Hne. rewrite take_ge.
    + apply list_elem_of_filter. split; [exact Hne|].
      apply list_elem_of_fmap. by exists p.
    + rewrite filter_fmap_length. exact Hlen.
  - intros Hempty ->. subst pieces tagsString norm.
    change (split_comma (str_or (trim <$> None) "")) with [""].
    rewrite fmap_cons, filter_cons, decide_False by (intros H; by apply H). done.
Qed.

End ParsingFacts.

(* ===================================================================== *)
(** * Gates on the plan                                                   *)
(* ===================================================================== *)

Module GateFacts.
Import UsageService PlanGates Vocabulary Ledger UsageFacts EventFacts.

(** [cleanNote], [summarizeNote] and [rewriteNote] refuse every user with
    403, whatever plan the user resolves to, PRO included, and never run
    what follows the gate: the gate compares [plan.planType], which no plan
    has, with ['PRO']. They change nothing. For the same reason [createNote]
    never generates tags. *)
Theorem pro_features_always_refused {A} (rest : Prog A) (u : string) (w : World) :
  cleanNote rest u w = (Return (refused 403 "Pro subscription required"), w)
  ∧ summarizeNote rest u w = (Return (refused 403 "Pro subscription required"), w)
  ∧ rewriteNote rest u w = (Return (refused 403 "Pro subscription required"), w)
  ∧ (∀ e p, createNote_generates_tags (PLANS e p) = false).
Proof. done. Qed.

(** The gates of [getFolders], [createFolder] and [addTagToNote] follow the
    resolver: a user who resolves to PRO gets what follows the gate, run on
    the unchanged world, its error passed to [next]; a user who resolves to
    FREE is refused with 403 and nothing changes; and every user resolves to
    one of the two. *)
Theorem feature_gates_follow_resolver {A} (rest : Prog A) (u : string) (w : World) :
  (resolved u w = Some PlanType.PRO ->
     getFolders rest u w = through rest w
     ∧ createFolder rest u w = through rest w
     ∧ addTagToNote rest u w = through rest w)
  ∧ (resolved u w = Some PlanType.FREE ->
       getFolders rest u w
       = (Return (refused 403 "Folders feature requires Pro subscription"), w)
       ∧ createFolder rest u w
         = (Return (refused 403 "Folders feature requires Pro subscription"), w)
       ∧ addTagToNote rest u w
         = (Return (refused 403 "Tags feature requires Pro subscription"), w))
  ∧ (resolved u w = Some PlanType.PRO ∨ resolved u w = Some PlanType.FREE).
Proof.
  rewrite resolved_eq.
  unfold getFolders, createFolder, folders_required, addTagToNote, through,
    try_catch.
  unfold mbind, Prog_bind. rewrite !getUserPlan_run. cbn zeta. cbn [up_plan].
  fold (plan_of (prisma.subscription.latest
                   (filter (live u) (subscriptions (db w))))).
  destruct (plan_of _); (split; [|split]); try (intros [=]);
    cbn [PLANS features folders tags negb]; unfold mret, Prog_ret;
    try (by destruct (rest w) as [[a|e] w']); try done.
  - by right.
  - by left.
Qed.

End GateFacts.

(* ===================================================================== *)
(** * Registration and the link to a paid checkout                        *)
(* ===================================================================== *)

Module RegisterFacts.
Import UsageService AuthController Linking Vocabulary Ledger.
Import UsageFacts BillingFacts EventFacts.

Lemma link_session_linkable (sessionId : option string) (w : World)
    (s : CheckoutSession) (sub : StripeSubscription) :
  linkable sessionId w = Some (s, sub) ->
  link_session sessionId w
  = (Return {| l_stripeCustomerId := cs_customer s;
               l_stripeSubscriptionId := Some (ss_id sub);
               l_planType := str_or (cs_metadata s ≫= md_planType) "PRO";
               l_subscriptionStatus :=
                 if decide (ss_status sub = "active")
                 then Status.ACTIVE else Status.INCOMPLETE;
               l_currentPeriodStart := Some (current_period_start sub * 1000)%Z;
               l_currentPeriodEnd := Some (current_period_end sub * 1000)%Z |}, w).
Proof.
  unfold linkable, link_session. unfold mbind at 1, Prog_bind at 1, get_world.
  destruct (str_truthy sessionId && stripe.configured (env w)); [|done].
  unfold try_catch, sessions_retrieve. unfold mbind at 1, Prog_bind at 1.
  destruct (head _) as [s'|]; [|done].
  destruct (bool_decide _ && str_truthy _); [|done].
  unfold mbind, Prog_bind, fst_return.
  destruct (stripe.subscriptions.retrieve (cs_subscription s') w)
    as [[sub'|e] w1] eqn:E; [|done].
  intros [= -> ->]. cbn [fst].
  assert (w1 = w) as ->; [|done].
  unfold stripe.subscriptions.retrieve in E.
  destruct (cs_subscription s) as [i|]; [|done].
  destruct (head _); by injection E.
Qed.

Lemma link_session_unlinked (sessionId : option string) (w : World) :
  linkable sessionId w = None ->
  ∃ w1, link_session sessionId w = (Return unlinked, w1)
    ∧ (w1 = w ∨ w1 = add_console "Error retrieving Stripe session:" w).
Proof.
  unfold linkable, link_session. unfold mbind at 1, Prog_bind at 1, get_world.
  destruct (str_truthy sessionId && stripe.configured (env w));
    [|intros _; eexists; split; [reflexivity|by left]].
  unfold try_catch, sessions_retrieve. unfold mbind at 1, Prog_bind at 1.
  destruct (head _) as [s'|]; [|intros _; eexists; split; [reflexivity|by right]].
  destruct (bool_decide _ && str_truthy _);
    [|intros _; eexists; split; [reflexivity|by left]].
  unfold mbind, Prog_bind, fst_return.
  destruct (stripe.subscriptions.retrieve (cs_subscription s') w)
    as [[sub'|e] w1] eqn:E; [done|].
  intros _. assert (w1 = w) as ->.
  { unfold stripe.subscriptions.retrieve in E.
    destruct (cs_subscription s') as [i|]; [|by injection E].
    destruct (head _); by injection E. }
  eexists; split; [reflexivity|by right].
Qed.

Lemma user_create_run (new_id : DB -> string) (e : string) (n : option string)
    (r : Role.t) (l : Linked) (p : PlanType.t) (w : World) :
  PlanType_of (l_planType l) = Some p ->
  (∀ k u, users (db w) !! k = Some u -> email u ≠ e) ->
  users (db w) !! new_id (db w) = None ->
  (∀ x, x ∈ subscriptions (db w) -> l_stripeSubscriptionId l = None
        ∨ stripeSubscriptionId x ≠ l_stripeSubscriptionId l) ->
  storage_ok w = true ->
  let user := {| user_id := new_id (db w); email := e; user_name := n;
                 role := r |} in
  user_create new_id e n r l w
  = (Return user,
     set_db (registered user (registered_row (new_id (db w)) p l w) (db w)) w).
Proof.
  intros Hp Hmail Hfree Hnew Hok. cbn zeta. unfold user_create.
  prog_unfold. cbn. rewrite Hp.
  rewrite decide_False; cycle 1.
  { intros [Hk|(x & Hx & Hex)%Exists_exists]; [by rewrite Hfree in Hk|].
    apply list_elem_of_fmap in Hx as ([k u] & -> & Hku%elem_of_map_to_list).
    by apply (Hmail k u). }
  rewrite decide_False; cycle 1.
  { intros [Hs (x & Hx & Hex)%Exists_exists].
    destruct (Hnew x Hx) as [Hn|Hn]; [|done]. rewrite Hn in Hs. by destruct Hs. }
  by rewrite Hok.
Qed.

Lemma resolved_registered (user : User) (row : Subscription) (w : World) :
  userId row = user_id user -> deletedAt row = None ->
  (∀ r, r ∈ subscriptions (db w) -> userId r ≠ user_id user) ->
  resolved (user_id user) (set_db (registered user row (db w)) w)
  = Some (planType row)
  ∧ (∀ u', u' ≠ user_id user ->
       resolved u' (set_db (registered user row (db w)) w) = resolved u' w).
Proof.
  intros Hu Hd Hnone. rewrite !resolved_eq. cbn [db set_db registered subscriptions].
  split.
  - rewrite filter_app.
    rewrite (ReportFacts.head_filter_nil _ (subscriptions (db w))); cycle 1.
    { apply head_filter_None. intros r Hr [Hr' _]. by apply (Hnone r). }
    rewrite app_nil_l, filter_cons, decide_True by done. done.
  - intros u' Hne. rewrite !resolved_eq.
    cbn [db set_db registered subscriptions]. rewrite filter_app, filter_cons.
    rewrite decide_False by (intros [? _]; congruence).
    by rewrite filter_nil, app_nil_r.
Qed.

(** [register] answers 400 and changes nothing when the email or the
    password is missing or empty, and when a user with the email exists; in
    neither case does it look at the checkout session. *)
Theorem register_refuses (new_id : DB -> string) (body : RegisterBody)
    (w : World) :
  (str_truthy (reg_email body) = false ∨ str_truthy (reg_password body) = false ->
     register new_id body w
     = (Return (register_error 400 "Email and password are required"), w))
  ∧ (∀ e u, reg_email body = Some e -> e ≠ "" ->
       str_truthy (reg_password body) = true ->
       head (filter (λ u, email u = e) (snd <$> map_to_list (users (db w))))
       = Some u ->
       register new_id body w
       = (Return (register_error 400 "User already exists"), w)).
Proof.
  unfold register, try_catch. split.
  - intros [-> | ->]; [done|]. by rewrite orb_true_r.
  - intros e u -> He -> Hu. cbn [str_truthy negb orb default id].
    rewrite bool_decide_eq_false_2 by done. cbn [negb orb].
    unfold mbind, Prog_bind, prisma.user.findUnique_email, prisma.read.
    cbn beta. by rewrite Hu.
Qed.

(** A registration that names a paid checkout session whose plan type is
    PRO (or absent) creates the user with the role PRO together with a PRO
    row that carries the session's customer and the provider's subscription
    id, so that the new user resolves to PRO and nobody else's plan changes.
    Nothing relates the session to the registrant: the email and the user of
    the session's metadata are not read. *)
Theorem register_links_paid_session (new_id : DB -> string) (body : RegisterBody)
    (e : string) (s : CheckoutSession) (sub : StripeSubscription) (w : World) :
  reg_email body = Some e -> e ≠ "" ->
  str_truthy (reg_password body) = true ->
  linkable (reg_sessionId body) w = Some (s, sub) ->
  str_or (cs_metadata s ≫= md_planType) "PRO" = "PRO" ->
  admits e (new_id (db w)) (db w) ->
  (∀ r, r ∈ subscriptions (db w) -> stripeSubscriptionId r ≠ Some (ss_id sub)) ->
  storage_ok w = true ->
  let id := new_id (db w) in
  let user := {| user_id := id; email := e; user_name := reg_name body;
                 role := Role.PRO |} in
  let row := {| sub_id := nextId (db w); userId := id;
                planType := PlanType.PRO;
                status := if decide (ss_status sub = "active")
                          then Status.ACTIVE else Status.INCOMPLETE;
                stripeCustomerId := cs_customer s;
                stripeSubscriptionId := Some (ss_id sub);
                currentPeriodStart := Some (current_period_start sub * 1000)%Z;
                currentPeriodEnd := Some (current_period_end sub * 1000)%Z;
                cancelAtPeriodEnd := false; createdAt := clock w;
                deletedAt := None |} in
  register new_id body w
  = (Return (register_created user), set_db (registered user row (db w)) w)
  ∧ resolved id (set_db (registered user row (db w)) w) = Some PlanType.PRO
  ∧ (∀ u', u' ≠ id ->
       resolved u' (set_db (registered user row (db w)) w) = resolved u' w).
Proof.
  intros He Hne Hpw Hlink Hpro (Hmail & Hfree & Hown) Hnew Hok. cbn zeta.
  split.
  - unfold register, try_catch. rewrite He, Hpw. cbn [str_truthy negb orb default id].
    rewrite bool_decide_eq_false_2 by done. cbn [negb orb].
    unfold mbind at 1, Prog_bind at 1. rewrite findUnique_email_None by done.
    unfold mbind at 1, Prog_bind at 1.
    rewrite (link_session_linkable _ _ s sub Hlink).
    unfold mbind at 1, Prog_bind at 1.
    rewrite (user_create_run new_id e _ _ _ PlanType.PRO); try done.
    + cbn [l_planType]. rewrite Hpro. done.
    + cbn [l_planType]. by rewrite Hpro.
    + intros x Hx. right. cbn [l_stripeSubscriptionId]. by apply Hnew.
  - by apply (resolved_registered
                {| user_id := new_id (db w); email := e;
                   user_name := reg_name body; role := Role.PRO |}).
Qed.

(** A registration without a usable checkout session (none named, no Stripe
    client, no such session, a session that is not paid or has no
    subscription, or a provider that does not give the subscription) creates
    the user with the role USER and a FREE row without external ids: the
    user resolves to FREE. A failed lookup costs a line on the console and
    nothing else. *)
Theorem register_base_tier (new_id : DB -> string) (body : RegisterBody)
    (e : string) (w : World) :
  reg_email body = Some e -> e ≠ "" ->
  str_truthy (reg_password body) = true ->
  linkable (reg_sessionId body) w = None ->
  admits e (new_id (db w)) (db w) ->
  storage_ok w = true ->
  let id := new_id (db w) in
  let user := {| user_id := id; email := e; user_name := reg_name body;
                 role := Role.USER |} in
  let row := {| sub_id := nextId (db w); userId := id;
                planType := PlanType.FREE; status := Status.ACTIVE;
                stripeCustomerId := None; stripeSubscriptionId := None;
                currentPeriodStart := None; currentPeriodEnd := None;
                cancelAtPeriodEnd := false; createdAt := clock w;
                deletedAt := None |} in
  ∃ w', register new_id body w = (Return (register_created user), w')
    ∧ db w' = registered user row (db w)
    ∧ provider w' = provider w
    ∧ resolved id w' = Some PlanType.FREE
    ∧ (∀ u', u' ≠ id -> resolved u' w' = resolved u' w).
Proof.
  intros He Hne Hpw Hlink (Hmail & Hfree & Hown) Hok. cbn zeta.
  destruct (link_session_unlinked _ _ Hlink) as (w1 & E & Hw1).
  assert (db w1 = db w ∧ provider w1 = provider w ∧ clock w1 = clock w
          ∧ storage_ok w1 = true) as (Hdb & Hpr & Hcl & Hok1).
  { destruct Hw1 as [->| ->]; done. }
  pose proof (user_create_run new_id e (reg_name body) Role.USER unlinked
                PlanType.FREE w1) as Hrun.
  cbn zeta in Hrun. rewrite Hdb in Hrun.
  specialize (Hrun eq_refl Hmail Hfree (λ x _, or_introl eq_refl) Hok1).
  eexists. split.
  - unfold register, try_catch. rewrite He, Hpw. cbn [str_truthy negb orb default id].
    rewrite bool_decide_eq_false_2 by done. cbn [negb orb].
    unfold mbind at 1, Prog_bind at 1. rewrite findUnique_email_None by done.
    unfold mbind at 1, Prog_bind at 1. rewrite E.
    unfold mbind at 1, Prog_bind at 1. cbn [l_planType unlinked].
    rewrite bool_decide_eq_false_2 by done. rewrite Hrun. reflexivity.
  - cbn [db set_db provider]. unfold registered_row. cbn [unlinked l_stripeCustomerId
      l_stripeSubscriptionId l_subscriptionStatus l_currentPeriodStart
      l_currentPeriodEnd]. rewrite Hcl, ?Hdb. split; [done|]. split; [done|].
    pose proof (resolved_registered
                  {| user_id := new_id (db w); email := e;
                     user_name := reg_name body; role := Role.USER |}
                  {| sub_id := nextId (db w); userId := new_id (db w);
                     planType := PlanType.FREE; status := Status.ACTIVE;
                     stripeCustomerId := None; stripeSubscriptionId := None;
                     currentPeriodStart := None; currentPeriodEnd := None;
                     cancelAtPeriodEnd := false; createdAt := clock w;
                     deletedAt := None |} w eq_refl eq_refl Hown) as [H1 H2].
    rewrite !resolved_eq in *. cbn [db set_db] in *. split; [exact H1|].
    intros u' Hu'. rewrite resolved_eq. by apply H2.
Qed.

(** A registration that names a paid session whose provider subscription
    is already on a row (linked by an earlier registration, or inserted by
    the webhook for a signed-in user) does not fall back to the base tier:
    the insert fails on the unique external subscription id, the error goes
    to [next], and neither the user nor a row is created. *)
Theorem register_linked_session_fails (new_id : DB -> string)
    (body : RegisterBody) (e : string) (s : CheckoutSession)
    (sub : StripeSubscription) (taken : Subscription) (w : World) :
  reg_email body = Some e -> e ≠ "" ->
  str_truthy (reg_password body) = true ->
  linkable (reg_sessionId body) w = Some (s, sub) ->
  PlanType_of (str_or (cs_metadata s ≫= md_planType) "PRO") ≠ None ->
  (∀ k u, users (db w) !! k = Some u -> email u ≠ e) ->
  taken ∈ subscriptions (db w) ->
  stripeSubscriptionId taken = Some (ss_id sub) ->
  register new_id body w = (Return (register_next UniqueConstraintFailed), w).
Proof.
  intros He Hne Hpw Hlink Hplan Hmail Hin Htaken.
  unfold register, try_catch. rewrite He, Hpw. cbn [str_truthy negb orb default id].
  rewrite bool_decide_eq_false_2 by done. cbn [negb orb].
  unfold mbind at 1, Prog_bind at 1. rewrite findUnique_email_None by done.
  unfold mbind at 1, Prog_bind at 1.
  rewrite (link_session_linkable _ _ s sub Hlink).
  unfold mbind at 1, Prog_bind at 1. unfold user_create. prog_unfold.
  cbn [l_planType l_stripeSubscriptionId].
  destruct (PlanType_of _) as [p|]; [|done].
  destruct (decide (is_Some _ ∨ _)); [done|].
  rewrite decide_True; [done|]. split; [done|].
  apply Exists_exists. by exists taken.
Qed.

Lemma head_filter_None_inv {A} (P : A -> Prop) `{!∀ x, Decision (P x)}
    (l : list A) (x : A) :
  head (filter P l) = None -> x ∈ l -> ¬ P x.
Proof.
  intros Hn Hx Px.
  assert (x ∈ filter P l) as Hin by by apply list_elem_of_filter.
  destruct (filter P l); [by apply not_elem_of_nil in Hin|done].
Qed.

Lemma googleCallback_run (new_id : DB -> string) (body : GoogleBody) (w : World) :
  googleCallback new_id body w =
  match g_email body with
  | None => (Return (google_next ValidationError), w)
  | Some e =>
      match head (filter (λ u, email u = e) (snd <$> map_to_list (users (db w)))) with
      | Some u => (Return (google_login u), w)
      | None =>
          let user := {| user_id := new_id (db w); email := e;
                         user_name := g_name body; role := Role.USER |} in
          if decide (is_Some (users (db w) !! new_id (db w))
                     ∨ Exists (λ u, email u = e) (snd <$> map_to_list (users (db w))))
          then (Return (google_next UniqueConstraintFailed), w)
          else if storage_ok w
          then (Return (google_login user),
                set_db (registered user
                          (registered_row (new_id (db w)) PlanType.FREE unlinked w)
                          (db w)) w)
          else (Return (google_next PersistenceError), w)
      end
  end.
Proof.
  unfold googleCallback, try_catch. unfold mbind at 1, Prog_bind at 1.
  destruct (g_email body) as [e|]; [|done].
  unfold prisma.user.findUnique_email, prisma.read.
  destruct (head _); [done|].
  unfold mbind at 1, Prog_bind at 1. unfold user_create. prog_unfold. cbn.
  destruct (decide (is_Some _ ∨ _)); [done|].
  change (PlanType_of "FREE") with (Some PlanType.FREE). cbn.
  rewrite decide_False by (by intros [[? [=]] _]).
  by destruct (storage_ok w).
Qed.

(** [googleCallback] is idempotent: a second call with the same body
    answers as the first did and leaves the world the first produced, be it
    that the first found the user, created it (with the role USER and a FREE
    row) or failed. No call changes a user that exists. *)
Theorem googleCallback_idempotent (new_id : DB -> string) (body : GoogleBody)
    (w : World) :
  let h := googleCallback new_id body in
  h (snd (h w)) = h w
  ∧ (∀ k u, users (db w) !! k = Some u -> users (db (snd (h w))) !! k = Some u)
  ∧ (∀ e u, g_email body = Some e ->
       head (filter (λ u, email u = e) (snd <$> map_to_list (users (db w))))
       = Some u ->
       h w = (Return (google_login u), w)).
Proof.
  cbn zeta.
  cut ((googleCallback new_id body (snd (googleCallback new_id body w))
        = googleCallback new_id body w
        ∧ (∀ k u, users (db w) !! k = Some u ->
             users (db (snd (googleCallback new_id body w))) !! k = Some u))
       ∧ (∀ e u, g_email body = Some e ->
            head (filter (λ u, email u = e) (snd <$> map_to_list (users (db w))))
            = Some u ->
            googleCallback new_id body w = (Return (google_login u), w))).
  { intros [[H1 H2] H3]. split; [exact H1|]. split; [exact H2|exact H3]. }
  split.
  2: { intros e u He Hu. by rewrite googleCallback_run, He, Hu. }
  rewrite (googleCallback_run new_id body w).
  destruct (g_email body) as [e|] eqn:He.
  2: { cbn [snd]. by rewrite googleCallback_run, He. }
  destruct (head (filter (λ u, email u = e) (snd <$> map_to_list (users (db w)))))
    as [u|] eqn:Hu.
  { cbn [snd]. by rewrite googleCallback_run, He, Hu. }
  cbn zeta.
  destruct (decide (is_Some _ ∨ _)) as [Hd|Hfree].
  { cbn [snd]. rewrite googleCallback_run, He, Hu. cbn zeta.
    by rewrite decide_True by done. }
  destruct (storage_ok w) eqn:Hok.
  2: { cbn [snd]. rewrite googleCallback_run, He, Hu. cbn zeta.
       rewrite decide_False by done. by rewrite Hok. }
  cbn [snd].
  set (user := {| user_id := new_id (db w); email := e; user_name := g_name body;
                  role := Role.USER |}).
  assert (users (db w) !! new_id (db w) = None) as Hnone.
  { destruct (users (db w) !! new_id (db w)) eqn:E; [|done].
    destruct Hfree. left. by eexists. }
  split.
  - rewrite googleCallback_run, He. cbn [db set_db registered users user_id].
    rewrite (head_filter_unique _ _ user); [done| |done|].
    + apply list_elem_of_fmap. exists (new_id (db w), user). split; [done|].
      apply elem_of_map_to_list. by rewrite lookup_insert_eq.
    + intros x ([k x'] & -> & Hk%elem_of_map_to_list)%list_elem_of_fmap Hx.
      cbn in *. apply lookup_insert_Some in Hk as [[_ <-]|[_ Hk]]; [done|].
      destruct (head_filter_None_inv _ _ x' Hu); [|done].
      apply list_elem_of_fmap. exists (k, x'). split; [done|].
      by apply elem_of_map_to_list.
  - intros k u Hk. cbn. rewrite lookup_insert_ne; [done|]. intros <-.
    by rewrite Hnone in Hk.
Qed.

End RegisterFacts.

(* ===================================================================== *)
(** * One live row for each user                                          *)
(* ===================================================================== *)

Module InvariantFacts.
Import UsageService BillingController BillingEndpoints AuthController.
Import prisma.subscription Vocabulary Ledger Linking.
Import UsageFacts BillingFacts EventFacts.

Lemma filter_live_weaken (g : Subscription -> Subscription)
    (l : list Subscription) (u : string) :
  (∀ r, userId (g r) = userId r ∧ (deletedAt (g r) = None -> deletedAt r = None)) ->
  length (filter (live u) (g <$> l)) <= length (filter (live u) l).
Proof.
  intros Hg. induction l as [|r rest IH]; [done|].
  rewrite fmap_cons, !filter_cons. destruct (Hg r) as [Hu Hd].
  destruct (decide (live u (g r))) as [[H1 H2]|H1];
    destruct (decide (live u r)) as [H3|H3]; cbn; try lia.
  destruct H3. split; [congruence|by apply Hd].
Qed.

Lemma sound_rewrite (g : Subscription -> Subscription) (d d' : DB) :
  (∀ r, userId (g r) = userId r ∧ (deletedAt (g r) = None -> deletedAt r = None)) ->
  subscriptions d' = g <$> subscriptions d ->
  dom (users d') = dom (users d) ->
  sound d -> sound d'.
Proof.
  intros Hg Hs Hu [Hfk Hone]. split.
  - intros r'. rewrite Hs. intros (r & -> & Hr)%list_elem_of_fmap.
    destruct (Hg r) as [-> _]. apply elem_of_dom. rewrite Hu.
    apply elem_of_dom. by apply Hfk.
  - intros u. rewrite Hs. etrans; [by apply filter_live_weaken|apply Hone].
Qed.

Lemma sound_same (d d' : DB) :
  subscriptions d' = subscriptions d -> dom (users d') = dom (users d) ->
  sound d -> sound d'.
Proof.
  intros Hs Hu. apply (sound_rewrite id); [done| |done].
  by rewrite list_fmap_id.
Qed.

Lemma sound_append (row : Subscription) (d d' : DB) :
  subscriptions d' = subscriptions d ++ [row] ->
  dom (users d) ⊆ dom (users d') ->
  userId row ∈ dom (users d') ->
  filter (live (userId row)) (subscriptions d) = [] ->
  sound d -> sound d'.
Proof.
  intros Hs Hu Hrow Hnone [Hfk Hone]. split.
  - intros r. rewrite Hs. intros [Hr| ->%list_elem_of_singleton]%elem_of_app.
    + apply elem_of_dom, Hu, elem_of_dom. by apply Hfk.
    + by apply elem_of_dom.
  - intros u. rewrite Hs, filter_app, length_app, filter_cons, filter_nil.
    destruct (decide (live u row)) as [[<- _]|]; cbn.
    + rewrite Hnone. cbn. lia.
    + specialize (Hone u). lia.
Qed.

Lemma on_id_weak (id : nat) (f : Subscription -> Subscription) :
  (∀ r, userId (f r) = userId r ∧ deletedAt (f r) = deletedAt r) ->
  ∀ r, userId (on_id id f r) = userId r
       ∧ (deletedAt (on_id id f r) = None -> deletedAt r = None).
Proof.
  intros Hf r. unfold on_id. destruct (decide _); [|done].
  destruct (Hf r) as [-> ->]. done.
Qed.

Lemma tombstoned_weak (u : string) (t : Z) :
  ∀ r, userId (tombstoned u t r) = userId r
       ∧ (deletedAt (tombstoned u t r) = None -> deletedAt r = None).
Proof. intros r. unfold tombstoned. by destruct (decide _). Qed.

Lemma handleSubscriptionUpdate_sound (ev : StripeSubscription) (w : World) :
  sound (db w) -> sound (db (snd (handleSubscriptionUpdate ev w))).
Proof.
  rewrite handleSubscriptionUpdate_run.
  destruct (head _) as [row|]; [|done]. destruct (storage_ok w); [|done].
  apply (sound_rewrite (on_id (sub_id row) (update_data ev))); [|done..].
  by apply on_id_weak.
Qed.

Lemma handleSubscriptionDeleted_sound (ev : StripeSubscription) (w : World) :
  sound (db w) -> sound (db (snd (handleSubscriptionDeleted ev w))).
Proof.
  rewrite handleSubscriptionDeleted_run.
  destruct (head _) as [row|]; [|done]. destruct (storage_ok w); [|done].
  intros Hs.
  assert (sound (db (canceled row w))) as Hc.
  { revert Hs. apply (sound_rewrite (on_id (sub_id row) deleted_data)); [|done..].
    by apply on_id_weak. }
  destruct (decide (is_Some _)); [|done]. revert Hc.
  apply sound_same; [done|]. cbn. by rewrite dom_alter_L.
Qed.

Lemma handlePaymentFailed_sound (invoice : Invoice) (w : World) :
  sound (db w) -> sound (db (snd (handlePaymentFailed invoice w))).
Proof.
  destruct (inv_subscription invoice) as [id|] eqn:Hid.
  - rewrite (handlePaymentFailed_run invoice id) by done.
    destruct (head _) as [row|]; [|done]. destruct (storage_ok w); [|done].
    apply (sound_rewrite (on_id (sub_id row) (set_status Status.PAST_DUE)));
      [|done..].
    by apply on_id_weak.
  - unfold handlePaymentFailed, find_by_invoice. by rewrite Hid.
Qed.

Lemma handlePaymentSucceeded_sound (invoice : Invoice) (w : World) :
  sound (db w) -> sound (db (snd (handlePaymentSucceeded invoice w))).
Proof.
  apply sound_same;
    unfold handlePaymentSucceeded, find_by_invoice,
      findUnique_stripeSubscriptionId, prisma.paymentHistory.create;
    prog_unfold; destruct (inv_subscription invoice); cbn; try done;
    destruct (head _); cbn; try done;
    destruct (decide _); cbn; try done;
    by destruct (storage_ok w).
Qed.

Lemma handleCheckoutCompleted_sound (s : CheckoutSession) (w : World) :
  sound (db w) -> sound (db (snd (handleCheckoutCompleted s w))).
Proof.
  intros Hs. unfold handleCheckoutCompleted.
  destruct (negb _ && negb _); [done|].
  unfold mbind at 1, Prog_bind at 1.
  destruct (retrieve_cases (cs_subscription s) w) as [[sub ->]| ->]; [|done].
  destruct (bool_decide _ || negb _); [done|].
  set (uid := default "" (cs_metadata s ≫= md_userId)).
  assert (sound (db (retombstoned uid w))) as Ht.
  { revert Hs. apply (sound_rewrite (tombstoned uid (clock w))); [|done..].
    apply tombstoned_weak. }
  unfold updateMany, create, prisma.user.update. prog_unfold.
  destruct w as [e d pr c ok con]. cbn in *. destruct ok; [|done]. cbn.
  destruct (decide (users d !! uid = None)) as [|Hown]; [done|].
  destruct (decide (is_Some _ ∧ _)); [done|]. cbn.
  assert (uid ∈ dom (users d)) as Hdom.
  { apply elem_of_dom. by destruct (users d !! uid). }
  revert Ht.
  destruct (decide (is_Some (users d !! uid))); cbn;
    (eapply sound_append; cbn;
     [reflexivity| |cbn; by rewrite ?dom_alter_L
     |cbn; apply filter_live_tombstoned]);
    by rewrite ?dom_alter_L.
Qed.

Lemma dispatch_sound (event : Event) (w : World) :
  sound (db w) -> sound (db (snd (dispatch event w))).
Proof.
  destruct event; cbn [dispatch];
    [apply handleCheckoutCompleted_sound|apply handleSubscriptionUpdate_sound
    |apply handleSubscriptionUpdate_sound|apply handleSubscriptionDeleted_sound
    |apply handlePaymentSucceeded_sound|apply handlePaymentFailed_sound|done].
Qed.

Lemma switch_event_sound (this : Receiver) (event : Event) (w : World) :
  sound (db w) -> sound (db (snd (switch_event this event w))).
Proof.
  intros Hs. destruct this.
  - rewrite switch_event_class. by apply dispatch_sound.
  - by destruct event.
Qed.

Lemma handleWebhook_sound (this : Receiver) (constructEvent : option Event)
    (w : World) :
  sound (db w) -> sound (db (snd (handleWebhook this constructEvent w))).
Proof.
  intros Hs. unfold handleWebhook. unfold mbind at 1, Prog_bind at 1, get_world.
  destruct (negb _); [done|]. destruct constructEvent as [event|]; [|done].
  unfold try_catch. unfold mbind at 1, Prog_bind at 1.
  pose proof (switch_event_sound this event w Hs) as Hd.
  by destruct (switch_event this event w) as [[[]|e] w1].
Qed.

Lemma createGuestCheckoutSession_db (body : GuestCheckoutBody) (w : World) :
  db (snd (createGuestCheckoutSession body w)) = db w.
Proof.
  unfold createGuestCheckoutSession, try_catch.
  unfold mbind at 1, Prog_bind at 1, get_world.
  destruct (negb (stripe.configured (env w))); [done|].
  destruct (negb (str_truthy (body_email body))); [done|].
  destruct (negb (bool_decide _)); [done|].
  unfold mbind at 1, Prog_bind at 1.
  destruct (PLANS_get _ _) as [plan|]; [|done].
  unfold mret at 1, Prog_ret at 1.
  destruct (negb (str_truthy (priceId plan))); [done|].
  unfold prisma.user.findUnique_email, findFirst, stripe.customers.create,
    stripe.checkout_sessions.create.
  prog_unfold. cbn.
  destruct (head _) as [u|]; cbn.
  - by destruct (str_truthy _).
  - done.
Qed.

Lemma createCheckoutSession_sound (u : string) (body : CheckoutBody) (w : World) :
  sound (db w) -> sound (db (snd (createCheckoutSession u body w))).
Proof.
  intros Hs. remember (createCheckoutSession u body w) as r eqn:E.
  unfold createCheckoutSession, try_catch in E.
  unfold mbind at 1, Prog_bind at 1, get_world in E.
  destruct (stripe.configured (env w)) eqn:Hcfg; cbn [negb] in E; [|by subst].
  destruct (decide (default "PRO" (checkout_planType body)
                    ∈ ["BASIC"; "PRO"; "PREMIUM"])) as [Hv|Hv].
  2: { rewrite bool_decide_eq_false_2 in E by done. by subst. }
  rewrite bool_decide_eq_true_2 in E by done. cbn [negb] in E.
  destruct (ReportFacts.backend_plan (env w) _ Hv) as [Hget Hback].
  rewrite Hget, Hback in E.
  unfold mbind at 1, Prog_bind at 1 in E. unfold mret at 1, Prog_ret at 1 in E.
  cbn [PLANS priceId] in E. rewrite str_or_truthy in E by done. cbn [negb] in E.
  unfold mbind at 1, Prog_bind at 1 in E.
  cbn [findFirst prisma.read] in E.
  fold (live u) in E.
  destruct (head (filter (live u) (subscriptions (db w)))) as [row|] eqn:Hrow.
  - cbn [mbind option_bind] in E.
    destruct (str_truthy (stripeCustomerId row)) eqn:Hc; [by subst|].
    unfold link_customer, prismaQueries.user_findUnique_id, update in E.
    prog_unfold. cbn in E.
    destruct (users (db w) !! u) as [user|] eqn:Hu; [|by subst].
    apply head_filter_Some in Hrow as Hin. destruct Hin as [Hin Hlive].
    rewrite decide_True in E by by apply Exists_sub_id.
    cbn in E. destruct (storage_ok w) eqn:Hok; cbn in E; [|by subst].
    subst r. cbn [fst snd]. revert Hs.
    apply (sound_rewrite (on_id (sub_id row)
                            (set_stripeCustomerId (Some ("cus_" +:+ pretty (length
                               (stripe_customers (provider w))))))));
      [|done..].
    by apply on_id_weak.
  - cbn [mbind option_bind str_truthy] in E.
    unfold link_customer, prismaQueries.user_findUnique_id, create in E.
    prog_unfold. cbn in E.
    destruct (users (db w) !! u) as [user|] eqn:Hu; [|by subst].
    rewrite decide_False in E by (by rewrite Hu).
    rewrite decide_False in E by (by intros [[? [=]] _]).
    cbn in E. destruct (storage_ok w) eqn:Hok; cbn in E; [|by subst].
    subst r. cbn [fst snd]. revert Hs.
    eapply sound_append; [reflexivity|done| |].
    + cbn. apply elem_of_dom. by rewrite Hu.
    + cbn. by apply ReportFacts.head_filter_nil.
Qed.

Lemma link_session_db (sessionId : option string) (w : World) :
  ∃ l w1, link_session sessionId w = (Return l, w1)
    ∧ db w1 = db w ∧ clock w1 = clock w ∧ storage_ok w1 = storage_ok w.
Proof.
  destruct (linkable sessionId w) as [[s sub]|] eqn:E.
  - eexists _, _. split; [by apply (RegisterFacts.link_session_linkable _ _ s sub)|done].
  - destruct (RegisterFacts.link_session_unlinked _ _ E) as (w1 & -> & [->| ->]);
      by eexists _, _.
Qed.

Lemma register_sound (new_id : DB -> string) (body : RegisterBody) (w : World) :
  sound (db w) -> sound (db (snd (register new_id body w))).
Proof.
  intros Hs. unfold register, try_catch.
  destruct (negb _ || negb _); [done|].
  unfold mbind at 1, Prog_bind at 1, prisma.user.findUnique_email, prisma.read.
  destruct (head _); [done|].
  unfold mbind at 1, Prog_bind at 1.
  destruct (link_session_db (reg_sessionId body) w) as (l & w1 & -> & Hdb & Hcl & Hok).
  unfold mbind at 1, Prog_bind at 1. unfold user_create. prog_unfold.
  cbn.
  destruct (PlanType_of _) as [p|]; [|cbn; by rewrite Hdb].
  destruct (decide (is_Some _ ∨ _)) as [|Hfree]; [cbn; by rewrite Hdb|].
  destruct (decide (is_Some _ ∧ _)); [cbn; by rewrite Hdb|].
  rewrite Hok. destruct (storage_ok w); [|cbn; by rewrite Hdb].
  cbn. rewrite !Hdb. rewrite Hdb in Hfree. pose proof Hs as [Hfk _]. revert Hs.
  eapply sound_append; [reflexivity| | |]; cbn.
  - rewrite dom_insert_L. set_solver.
  - rewrite dom_insert_L. set_solver.
  - apply ReportFacts.head_filter_nil, head_filter_None.
    intros r Hr [Hu _]. destruct Hfree. left. rewrite <-Hu. by apply Hfk.
Qed.

Lemma googleCallback_sound (new_id : DB -> string) (body : GoogleBody) (w : World) :
  sound (db w) -> sound (db (snd (googleCallback new_id body w))).
Proof.
  intros Hs. rewrite RegisterFacts.googleCallback_run.
  destruct (g_email body) as [e|]; [|done]. destruct (head _); [done|].
  cbn zeta. destruct (decide (is_Some _ ∨ _)) as [|Hfree]; [done|].
  destruct (storage_ok w); [|done]. cbn [snd db set_db].
  pose proof Hs as [Hfk _]. revert Hs.
  eapply sound_append; [reflexivity| | |]; cbn.
  - rewrite dom_insert_L. set_solver.
  - rewrite dom_insert_L. set_solver.
  - apply ReportFacts.head_filter_nil, head_filter_None.
    intros r Hr [Hu _]. destruct Hfree. left. rewrite <-Hu. by apply Hfk.
Qed.

Lemma head_latest (l : list Subscription) :
  length l <= 1 -> head l = latest l.
Proof. destruct l as [|a [|b rest]]; cbn; [done..|lia]. Qed.

(** The writers of the subscription table keep its integrity: if every
    row belongs to a user and no user has two rows that are not tombstoned,
    the same holds after [handleWebhook] (whatever the receiver and the
    event, and however its handler ends), after each handler run directly,
    after [createCheckoutSession], after [register] and after
    [googleCallback]; [createGuestCheckoutSession] never writes to the
    database at all. *)
Theorem writers_keep_one_live_row (w : World) :
  sound (db w) ->
  (∀ this constructEvent, sound (db (snd (handleWebhook this constructEvent w))))
  ∧ (∀ event, sound (db (snd (dispatch event w))))
  ∧ (∀ u body, sound (db (snd (createCheckoutSession u body w))))
  ∧ (∀ new_id body, sound (db (snd (register new_id body w))))
  ∧ (∀ new_id body, sound (db (snd (googleCallback new_id body w))))
  ∧ (∀ body, db (snd (createGuestCheckoutSession body w)) = db w).
Proof.
  intros Hs.
  split; [intros; by apply handleWebhook_sound|].
  split; [intros; by apply dispatch_sound|].
  split; [intros; by apply createCheckoutSession_sound|].
  split; [intros; by apply register_sound|].
  split; [intros; by apply googleCallback_sound|].
  intros; apply createGuestCheckoutSession_db.
Qed.

(** While the table has that integrity, the lookups agree on a user's row:
    the first live row, which [createCheckoutSession] takes the customer id
    from, is the latest live row, which [getUserPlan] resolves the plan from
    and [getBillingInfo] reports. *)
Theorem live_row_unambiguous (u : string) (w : World) :
  sound (db w) ->
  findFirst (λ r, userId r = u ∧ deletedAt r = None) unordered w
  = findFirst (λ r, userId r = u ∧ deletedAt r = None) createdAt_desc w
  ∧ up_subscription <$> fst_return (getUserPlan u w)
    = Some (head (filter (live u) (subscriptions (db w))))
  ∧ resolved u w
    = Some (plan_of (head (filter (live u) (subscriptions (db w))))).
Proof.
  intros [_ Hone]. specialize (Hone u).
  pose proof (head_latest _ Hone) as E.
  unfold findFirst, prisma.read. fold (live u). rewrite E.
  split; [done|]. rewrite getUserPlan_run, resolved_eq. done.
Qed.

End InvariantFacts.

(* ===================================================================== *)
(** * The further properties on the concrete world                        *)
(* ===================================================================== *)

Module MoreInstances.
Import UsageService BillingController BillingEndpoints Vocabulary Ledger.
Import Scenario Deliveries.

Lemma no_sub_B (r : Subscription) :
  r ∈ subscriptions (db world0) -> stripeSubscriptionId r ≠ Some "sub_B".
Proof. intros Hr. cbn in Hr. in_cases Hr; discriminate. Defined.

(** An unknown class name is charged as text. *)
Lemma calculateCost_fallback_witness :
  Cost.calculateCost 1000 "image" = Cost.calculateCost 1000 "text".
Proof.
  apply CostFacts.calculateCost_fallback.
  - discriminate.
  - discriminate.
  - apply (bool_decide_unpack _). vm_compute. exact I.
Defined.

(** Bob's completed checkout tombstones his row, appends a PRO row and
    makes him PRO. *)
Lemma handleCheckoutCompleted_resolved_witness :
  ∃ w', handleCheckoutCompleted unpaid_session world0 = (Return (), w')
    ∧ length (subscriptions (db w')) = 4
    ∧ role <$> users (db w') !! "u2" = Some Role.PRO.
Proof.
  destruct (BillingFacts.handleCheckoutCompleted_resolved
              unpaid_session "u2" sub_B_event bob world0)
    as (w' & E & Hs & Hu).
  - reflexivity.
  - discriminate.
  - discriminate.
  - reflexivity.
  - reflexivity.
  - exact no_sub_B.
  - reflexivity.
  - exists w'. split; [exact E|]. rewrite Hs, Hu. split; reflexivity.
Defined.

(** Two deliveries of the invoice paid on Alice's subscription leave two
    payment records. *)
Lemma payment_succeeded_appends_witness :
  ∃ w1 w2,
    dispatch (invoice_payment_succeeded invoice_A) world0 = (Return (), w1)
    ∧ dispatch (invoice_payment_succeeded invoice_A) w1 = (Return (), w2)
    ∧ length (paymentHistory (db w2)) = 2.
Proof.
  destruct (EventFacts.payment_succeeded_appends invoice_A "sub_A" alice_pro world0)
    as (E1 & E2 & _).
  - reflexivity.
  - right. left.
  - reflexivity.
  - exact Instances.sub_A_unique.
  - exists alice. reflexivity.
  - reflexivity.
  - eexists _, _. split; [exact E1|]. split; [exact E2|]. reflexivity.
Defined.

(** Bob's completed checkout makes him resolve to PRO and leaves Alice on
    PRO. *)
Lemma checkout_completed_entitles_witness :
  ∃ w', dispatch (checkout_session_completed unpaid_session) world0
        = (Return (), w')
    ∧ resolved "u2" world0 = Some PlanType.FREE
    ∧ resolved "u2" w' = Some PlanType.PRO
    ∧ resolved "u1" w' = Some PlanType.PRO.
Proof.
  destruct (EventFacts.checkout_completed_entitles
              unpaid_session "u2" sub_B_event world0)
    as (w' & E & Hpro & _ & Hother).
  - reflexivity.
  - discriminate.
  - discriminate.
  - reflexivity.
  - exists bob. reflexivity.
  - exact no_sub_B.
  - reflexivity.
  - exists w'. split; [exact E|]. split; [reflexivity|]. split; [exact Hpro|].
    rewrite (Hother "u1"); [reflexivity|discriminate].
Defined.

(** The second delivery of Bob's completed checkout throws and leaves him
    with the role PRO on the FREE plan. *)
Lemma checkout_redelivery_downgrades_witness :
  ∃ w1 w2,
    dispatch (checkout_session_completed unpaid_session) world0 = (Return (), w1)
    ∧ dispatch (checkout_session_completed unpaid_session) w1
      = (Throw UniqueConstraintFailed, w2)
    ∧ resolved "u2" w2 = Some PlanType.FREE
    ∧ role <$> users (db w2) !! "u2" = Some Role.PRO.
Proof.
  destruct (EventFacts.checkout_redelivery_downgrades
              unpaid_session "u2" sub_B_event world0)
    as (w1 & w2 & E1 & E2 & Hfree & _ & _ & Hrole).
  - reflexivity.
  - discriminate.
  - discriminate.
  - reflexivity.
  - exists bob. reflexivity.
  - exact no_sub_B.
  - reflexivity.
  - exists w1, w2. split; [exact E1|]. split; [exact E2|].
    split; [exact Hfree|exact Hrole].
Defined.

(** Deleting Alice's subscription puts her on FREE and leaves Bob where he
    was. *)
Lemma subscription_deleted_unentitles_witness :
  resolved "u1" world0 = Some PlanType.PRO
  ∧ resolved "u1" (snd (dispatch (customer_subscription_deleted sub_A_event) world0))
    = Some PlanType.FREE
  ∧ resolved "u2" (snd (dispatch (customer_subscription_deleted sub_A_event) world0))
    = resolved "u2" world0.
Proof.
  split; [reflexivity|]. split.
  - exact (EventFacts.subscription_deleted_unentitles
             sub_A_event alice_pro world0 eq_refl eq_refl "u1").
  - exact (EventFacts.subscription_deleted_unentitles
             sub_A_event alice_pro world0 eq_refl eq_refl "u2").
Defined.

(** Bob asks for a checkout twice: the second call writes nothing and
    creates no customer. *)
Lemma createCheckoutSession_reuses_customer_witness :
  fst (createCheckoutSession "u2" default_body world0)
  = Return (checkout_json "cs_0")
  ∧ db (snd (createCheckoutSession "u2" default_body
               (snd (createCheckoutSession "u2" default_body world0))))
    = db (snd (createCheckoutSession "u2" default_body world0))
  ∧ stripe_customers
      (provider (snd (createCheckoutSession "u2" default_body
                        (snd (createCheckoutSession "u2" default_body world0)))))
    = stripe_customers
        (provider (snd (createCheckoutSession "u2" default_body world0))).
Proof.
  split; [reflexivity|].
  destruct (ReportFacts.createCheckoutSession_reuses_customer
              "u2" default_body default_body world0 "cs_0")
    as (Hdb & Hcus & _).
  - reflexivity.
  - split; [exact Hdb|exact Hcus].
Defined.

Lemma no_user_has (e : string) (d : DB) :
  bool_decide (map_Forall (λ _ u, email u ≠ e) (users d)) = true ->
  ∀ k u, users d !! k = Some u -> email u ≠ e.
Proof. intros H%bool_decide_eq_true_1. exact H. Defined.

Lemma admits_carol (w : World) :
  users (db w) = users (db world0) ->
  subscriptions (db w) = subscriptions (db world0) ->
  nextId (db w) = 100 ->
  Linking.admits "carol@example.com" (user_key (db w)) (db w).
Proof.
  intros Hu Hs Hn. unfold Linking.admits, user_key. rewrite Hu, Hs, Hn.
  split; [|split].
  - apply (no_user_has _ (db world0)). vm_compute. reflexivity.
  - vm_compute. reflexivity.
  - intros r Hr. cbn in Hr. in_cases Hr; discriminate.
Defined.

(** Carol registers with the paid guest session of [a@b.com] and is PRO. *)
Lemma register_links_paid_session_witness :
  ∃ user w',
    AuthController.register user_key carol_body world_paid
    = (Return (register_created user), w')
    ∧ email user = "carol@example.com" ∧ role user = Role.PRO
    ∧ Linking.linkable (Some "cs_test_g1") world_paid
      = Some (guest_session, sub_G_event)
    ∧ (cs_metadata guest_session ≫= md_email) = Some "a@b.com"
    ∧ resolved (user_id user) w' = Some PlanType.PRO.
Proof.
  destruct (RegisterFacts.register_links_paid_session
              user_key carol_body "carol@example.com" guest_session
              sub_G_event world_paid)
    as (E & Hpro & _).
  - reflexivity.
  - discriminate.
  - reflexivity.
  - vm_compute. reflexivity.
  - reflexivity.
  - apply admits_carol; reflexivity.
  - intros r Hr. cbn in Hr. in_cases Hr; discriminate.
  - reflexivity.
  - eexists _, _. split; [exact E|]. split; [reflexivity|]. split; [reflexivity|].
    split; [vm_compute; reflexivity|]. split; [reflexivity|exact Hpro].
Defined.

(** Carol names a session the provider does not have: she is registered on
    the base tier. *)
Lemma register_base_tier_witness :
  ∃ user w',
    AuthController.register user_key carol_body world0
    = (Return (register_created user), w')
    ∧ role user = Role.USER
    ∧ resolved (user_id user) w' = Some PlanType.FREE.
Proof.
  destruct (RegisterFacts.register_base_tier
              user_key carol_body "carol@example.com" world0)
    as (w' & E & _ & _ & Hfree & _).
  - reflexivity.
  - discriminate.
  - reflexivity.
  - vm_compute. reflexivity.
  - apply admits_carol; reflexivity.
  - reflexivity.
  - eexists _, w'. split; [exact E|]. split; [reflexivity|exact Hfree].
Defined.

(** Dave names the session Carol registered with: his registration fails
    and creates nothing. *)
Lemma register_linked_session_fails_witness :
  AuthController.register user_key dave_body world_linked
  = (Return (register_next UniqueConstraintFailed), world_linked)
  ∧ length (subscriptions (db world_linked)) = 4.
Proof.
  split; [|vm_compute; reflexivity].
  apply (RegisterFacts.register_linked_session_fails
           user_key dave_body "dave@example.com" guest_session sub_G_event
           (Linking.registered_row "user_100" PlanType.PRO
              {| l_stripeCustomerId := Some "cus_G";
                 l_stripeSubscriptionId := Some "sub_G";
                 l_planType := "PRO"; l_subscriptionStatus := Status.ACTIVE;
                 l_currentPeriodStart := Some 1710504000000%Z;
                 l_currentPeriodEnd := Some 1713182400000%Z |}
              world_paid)).
  - reflexivity.
  - discriminate.
  - reflexivity.
  - vm_compute. reflexivity.
  - discriminate.
  - apply no_user_has. vm_compute. reflexivity.
  - vm_compute. do 3 right. left.
  - reflexivity.
Defined.

(** Alice resolves to PRO and has ten conversions in March 2024: the
    check as [createNote] runs it refuses her, and the gate with it. In
    Paris at noon on 31 March 2024 the window opens at 23:00 UTC on 29
    February: of Bob's conversions the one at 22:30 UTC that day is left out
    and the one at 23:30 is counted. *)
Lemma checkUsageLimit_meters_paid_tier_witness :
  resolved "u1" world_alice_busy = Some PlanType.PRO
  ∧ fst (AIService.checkUsageLimit "u1" (Some "PRO") world_alice_busy)
    = Return {| allowed := true; used := None; limit := None |}
  ∧ fst (AIService.checkUsageLimit "u1" None world_alice_busy)
    = Return {| allowed := false; used := Some 10; limit := Some 10%Z |}
  ∧ fst (NoteController.createNote_gate "u1" world_alice_busy)
    = Return (conversion_limit_reached (Some 10) (Some 10%Z))
  ∧ (∃ T, Calendar.starts_month_of env0 (clock world_alice_busy) T
       ∧ length (filter (λ r, usage_userId r = "u1" ∧ operation r = "ocr"
                              ∧ (T <= usage_createdAt r)%Z)
                        (aIUsage (db world_alice_busy))) = 10)
  ∧ AIService.startOfMonth paris (clock world_paris) = 1709247600000%Z
  ∧ fst (AIService.checkUsageLimit "u2" (Some "FREE") world_paris)
    = Return {| allowed := true; used := Some 2; limit := Some 10%Z |}
  ∧ (∃ T, Calendar.starts_month_of paris (clock world_paris) T
       ∧ length (filter (λ r, usage_userId r = "u2" ∧ operation r = "ocr"
                              ∧ (T <= usage_createdAt r)%Z)
                        paris_usage) = 2).
Proof.
  destruct (ReportFacts.checkUsageLimit_meters_paid_tier "u1" world_alice_busy)
    as (T & HT & Hpro & Hbase & _ & _ & _ & _ & Hgate).
  { vm_compute. split; reflexivity. }
  { unfold Calendar.in_range. vm_compute. split; discriminate. }
  destruct (ReportFacts.checkUsageLimit_meters_paid_tier "u2" world_paris)
    as (T' & HT' & _ & Hbase' & _).
  { vm_compute. split; reflexivity. }
  { unfold Calendar.in_range. vm_compute. split; discriminate. }
  assert (AIService.checkUsageLimit "u1" None world_alice_busy
          = (Return {| allowed := false; used := Some 10; limit := Some 10%Z |},
             world_alice_busy)) as E by (vm_compute; reflexivity).
  assert (AIService.checkUsageLimit "u2" (Some "FREE") world_paris
          = (Return {| allowed := true; used := Some 2; limit := Some 10%Z |},
             world_paris)) as E' by (vm_compute; reflexivity).
  set (n := length (filter _ (aIUsage (db world_alice_busy)))) in *.
  set (n' := length (filter _ (aIUsage (db world_paris)))) in *.
  pose proof (Hbase None ltac:(discriminate)) as Hn. rewrite E in Hn.
  injection Hn as _ Hn.
  pose proof (Hbase' (Some "FREE") ltac:(discriminate)) as Hn'. rewrite E' in Hn'.
  injection Hn' as _ Hn'.
  destruct (Hgate eq_refl) as (r & _ & _ & _ & Hg).
  split; [reflexivity|]. split; [by rewrite Hpro|]. split; [by rewrite E|].
  split; [rewrite Hg, <-Hn; reflexivity|].
  split; [exists T; split; [exact HT|symmetry; exact Hn]|].
  split; [vm_compute; reflexivity|]. split; [by rewrite E'|].
  exists T'. split; [exact HT'|symmetry; exact Hn'].
Defined.

(** Noon in Paris on 31 March 2024, after the clocks went forward: the
    month began at 23:00 UTC on 29 February, so Bob's conversion at 23:30
    UTC that day counts and the one at 22:30 does not. *)
Lemma getMonthlyUsage_breakdown_witness :
  AIService.startOfMonth paris (clock world_paris) = 1709247600000%Z
  ∧ JsDate.utc 2024 2 29 23 0 0 0 = 1709247600000%Z
  ∧ clock world_paris = 1711879200000%Z
  ∧ ∃ T m, Calendar.starts_month_of paris (clock world_paris) T
      ∧ UsageReports.getMonthlyUsage "u2" world_paris = (Return m, world_paris)
      ∧ usage m = [ title_at 33 "u2" (JsDate.utc 2024 3 10 9 0 1 0);
                    ocr_at 32 "u2" (JsDate.utc 2024 3 10 9 0 0 0);
                    ocr_at 31 "u2" (JsDate.utc 2024 2 29 23 30 0 0) ]
      ∧ total m = 3
      ∧ byOperation m !! "ocr" = Some (count_number 2)
      ∧ usage m ≡ₚ filter (λ r, usage_userId r = "u2" ∧ (T <= usage_createdAt r)%Z)
                          paris_usage.
Proof.
  split; [vm_compute; reflexivity|]. split; [vm_compute; reflexivity|].
  split; [vm_compute; reflexivity|].
  destruct (ReportFacts.getMonthlyUsage_breakdown "u2" world_paris)
    as (T & m & HT & E & Hperm & _ & Htotal & Hop & _).
  - vm_compute. split; reflexivity.
  - unfold Calendar.in_range. vm_compute. split; discriminate.
  - exists T, m. split; [exact HT|]. split; [exact E|].
    assert (usage <$> fst_return (UsageReports.getMonthlyUsage "u2" world_paris)
            = Some [ title_at 33 "u2" (JsDate.utc 2024 3 10 9 0 1 0);
                     ocr_at 32 "u2" (JsDate.utc 2024 3 10 9 0 0 0);
                     ocr_at 31 "u2" (JsDate.utc 2024 2 29 23 30 0 0) ]) as Hu
      by (vm_compute; reflexivity).
    assert (total <$> fst_return (UsageReports.getMonthlyUsage "u2" world_paris)
            = Some 3) as Ht by (vm_compute; reflexivity).
    assert ((λ m, byOperation m !! "ocr")
              <$> fst_return (UsageReports.getMonthlyUsage "u2" world_paris)
            = Some (Some (count_number 2))) as Hb by (vm_compute; reflexivity).
    rewrite E in Hu, Ht, Hb. cbn in Hu, Ht, Hb.
    injection Hu as Hu. injection Ht as Ht. injection Hb as Hb.
    split; [exact Hu|]. split; [exact Ht|]. split; [exact Hb|exact Hperm].
Defined.

Lemma world0_sound : sound (db world0).
Proof.
  split.
  - intros r Hr. cbn in Hr. in_cases Hr; vm_compute; eexists; reflexivity.
  - intros u.
    change (subscriptions (db world0)) with [alice_free; alice_pro; bob_free].
    rewrite !filter_cons, filter_nil.
    destruct (decide (live u alice_free)) as [[_ H]|_]; [discriminate H|].
    destruct (decide (live u alice_pro)) as [[<- _]|_];
      destruct (decide (live _ bob_free)) as [[H _]|_];
      cbn [length]; try lia; discriminate H.
Defined.

(** The concrete world has one live row for each user, and so it has after
    Bob's checkout completed and after Carol registered. *)
Lemma writers_keep_one_live_row_witness :
  sound (db world0)
  ∧ sound (db (snd (dispatch (checkout_session_completed unpaid_session) world0)))
  ∧ sound (db (snd (AuthController.register user_key carol_body world0))).
Proof.
  destruct (InvariantFacts.writers_keep_one_live_row world0 world0_sound)
    as (_ & Hd & _ & Hr & _ & _).
  split; [exact world0_sound|]. split; [apply Hd|apply Hr].
Defined.

(** In the concrete world Alice's first live row is her latest. *)
Lemma live_row_unambiguous_witness :
  head (filter (live "u1") (subscriptions (db world0))) = Some alice_pro
  ∧ up_subscription <$> fst_return (getUserPlan "u1" world0)
    = Some (head (filter (live "u1") (subscriptions (db world0)))).
Proof.
  split; [reflexivity|].
  destruct (InvariantFacts.live_row_unambiguous "u1" world0 world0_sound)
    as (_ & H & _).
  exact H.
Defined.

End MoreInstances.
